(** * DiffRhythm-gui: the job orchestration core of [app.py]

    A shallow embedding of the generation pipeline of [src/app.py]: the
    job gate ([RUN_LOCK]), the project paths ([project_path]), the command
    builder ([build_infer_cmd]), the process runner and artifact relocator
    ([run_infer]), the history ledger ([read_history], [write_history]) and
    the two request handlers ([api_generate], [api_generate_json]); and of
    what stands around it: the upload helpers ([secure_name], [save_b64],
    [save_from_url]), the configuration ([save_config], [api_config]) and
    the project, file and favorites routes.

    Python values are an inductive type, dictionaries are finite maps, the
    file system is an ordered table of paths, and every function that
    touches the lock, the file system or the process table is a function
    in a state-and-exception monad over [world]. *)

From Stdlib Require Import Ascii String ZArith.
From stdpp Require Import base strings list gmap pretty.

Open Scope string_scope.
Open Scope list_scope.

(** ** Part I: definitions *)

(** *** Strings, as the [str] methods the program calls

    A [str] is kept as its UTF-8 bytes. A character is one byte below 128
    or a lead byte with the continuation bytes that follow it, so a
    search for an ASCII character or an ASCII string meets the same
    places in the bytes as in the characters. *)

Module Str.

Fixpoint drop_while (f : ascii → bool) (s : string) : string :=
  match s with
  | "" => ""
  | String c r => if f c then drop_while f r else s
  end.

(** [s.lstrip(chars)], [s.rstrip(chars)] and [s.strip(chars)], the set of
    stripped characters given as a predicate. *)
Definition lstrip (f : ascii → bool) (s : string) : string := drop_while f s.

Definition rstrip (f : ascii → bool) (s : string) : string :=
  String.rev (drop_while f (String.rev s)).

Definition strip_with (f : ascii → bool) (s : string) : string :=
  rstrip f (lstrip f s).

(** The characters for which [str.isspace] holds, which are the ones
    [s.strip()] removes: U+0009 to U+000D and U+001C to U+0020, of one
    byte; U+0085 and U+00A0, of two bytes; U+1680, U+2000 to U+200A,
    U+2028, U+2029, U+202F, U+205F and U+3000, of three bytes. *)
Definition is_space (c : ascii) : bool :=
  let n := nat_of_ascii c in
  (Nat.leb 9 n && Nat.leb n 13) || (Nat.leb 28 n && Nat.leb n 32).

Definition is_space2 (c d : ascii) : bool :=
  Nat.eqb (nat_of_ascii c) 194
  && (Nat.eqb (nat_of_ascii d) 133 || Nat.eqb (nat_of_ascii d) 160).

Definition is_space3 (c d e : ascii) : bool :=
  let c := nat_of_ascii c in
  let d := nat_of_ascii d in
  let e := nat_of_ascii e in
  (Nat.eqb c 225 && Nat.eqb d 154 && Nat.eqb e 128)
  || (Nat.eqb c 226 && Nat.eqb d 128
      && ((Nat.leb 128 e && Nat.leb e 138)
          || Nat.eqb e 168 || Nat.eqb e 169 || Nat.eqb e 175))
  || (Nat.eqb c 226 && Nat.eqb d 129 && Nat.eqb e 159)
  || (Nat.eqb c 227 && Nat.eqb d 128 && Nat.eqb e 128).

(** Drop the characters at the head of [s] that [one], [two] or [three]
    recognise by their bytes. *)
Fixpoint drop_chars (one : ascii → bool) (two : ascii → ascii → bool)
    (three : ascii → ascii → ascii → bool) (s : string) : string :=
  match s with
  | "" => ""
  | String c r =>
      if one c then drop_chars one two three r
      else
        match r with
        | "" => s
        | String d r1 =>
            if two c d then drop_chars one two three r1
            else
              match r1 with
              | "" => s
              | String e r2 =>
                  if three c d e then drop_chars one two three r2 else s
              end
        end
  end.

(** [s.lstrip()]; and [s.rstrip()], which meets the bytes of the last
    character in reverse order. A lead byte never continues another
    character, so the bytes of a white-space character at the end of [s]
    are that character. *)
Definition lstrip_space (s : string) : string :=
  drop_chars is_space is_space2 is_space3 s.

Definition rstrip_space (s : string) : string :=
  String.rev (drop_chars is_space (λ d c, is_space2 c d)
                         (λ e d c, is_space3 c d e) (String.rev s)).

(** [s.strip()] *)
Definition strip (s : string) : string := rstrip_space (lstrip_space s).

Definition is_slash (c : ascii) : bool := bool_decide (c = "/"%char).

(** [s.strip("/")] *)
Definition strip_slashes (s : string) : string := strip_with is_slash s.

(** [s.replace(old, new)] for a non-empty [old]: occurrences are replaced
    from left to right and do not overlap; [skip] counts the characters of
    a matched occurrence that are still to be passed over. *)
Fixpoint replace_go (old new : string) (skip : nat) (s : string) : string :=
  match s with
  | "" => ""
  | String c r =>
      match skip with
      | S k => replace_go old new k r
      | O =>
          if String.prefix old s
          then new +:+ replace_go old new (String.length old - 1) r
          else String c (replace_go old new 0 r)
      end
  end.

Definition replace (old new s : string) : string := replace_go old new 0 s.

(** [s.split(sep)] for a one-character separator. *)
Fixpoint split_go (sep : ascii) (cur : string) (s : string) : list string :=
  match s with
  | "" => [String.rev cur]
  | String c r =>
      if bool_decide (c = sep)
      then String.rev cur :: split_go sep "" r
      else split_go sep (String c cur) r
  end.

Definition split (sep : ascii) (s : string) : list string := split_go sep "" s.

(** [sep.join(parts)] *)
Fixpoint join (sep : string) (parts : list string) : string :=
  match parts with
  | [] => ""
  | [p] => p
  | p :: rest => p +:+ sep +:+ join sep rest
  end.

(** [pat in s] *)
Fixpoint contains (pat s : string) : bool :=
  String.prefix pat s ||
  match s with
  | "" => false
  | String _ r => contains pat r
  end.

(** [s.endswith(ext)] *)
Definition ends_with (ext s : string) : bool :=
  String.prefix (String.rev ext) (String.rev s).

Definition starts_with (pre s : string) : bool := String.prefix pre s.

(** [s[:n]] *)
Fixpoint take (n : nat) (s : string) : string :=
  match n, s with
  | S k, String c r => String c (take k r)
  | _, _ => ""
  end.

(** [ch.isalnum()] of an ASCII character. *)
Definition is_alnum (c : ascii) : bool :=
  let n := nat_of_ascii c in
  (Nat.leb 48 n && Nat.leb n 57) || (Nat.leb 65 n && Nat.leb n 90)
  || (Nat.leb 97 n && Nat.leb n 122).

Definition is_ascii (c : ascii) : bool := Nat.ltb (nat_of_ascii c) 128.

(** A continuation byte, [10xxxxxx]. *)
Definition is_cont (c : ascii) : bool :=
  Nat.leb 128 (nat_of_ascii c) && Nat.ltb (nat_of_ascii c) 192.

Definition starts_cont (s : string) : bool :=
  match s with
  | "" => false
  | String c _ => is_cont c
  end.

(** [list(s)], the characters of [s]: an ASCII byte, or a byte outside
    ASCII with the continuation bytes that follow it. *)
Fixpoint chars (s : string) : list string :=
  match s with
  | "" => []
  | String c r =>
      match chars r with
      | ch :: rest =>
          if negb (is_ascii c) && starts_cont ch then String c ch :: rest
          else String c "" :: ch :: rest
      | [] => [String c ""]
      end
  end.

(** [sep.join(parts)] for the empty separator. *)
Fixpoint concat (parts : list string) : string :=
  match parts with
  | [] => ""
  | p :: rest => p +:+ concat rest
  end.

(** ["".join(ch for ch in s if f(ch))] *)
Definition filter (f : string → bool) (s : string) : string :=
  concat (List.filter f (chars s)).

Definition nonempty (s : string) : bool := negb (bool_decide (s = "")).

End Str.


(** *** Paths, as [pathlib] presents them

    A path is the list of its components below the root; the program only
    handles absolute paths. *)

Abbreviation path := (list string).

Module Path.

(** The parts of [PurePosixPath(s)] below its anchor: empty components and
    ["."] are dropped, [".."] is kept. *)
Definition components (s : string) : list string :=
  List.filter (λ c, Str.nonempty c && negb (bool_decide (c = ".")))
              (Str.split "/" s).

(** [p / s]: an absolute [s] replaces [p]. *)
Definition join (p : path) (s : string) : path :=
  if Str.starts_with "/" s then components s else p ++ components s.

(** [str(p)] *)
Definition to_string (p : path) : string := "/" +:+ Str.join "/" p.

(** [p.name] *)
Definition name (p : path) : string := List.last p "".

(** [p.parent] *)
Definition parent (p : path) : path := removelast p.

(** [list(p.parents)]: the proper ancestors, nearest first. *)
Definition parents (p : path) : list path :=
  List.map (λ n, take n p) (rev (seq 0 (length p))).

(** [PurePosixPath(s).name] of a string. *)
Definition basename (s : string) : string := name (components s).

(** A resolver for a file system without symbolic links: [".."] steps to
    the parent, and stays at the root there. *)
Definition lexical_resolve (p : path) : path :=
  rev (fold_left (λ acc c, if bool_decide (c = "..") then tail acc else c :: acc)
                 p []).

End Path.

(** *** Python values *)

(** What [int(x)] makes of a float. *)
Inductive trunc := Trunc (z : Z) | TruncNaN | TruncInf.

(** The parts of the Python runtime that the program calls and that are
    not its own code: floating-point numbers with their conversions and
    [repr], the literal grammars of [int()] and [float()], [repr] of a
    string, [base64.b64decode], [shlex.join] and the Unicode table behind
    [str.isalnum]. *)
Class PyRuntime := {
  pyfloat : Type;
  float_str : pyfloat → string;
  float_of_Z : Z → option pyfloat;
  float_parse : string → option pyfloat;
  float_trunc : pyfloat → trunc;
  float_is_zero : pyfloat → bool;
  float_lit : Z → Z → pyfloat;
  int_parse : string → option Z;
  str_repr : string → string;
  b64decode : string → option string;
  shlex_join : list string → string;
  (** [os.path.basename(urlparse(url).path)] *)
  url_basename : string → string;
  (** [ch.isalnum()] of a character outside ASCII, given by its bytes *)
  isalnum_wide : string → bool;
}.

Inductive exn_kind :=
  | ValueError | TypeError | AttributeError | KeyError | OverflowError
  | OSError | RuntimeError | HTTPException.

(** A raised exception: its class and [str(e)]. *)
Record exn := Exn { exn_kind_of : exn_kind; exn_msg : string }.

(** [isinstance(e, ValueError)] *)
Definition is_value_error (e : exn) : bool :=
  match exn_kind_of e with ValueError => true | _ => false end.

Inductive res (A : Type) :=
  | Ok (a : A)
  | Raise (e : exn).
Arguments Ok {A} a.
Arguments Raise {A} e.

Set Warnings "-register-all".

Section Values.
Context `{PyRuntime}.

Inductive pyval :=
  | PyNone
  | PyBool (b : bool)
  | PyInt (z : Z)
  | PyFloat (f : pyfloat)
  | PyStr (s : string)
  | PyPath (p : path)
  | PyList (l : list pyval)
  | PyDict (d : list (string * pyval)).

(** Truthiness, [bool(v)]. *)
Definition py_bool (v : pyval) : bool :=
  match v with
  | PyNone => false
  | PyBool b => b
  | PyInt z => negb (Z.eqb z 0)
  | PyFloat f => negb (float_is_zero f)
  | PyStr s => Str.nonempty s
  | PyPath _ => true
  | PyList l => match l with [] => false | _ => true end
  | PyDict d => match d with [] => false | _ => true end
  end.

(** [int(v)] *)
Definition py_int (v : pyval) : res Z :=
  match v with
  | PyInt z => Ok z
  | PyBool b => Ok (if b then 1 else 0)%Z
  | PyFloat f =>
      match float_trunc f with
      | Trunc z => Ok z
      | TruncNaN => Raise (Exn ValueError "cannot convert float NaN to integer")
      | TruncInf => Raise (Exn OverflowError "cannot convert float infinity to integer")
      end
  | PyStr s =>
      match int_parse s with
      | Some z => Ok z
      | None => Raise (Exn ValueError ("invalid literal for int() with base 10: " +:+ str_repr s))
      end
  | _ => Raise (Exn TypeError "int() argument must be a string, a bytes-like object or a real number")
  end.

(** [float(v)] *)
Definition py_float (v : pyval) : res pyfloat :=
  let of_Z z :=
    match float_of_Z z with
    | Some f => Ok f
    | None => Raise (Exn OverflowError "int too large to convert to float")
    end in
  match v with
  | PyFloat f => Ok f
  | PyInt z => of_Z z
  | PyBool b => of_Z (if b then 1 else 0)%Z
  | PyStr s =>
      match float_parse s with
      | Some f => Ok f
      | None => Raise (Exn ValueError ("could not convert string to float: " +:+ str_repr s))
      end
  | _ => Raise (Exn TypeError "float() argument must be a string or a real number")
  end.

(** [repr(v)] and [str(v)]. *)
Fixpoint py_repr (v : pyval) : string :=
  match v with
  | PyNone => "None"
  | PyBool b => if b then "True" else "False"
  | PyInt z => pretty z
  | PyFloat f => float_str f
  | PyStr s => str_repr s
  | PyPath p => "PosixPath(" +:+ str_repr (Path.to_string p) +:+ ")"
  | PyList l => "[" +:+ Str.join ", " (List.map py_repr l) +:+ "]"
  | PyDict d =>
      "{" +:+ Str.join ", "
                (List.map (λ kv, str_repr (fst kv) +:+ ": " +:+ py_repr (snd kv)) d)
          +:+ "}"
  end.

Definition py_str (v : pyval) : string :=
  match v with
  | PyStr s => s
  | PyPath p => Path.to_string p
  | _ => py_repr v
  end.

(** [v == s] for a string literal [s]. *)
Definition py_eq_str (v : pyval) (s : string) : bool :=
  match v with
  | PyStr t => bool_decide (t = s)
  | _ => false
  end.

(** [a or b] *)
Definition py_or (a b : pyval) : pyval := if py_bool a then a else b.

(** [d.get(k)] and [d.get(k, default)] on a dictionary built by the
    program itself ([args_map], [env_extra]). *)
Definition dict_get (d : gmap string pyval) (k : string) : pyval :=
  default PyNone (d !! k).

Definition dict_get_or (d : gmap string pyval) (k : string) (dflt : pyval) : pyval :=
  default dflt (d !! k).

(** The same on a value that came out of [json.loads] (the configuration,
    a request body): it need not be a dictionary at all. *)
Fixpoint assoc_get (d : list (string * pyval)) (k : string) : option pyval :=
  match d with
  | [] => None
  | (k', v) :: r => if bool_decide (k' = k) then Some v else assoc_get r k
  end.

(** [type(v).__name__] *)
Definition py_type_name (v : pyval) : string :=
  match v with
  | PyNone => "NoneType"
  | PyBool _ => "bool"
  | PyInt _ => "int"
  | PyFloat _ => "float"
  | PyStr _ => "str"
  | PyPath _ => "PosixPath"
  | PyList _ => "list"
  | PyDict _ => "dict"
  end.

Definition no_attribute (v : pyval) (attr : string) : exn :=
  Exn AttributeError
      ("'" +:+ py_type_name v +:+ "' object has no attribute '" +:+ attr +:+ "'").

(** [v.get(k, dflt)] *)
Definition py_get (v : pyval) (k : string) (dflt : pyval) : res pyval :=
  match v with
  | PyDict d => Ok (default dflt (assoc_get d k))
  | _ => Raise (no_attribute v "get")
  end.

(** [v[k]] *)
Definition py_item (v : pyval) (k : string) : res pyval :=
  match v with
  | PyDict d =>
      match assoc_get d k with
      | Some x => Ok x
      | None => Raise (Exn KeyError (str_repr k))
      end
  | _ => Raise (Exn TypeError "indices must be integers or object is not subscriptable")
  end.

(** [v.strip()] *)
Definition py_strip (v : pyval) : res string :=
  match v with
  | PyStr s => Ok (Str.strip s)
  | _ => Raise (no_attribute v "strip")
  end.

End Values.

(** *** The host: where the application is installed and what the
    operating system answers *)

Class Host := {
  (** [APP_ROOT], the directory of [app.py] *)
  APP_ROOT : path;
  (** [Path.resolve] on an absolute path: symbolic links and [".."]
      followed as the host's file system has them *)
  resolve : path → path;
  (** the working directory, against which [Path(s).resolve()] reads a
      relative [s] *)
  cwd : path;
  (** [os.name == "nt"] and [sys.platform == "darwin"] *)
  os_name_nt : bool;
  platform_darwin : bool;
  os_pathsep : string;
  os_environ : gmap string string;
  (** [sys.executable or "python3"] *)
  host_python : string;
  (** whether [import requests] succeeded *)
  requests_installed : bool;
}.

(** *** The file system *)

Section Store.
Context `{PyRuntime}.

(** What a file holds. [json.dumps] and [json.loads] belong to the
    standard library and are inverse to each other on the values the
    program writes, so a file whose text is a JSON document is kept as the
    value it denotes, and every other text as the text itself, on which
    [json.loads] raises. *)
Inductive content :=
  | Bytes (s : string)
  | Json (v : pyval).

Inductive node :=
  | Dir
  | File (c : content).

(** One [subprocess.run] call. *)
Record spawn := Spawn {
  sp_cmd : list string;
  sp_cwd : path;
  sp_env : gmap string string;
}.

End Store.

(** The file system is the table of its entries, in the order in which a
    directory scan ([glob], [iterdir]) meets them. The root always
    exists. *)
Abbreviation fs := (list (path * node)).

Section StoreOps.
Context `{PyRuntime}.

Fixpoint fs_lookup (t : fs) (p : path) : option node :=
  match t with
  | [] => None
  | (q, n) :: r => if bool_decide (q = p) then Some n else fs_lookup r p
  end.

(** [p.exists()], [p.is_dir()] *)
Definition fs_exists (t : fs) (p : path) : bool :=
  match p with
  | [] => true
  | _ => bool_decide (is_Some (fs_lookup t p))
  end.

Definition fs_is_dir (t : fs) (p : path) : bool :=
  match p with
  | [] => true
  | _ => match fs_lookup t p with Some Dir => true | _ => false end
  end.

Definition fs_is_file (t : fs) (p : path) : bool :=
  match fs_lookup t p with Some (File _) => true | _ => false end.

(** Create or overwrite the entry at [p]. *)
Fixpoint fs_store (t : fs) (p : path) (n : node) : fs :=
  match t with
  | [] => [(p, n)]
  | (q, m) :: r =>
      if bool_decide (q = p) then (p, n) :: r else (q, m) :: fs_store r p n
  end.

(** [q] is [d] or lies below it. *)
Definition under (d q : path) : bool := bool_decide (d `prefix_of` q).

(** Remove [d] and everything below it. *)
Definition fs_remove_tree (t : fs) (d : path) : fs :=
  List.filter (λ e, negb (under d (fst e))) t.

(** [os.rename(src, dst)] once it is known to succeed: [src] and whatever
    lies below it moves to [dst], replacing what was there. *)
Definition rebase (src dst q : path) : path := dst ++ drop (length src) q.

Definition fs_rename (t : fs) (src dst : path) : fs :=
  List.map (λ e, if under src (fst e) then (rebase src dst (fst e), snd e) else e)
           (fs_remove_tree t dst).

(** [list(d.glob("*" + ext))]: the entries directly in [d] whose name ends
    with [ext], in scan order. *)
Definition fs_glob (t : fs) (d : path) (ext : string) : list path :=
  List.map fst
    (List.filter (λ e, negb (bool_decide (fst e = []))
                       && bool_decide (Path.parent (fst e) = d)
                       && Str.ends_with ext (Path.name (fst e))) t).

(** What the external process does: it cannot be started; or it runs to
    completion with an exit status, its merged output, and its effect on
    the file system; or its output is not text in the encoding of the
    locale, and [subprocess.run] kills it and raises the
    [UnicodeDecodeError], a [ValueError], after the process has had its
    effect on the file system. *)
Inductive proc_outcome :=
  | SpawnFails (e : exn)
  | Exits (rc : Z) (out : string) (eff : fs → fs)
  | Undecodable (msg : string) (eff : fs → fs).

(** What a download gives: [requests.get(url, stream=True)] or
    [raise_for_status] raises, before any of the body is read; or the
    body arrives whole; or [iter_content] raises after [part] of the body
    has arrived. *)
Inductive fetch_outcome :=
  | Fetched (body : string)
  | FetchFails (e : exn)
  | FetchBreaks (part : string) (e : exn).

End StoreOps.

(** *** What a request cannot decide: random tokens, the clock, the
    external process, the network *)

(** A [datetime]: the fields of a date and a time of day, which the
    class keeps in their ranges. *)
Record datetime := DateTime {
  dt_year : N;
  dt_month : N;
  dt_day : N;
  dt_hour : N;
  dt_minute : N;
  dt_second : N;
}.

Definition datetime_valid (d : datetime) : bool :=
  (N.leb 1 (dt_year d) && N.leb (dt_year d) 9999
   && N.leb 1 (dt_month d) && N.leb (dt_month d) 12
   && N.leb 1 (dt_day d) && N.leb (dt_day d) 31
   && N.leb (dt_hour d) 23 && N.leb (dt_minute d) 59
   && N.leb (dt_second d) 59)%N.

(** The last [k] decimal digits of [n]: a number below [10 ^ k] padded
    with zeros to [k] digits, as [strftime] prints a field. *)
Definition digit (n : N) : ascii := ascii_of_N (48 + n mod 10).

Fixpoint digits (k : nat) (n : N) : string :=
  match k with
  | O => ""
  | S k' => digits k' (n / 10)%N +:+ String (digit n) ""
  end.

(** [d.strftime("%Y%m%d-%H%M%S")] *)
Definition strftime_stamp (d : datetime) : string :=
  digits 4 (dt_year d) +:+ digits 2 (dt_month d) +:+ digits 2 (dt_day d)
  +:+ "-"
  +:+ digits 2 (dt_hour d) +:+ digits 2 (dt_minute d) +:+ digits 2 (dt_second d).

Class Oracle `{PyRuntime} := {
  (** the [n]-th [uuid.uuid4().hex] drawn *)
  uuid_hex : nat → string;
  (** [datetime.now()] and [int(time.time())] *)
  now : datetime;
  now_valid : datetime_valid now = true;
  now_epoch : Z;
  run_process : spawn → fs → proc_outcome;
  http_get : string → fetch_outcome;
}.

(** *** The state of the server *)

Section World.
Context `{PyRuntime}.

Record world := World {
  (** [RUN_LOCK.locked()] *)
  lock : bool;
  files : fs;
  (** every [subprocess.run] call made so far *)
  spawned : list spawn;
  (** how many tokens have been drawn *)
  uuid_ctr : nat;
}.

Definition set_files (w : world) (t : fs) : world :=
  World (lock w) t (spawned w) (uuid_ctr w).

Definition set_lock (w : world) (b : bool) : world :=
  World b (files w) (spawned w) (uuid_ctr w).

(** A computation reads and changes the world and either returns or
    raises; the world it leaves is kept in both cases. *)
Definition M (A : Type) : Type := world → res A * world.

Definition ret {A} (a : A) : M A := λ w, (Ok a, w).

Definition raise {A} (e : exn) : M A := λ w, (Raise e, w).

Definition bind {A B} (m : M A) (k : A → M B) : M B :=
  λ w, match m w with
       | (Ok a, w') => k a w'
       | (Raise e, w') => (Raise e, w')
       end.

(** Lift the outcome of a pure conversion. *)
Definition lift {A} (r : res A) : M A := λ w, (r, w).

Definition get_files : M fs := λ w, (Ok (files w), w).

Definition put_files (t : fs) : M unit := λ w, (Ok tt, set_files w t).

(** [try: body except Exception: handler] *)
Definition try_except {A} (body : M A) (handler : exn → M A) : M A :=
  λ w, match body w with
       | (Ok a, w') => (Ok a, w')
       | (Raise e, w') => handler e w'
       end.

(** [try: body finally: fin] *)
Definition try_finally {A} (body : M A) (fin : M unit) : M A :=
  λ w, match body w with
       | (r, w') =>
           match fin w' with
           | (Ok _, w'') => (r, w'')
           | (Raise e, w'') => (Raise e, w'')
           end
       end.

End World.

Declare Scope py_scope.
Delimit Scope py_scope with py.
Notation "x <- m ;; k" := (bind m (λ x, k))
  (at level 100, m at next level, right associativity) : py_scope.
Notation "m ;;; k" := (bind m (λ _, k))
  (at level 100, right associativity) : py_scope.
Open Scope py_scope.

(** *** The program *)

Section Program.
Context `{rt : PyRuntime} {host : Host} {oracle : Oracle}.

Definition nl : string := String (ascii_of_nat 10) "".

(** **** Paths and constants (lines 31-59) *)

Definition DIFF_ROOT : path := resolve (APP_ROOT ++ [".."]).
Definition INFER_SCRIPT : path := DIFF_ROOT ++ ["infer"; "infer.py"].
Definition DEFAULT_BASE : path := APP_ROOT ++ ["projects"].
Definition UPLOADS_DIR : path := APP_ROOT ++ ["uploads"].
Definition TMP_DIR : path := APP_ROOT ++ ["tmp"].
Definition CONFIG_PATH : path := APP_ROOT ++ ["config.json"].

Definition DEFAULT_REPO_ID : string := "ASLP-lab/DiffRhythm-1_2".

Definition DEFAULT_CONFIG : pyval :=
  PyDict [ ("repo_id", PyStr DEFAULT_REPO_ID);
           ("audio_length", PyInt 95);
           ("batch_infer_num", PyInt 1);
           ("use_chunked", PyBool false);
           ("steps", PyInt 56);
           ("cfg_strength", PyFloat (float_lit 38 (-1)));
           ("cuda_visible_devices", PyStr "0");
           ("base_dir", PyStr (Path.to_string DEFAULT_BASE));
           ("active_project", PyStr "Default") ].

(** **** File-system calls *)

Definition os_error (what : string) (p : path) : exn :=
  Exn OSError (what +:+ ": " +:+ Path.to_string p).

(** The chain of [os.mkdir] calls behind [p.mkdir(parents=True,
    exist_ok=True)]: every missing ancestor is created, a file on the way
    makes the call fail. *)
Fixpoint mkdir_chain (t : fs) (pre : path) (rest : list string) : res fs :=
  match rest with
  | [] => Ok t
  | c :: r =>
      let q := pre ++ [c] in
      match fs_lookup t q with
      | Some Dir => mkdir_chain t q r
      | Some (File _) => Raise (os_error "File exists or not a directory" q)
      | None => mkdir_chain (fs_store t q Dir) q r
      end
  end.

(** [p.mkdir(parents=True, exist_ok=True)] *)
Definition mkdir_parents (p : path) : M unit :=
  t <- get_files ;;
  match mkdir_chain t [] p with
  | Ok t' => put_files t'
  | Raise e => raise e
  end.

(** [p.mkdir(exist_ok=True)] *)
Definition mkdir_exist_ok (p : path) : M unit :=
  t <- get_files ;;
  if fs_is_dir t p then ret tt
  else if fs_exists t p then raise (os_error "File exists" p)
  else if fs_is_dir t (Path.parent p) then put_files (fs_store t p Dir)
  else raise (os_error "No such file or directory" p).

(** [open(p, "w")] or [open(p, "wb")]: the file is created or cut to
    length zero. *)
Definition open_truncate (p : path) : M unit :=
  t <- get_files ;;
  if fs_is_dir t p then raise (os_error "Is a directory" p)
  else if fs_is_dir t (Path.parent p) then put_files (fs_store t p (File (Bytes "")))
  else raise (os_error "No such file or directory" p).

(** [f.write(data)] and the close that follows. *)
Definition write_flush (p : path) (c : content) : M unit :=
  t <- get_files ;;
  put_files (fs_store t p (File c)).

(** The steps of [p.write_text(text)], in order. *)
Definition write_text_steps (p : path) (c : content) : list (M unit) :=
  [open_truncate p; write_flush p c].

Fixpoint run_steps (steps : list (M unit)) : M unit :=
  match steps with
  | [] => ret tt
  | s :: r => s ;;; run_steps r
  end.

Definition write_text (p : path) (c : content) : M unit :=
  run_steps (write_text_steps p c).

(** [shutil.move(src, dst)]: into [dst] when that is a directory, else
    onto it by [os.rename]. *)
Definition shutil_move (src dst : path) : M unit :=
  t <- get_files ;;
  let real_dst := if fs_is_dir t dst then dst ++ [Path.name src] else dst in
  if fs_is_dir t dst && fs_exists t real_dst
  then raise (os_error "Destination path already exists" real_dst)
  else if negb (fs_is_dir t (Path.parent real_dst))
  then raise (os_error "No such file or directory" real_dst)
  else if fs_is_dir t src && fs_exists t real_dst
  then raise (os_error "Not a directory" real_dst)
  else if under src real_dst
  then raise (os_error "Invalid argument" real_dst)
  else put_files (fs_rename t src real_dst).

(** [shutil.rmtree(d, ignore_errors=True)] *)
Definition rmtree (d : path) : M unit :=
  t <- get_files ;;
  put_files (fs_remove_tree t d).

(** [uuid.uuid4().hex[:n]] *)
Definition fresh_hex (n : nat) : M string :=
  λ w, (Ok (Str.take n (uuid_hex (uuid_ctr w))),
        World (lock w) (files w) (spawned w) (S (uuid_ctr w))).

(** **** Helpers (lines 176-299) *)

(** [load_config] (lines 176-182) *)
Definition load_config : M pyval :=
  t <- get_files ;;
  if fs_exists t CONFIG_PATH
  then match fs_lookup t CONFIG_PATH with
       | Some (File (Json v)) => ret v
       | _ => ret DEFAULT_CONFIG
       end
  else ret DEFAULT_CONFIG.

(** [timestamp_str] (lines 187-188) *)
Definition timestamp_str : string := strftime_stamp now.

(** [Path(v)] *)
Definition to_path (v : pyval) : res path :=
  match v with
  | PyStr s => Ok (Path.join cwd s)
  | PyPath p => Ok p
  | _ => Raise (Exn TypeError "expected str, bytes or os.PathLike object")
  end.

(** [ensure_project_base] (lines 190-196) *)
Definition ensure_project_base (cfg : pyval) : M path :=
  cfg <- (if py_bool cfg then ret cfg else load_config) ;;
  b <- lift (py_get cfg "base_dir" (PyStr (Path.to_string DEFAULT_BASE))) ;;
  b <- lift (to_path b) ;;
  let base := resolve b in
  mkdir_parents base ;;;
  mkdir_exist_ok (base ++ ["Default"]) ;;;
  ret base.

(** The sanitised project name of lines 200-202 and 211-213, from the
    identifier once [.strip()] has been applied to it. *)
Definition safe_name (stripped : string) : string :=
  let safe :=
    Str.strip_slashes (Str.replace "\" "/" (Str.replace ".." "" stripped)) in
  if Str.nonempty safe then safe else "Default".

(** [base not in p.parents and base != p] *)
Definition escapes (base p : path) : bool :=
  negb (bool_decide (base ∈ Path.parents p)) && negb (bool_decide (base = p)).

(** [project_path_no_create] (lines 209-217) *)
Definition project_path_no_create (project cfg : pyval) : M path :=
  base <- ensure_project_base cfg ;;
  s <- lift (py_strip (py_or project (PyStr "Default"))) ;;
  let p := resolve (Path.join base (safe_name s)) in
  if escapes base p
  then raise (Exn ValueError "Invalid project path")
  else ret p.

(** [project_path] (lines 198-207) *)
Definition project_path (project cfg : pyval) : M path :=
  base <- ensure_project_base cfg ;;
  s <- lift (py_strip (py_or project (PyStr "Default"))) ;;
  let p := resolve (Path.join base (safe_name s)) in
  if escapes base p
  then raise (Exn ValueError "Invalid project path")
  else mkdir_exist_ok p ;;; ret p.

(** [history_file], [read_history], [write_history] (lines 229-242). The
    items the handlers pass to [write_history] are made of [None],
    booleans, numbers, strings, lists and dictionaries, which [json.dumps]
    serialises without raising. *)
Definition history_file (p : path) : path := p ++ ["history.json"].

Definition read_history (p : path) : M pyval :=
  t <- get_files ;;
  let hf := history_file p in
  if fs_exists t hf
  then match fs_lookup t hf with
       | Some (File (Json v)) => ret v
       | _ => ret (PyList [])
       end
  else ret (PyList []).

Definition write_history_steps (p : path) (items : pyval) : list (M unit) :=
  write_text_steps (history_file p) (Json items).

Definition write_history (p : path) (items : pyval) : M unit :=
  write_text (history_file p) (Json items).

(** [h.append(entry)] *)
Definition py_append (h entry : pyval) : res pyval :=
  match h with
  | PyList l => Ok (PyList (l ++ [entry]))
  | _ => Raise (no_attribute h "append")
  end.

(** [sys_executable] (lines 244-270) *)
Definition configured_python (cfg : pyval) : option string :=
  match py_get cfg "python_bin" PyNone with
  | Ok v =>
      match py_strip (py_or v (PyStr "")) with
      | Ok pbin => if Str.nonempty pbin then Some pbin else None
      | Raise _ => None
      end
  | Raise _ => None
  end.

Definition venv_candidates : list path :=
  if os_name_nt
  then [DIFF_ROOT ++ ["venv"; "Scripts"; "python.exe"];
        DIFF_ROOT ++ [".venv"; "Scripts"; "python.exe"]]
  else [DIFF_ROOT ++ ["venv"; "bin"; "python"];
        DIFF_ROOT ++ [".venv"; "bin"; "python"]].

Definition sys_executable : M string :=
  cfg <- load_config ;;
  match configured_python cfg with
  | Some pbin => ret pbin
  | None =>
      t <- get_files ;;
      match List.find (fs_exists t) venv_candidates with
      | Some c => ret (Path.to_string c)
      | None => ret host_python
      end
  end.

(** [secure_name] (lines 272-276). [ch.isalnum() or ch in "._-"] is
    decided here for an ASCII character and by the Unicode table for any
    other. *)
Definition name_char (c : ascii) : bool :=
  Str.is_alnum c
  || bool_decide (c = "."%char) || bool_decide (c = "_"%char)
  || bool_decide (c = "-"%char).

Definition kept_char (ch : string) : bool :=
  match ch with
  | String c "" => if Str.is_ascii c then name_char c else isalnum_wide ch
  | _ => isalnum_wide ch
  end.

Definition is_dot (c : ascii) : bool := bool_decide (c = "."%char).

Definition secure_name (name : pyval) : M string :=
  name <- lift (py_strip (py_or name (PyStr ""))) ;;
  let safe := Str.strip_with is_dot (Str.filter kept_char (Path.basename name)) in
  if Str.nonempty safe then ret safe
  else h <- fresh_hex 6 ;; ret ("file-" +:+ h).

(** [save_b64] (lines 278-284) *)
Definition save_b64 (data_b64 filename : pyval) (dest : path) : M path :=
  mkdir_parents dest ;;;
  arg <- (if py_bool filename then ret filename
          else h <- fresh_hex 6 ;; ret (PyStr ("upload-" +:+ h))) ;;
  fn <- secure_name arg ;;
  let p := Path.join dest fn in
  open_truncate p ;;;
  decoded <- lift (match data_b64 with
                   | PyStr s =>
                       match b64decode s with
                       | Some d => Ok d
                       | None => Raise (Exn ValueError "Incorrect padding")
                       end
                   | _ => Raise (Exn TypeError "argument should be a bytes-like object or ASCII string")
                   end) ;;
  write_flush p (Bytes decoded) ;;;
  ret p.

(** [save_from_url] (lines 286-299): the response is opened first, the
    file next, and the body is then copied into the file as it arrives;
    what has arrived when the copy breaks stays in the file. *)
Definition save_from_url (url filename : pyval) (dest : path) : M path :=
  if negb requests_installed
  then raise (Exn RuntimeError "requests not installed; cannot download URLs. Install flask-cors requests.")
  else
    mkdir_parents dest ;;;
    let r := http_get (py_str url) in
    match r with FetchFails e => raise e | _ => ret tt end ;;;
    let guess := py_or (PyStr (url_basename (py_str url))) (PyStr "download.bin") in
    fn <- secure_name (py_or filename guess) ;;
    let p := Path.join dest fn in
    open_truncate p ;;;
    match r with
    | Fetched body => write_flush p (Bytes body) ;;; ret p
    | FetchBreaks part e => write_flush p (Bytes part) ;;; raise e
    | FetchFails e => raise e
    end.

(** **** The command builder (lines 301-328) *)

Definition build_infer_cmd (args_map : gmap string pyval) (tmp_outdir : path)
  : M (list pyval) :=
  exe <- sys_executable ;;
  let cmd := [PyStr exe; PyStr (Path.to_string INFER_SCRIPT)] in
  let cmd := cmd ++ [PyStr "--output-dir"; PyStr (Path.to_string tmp_outdir)] in
  audio_length <- lift (py_int (dict_get_or args_map "audio_length" (PyInt 95))) ;;
  let cmd := cmd ++ [PyStr "--audio-length"; PyStr (py_str (PyInt audio_length))] in
  let cmd := cmd ++ [PyStr "--repo-id";
                     dict_get_or args_map "repo_id" (PyStr DEFAULT_REPO_ID)] in
  let ref_prompt := dict_get args_map "ref_prompt" in
  let ref_audio_path := dict_get args_map "ref_audio_path" in
  let cmd :=
    if py_bool ref_audio_path
    then cmd ++ [PyStr "--ref-audio-path"; PyStr (py_str ref_audio_path)]
    else if py_bool ref_prompt
    then cmd ++ [PyStr "--ref-prompt"; ref_prompt]
    else cmd in
  let cmd :=
    if py_bool (dict_get args_map "lrc_path")
    then cmd ++ [PyStr "--lrc-path"; PyStr (py_str (dict_get args_map "lrc_path"))]
    else cmd in
  let cmd :=
    if py_bool (dict_get args_map "use_chunked")
    then cmd ++ [PyStr "--chunked"]
    else cmd in
  batch <- lift (py_int (dict_get_or args_map "batch_infer_num" (PyInt 1))) ;;
  let cmd := cmd ++ [PyStr "--batch-infer-num"; PyStr (py_str (PyInt batch))] in
  cmd <- match args_map !! "steps" with
         | Some v =>
             steps <- lift (py_int v) ;;
             ret (cmd ++ [PyStr "--steps"; PyStr (py_str (PyInt steps))])
         | None => ret cmd
         end ;;
  cmd <- match args_map !! "cfg_strength" with
         | Some v =>
             cfg_strength <- lift (py_float v) ;;
             ret (cmd ++ [PyStr "--cfg-strength"; PyStr (py_str (PyFloat cfg_strength))])
         | None => ret cmd
         end ;;
  ret cmd.

(** **** The process runner and the artifact relocator (lines 330-403) *)

(** The dictionary [run_infer] returns. *)
Record run_result := RunResult {
  ok : bool;
  returncode : Z;
  logs : string;
  outfile : string;
  outfile_name : string;
}.

(** [shlex.join] and [subprocess.run] take strings only. *)
Fixpoint cmd_strings (cmd : list pyval) : res (list string) :=
  match cmd with
  | [] => Ok []
  | PyStr s :: r =>
      match cmd_strings r with
      | Ok l => Ok (s :: l)
      | Raise e => Raise e
      end
  | _ :: _ => Raise (Exn TypeError "expected string or bytes-like object")
  end.

(** The environment of the child process (lines 337-344). *)
Definition process_env (env_extra : gmap string pyval) : gmap string string :=
  let env := os_environ in
  let env :=
    <["PYTHONPATH" := Path.to_string DIFF_ROOT +:+ os_pathsep
                      +:+ default "" (env !! "PYTHONPATH")]> env in
  let env :=
    match dict_get env_extra "CUDA_VISIBLE_DEVICES" with
    | PyNone => env
    | PyStr "" => env
    | cuda_val => <["CUDA_VISIBLE_DEVICES" := py_str cuda_val]> env
    end in
  if platform_darwin
     && negb (bool_decide (is_Some (env !! "PHONEMIZER_ESPEAK_LIBRARY")))
  then <["PHONEMIZER_ESPEAK_LIBRARY" :=
           "/opt/homebrew/Cellar/espeak-ng/1.52.0/lib/libespeak-ng.dylib"]> env
  else env.

(** The header written before the captured output (lines 346-364). *)
Definition prelog_txt (cmd : list string) (env : gmap string string)
    (args_map : gmap string pyval) : string :=
  "DR-GUI CMD: " +:+ shlex_join cmd +:+ nl
  +:+ "DR-GUI ENV: CUDA_VISIBLE_DEVICES="
  +:+ default "" (env !! "CUDA_VISIBLE_DEVICES") +:+ nl
  +:+ "DR-GUI PARAMS: "
  +:+ "project=" +:+ py_str (dict_get args_map "project") +:+ " "
  +:+ "mode=" +:+ py_str (dict_get_or args_map "mode" (PyStr "unknown")) +:+ " "
  +:+ "repo_id=" +:+ py_str (dict_get args_map "repo_id") +:+ " "
  +:+ "audio_length=" +:+ py_str (dict_get args_map "audio_length") +:+ " "
  +:+ "batch_infer_num=" +:+ py_str (dict_get args_map "batch_infer_num") +:+ " "
  +:+ "steps=" +:+ py_str (dict_get args_map "steps") +:+ " "
  +:+ "cfg_strength=" +:+ py_str (dict_get args_map "cfg_strength") +:+ " "
  +:+ "chunked=" +:+ py_str (PyBool (py_bool (dict_get args_map "use_chunked"))) +:+ " "
  +:+ "ref=" +:+ (if bool_decide (is_Some (args_map !! "ref_audio_path"))
                  then "audio" else "prompt") +:+ nl
  +:+ nl.

(** [subprocess.run(cmd, cwd=..., env=..., stdout=PIPE, stderr=STDOUT,
    text=True)]: the call is recorded, and the process, if it starts, has
    changed the file system when the call returns or raises. *)
Definition subprocess_run (sp : spawn) : M (Z * string) :=
  λ w,
    let w1 := World (lock w) (files w) (spawned w ++ [sp]) (uuid_ctr w) in
    match run_process sp (files w) with
    | SpawnFails e => (Raise e, w1)
    | Exits rc out eff => (Ok (rc, out), set_files w1 (eff (files w)))
    | Undecodable msg eff =>
        (Raise (Exn ValueError msg), set_files w1 (eff (files w)))
    end.

(** Lines 331-375 of [run_infer]: the scratch directory, the command, the
    environment, the header and the run of the process. It yields the
    scratch directory, the exit status and the log text. *)
Definition launch (args_map env_extra : gmap string pyval)
  : M (path * Z * string) :=
  h <- fresh_hex 8 ;;
  let run_token := "run-" +:+ h in
  let tmp_outdir := Path.join TMP_DIR run_token in
  mkdir_parents tmp_outdir ;;;
  cmd <- build_infer_cmd args_map tmp_outdir ;;
  let env := process_env env_extra in
  cmd <- lift (cmd_strings cmd) ;;
  let prelog := prelog_txt cmd env args_map in
  proc <- subprocess_run (Spawn cmd DIFF_ROOT env) ;;
  ret (tmp_outdir, fst proc, prelog +:+ snd proc).

(** The source file chosen in lines 380-384. *)
Definition artifact_source (t : fs) (tmp_outdir : path) : path :=
  let src := tmp_outdir ++ ["output.wav"] in
  if negb (fs_exists t src)
  then match fs_glob t tmp_outdir ".wav" with
       | w0 :: _ => w0
       | [] => src
       end
  else src.

(** Lines 377-403 of [run_infer]: the artifact is moved into the project
    directory, the scratch directory is removed and the result is put
    together. The time stamp is made of digits and a dash, so
    [project_dir / final_name] adds one component. *)
Definition relocate (args_map : gmap string pyval) (tmp_outdir : path)
    (rc : Z) (logs : string) : M run_result :=
  project_dir <- project_path (dict_get args_map "project") PyNone ;;
  let final_name := "output-" +:+ timestamp_str +:+ ".wav" in
  t <- get_files ;;
  let src := artifact_source t tmp_outdir in
  let final_path := project_dir ++ [final_name] in
  moved <- (if fs_exists t src
            then shutil_move src final_path ;;; ret true
            else ret false) ;;
  rmtree tmp_outdir ;;;
  ret (RunResult (moved && Z.eqb rc 0) rc logs
                 (if moved then Path.to_string final_path else "")
                 (if moved then final_name else "")).

(** [run_infer] (lines 330-403) *)
Definition run_infer (args_map env_extra : gmap string pyval) : M run_result :=
  started <- launch args_map env_extra ;;
  match started with
  | (tmp_outdir, rc, logs) => relocate args_map tmp_outdir rc logs
  end.

(** **** The request handlers (lines 624-862) *)

Inductive resp_body :=
  (** [{"ok": False, "error": msg}] *)
  | ErrorBody (msg : string)
  (** the dictionary of [run_infer] *)
  | ResultBody (r : run_result).

(** [jsonify(body), status] *)
Record response := Response { body : resp_body; status : Z }.

Definition error_response (msg : string) (code : Z) : response :=
  Response (ErrorBody msg) code.

(** A part of a handler either returns a response at once or goes on
    with a value. *)
Inductive step (A : Type) :=
  | Return (r : response)
  | Next (a : A).
Arguments Return {A} r.
Arguments Next {A} a.

Definition bind_step {A} (m : M (step A)) (k : A → M response) : M response :=
  s <- m ;;
  match s with
  | Return r => ret r
  | Next a => k a
  end.

Notation "x <~ m ;; k" := (bind_step m (λ x, k))
  (at level 100, m at next level, right associativity).

(** [RUN_LOCK.acquire(blocking=False)] and [RUN_LOCK.release()] *)
Definition acquire_nonblocking : M bool :=
  λ w, if lock w then (Ok false, w) else (Ok true, set_lock w true).

Definition release : M unit :=
  λ w, if lock w then (Ok tt, set_lock w false)
       else (Raise (Exn RuntimeError "release unlocked lock"), w).

(** The two [except] clauses of both handlers (lines 748-751, 857-860). *)
Definition except_clauses (e : exn) : M response :=
  if is_value_error e
  then ret (error_response (exn_msg e) 400)
  else ret (error_response ("Generation failed: " +:+ exn_msg e) 500).

Definition busy_response : response :=
  error_response "Another job is running" 429.

(** An uploaded file of a multipart form. *)
Record upload := Upload { up_filename : string; up_data : string }.

Record form_request := FormRequest {
  form : gmap string string;
  uploads : gmap string upload;
}.

(** [request.form.get(k, dflt)] *)
Definition form_get (f : gmap string string) (k : string) (dflt : pyval) : pyval :=
  match f !! k with
  | Some s => PyStr s
  | None => dflt
  end.

(** [project_dir in cand.parents or project_dir == cand] *)
Definition confined (project_dir cand : path) : bool :=
  bool_decide (project_dir ∈ Path.parents cand) || bool_decide (project_dir = cand).

(** Lines 661-665 and 674-678: an uploaded file is saved under
    [UPLOADS_DIR] with a fresh token in its name. *)
Definition store_upload (kind : string) (f : upload) : M path :=
  h <- fresh_hex 8 ;;
  let fname := kind +:+ "-" +:+ h +:+ "-" +:+ Path.basename (up_filename f) in
  let ref_p := Path.join UPLOADS_DIR fname in
  mkdir_parents UPLOADS_DIR ;;;
  open_truncate ref_p ;;;
  write_flush ref_p (Bytes (up_data f)) ;;;
  ret ref_p.

(** The reference input of a form request (lines 636-668): the prompt,
    the reference audio path and the name of the existing file. *)
Definition form_reference (req : form_request) (project_dir : path)
    (ref_mode : string) : M (step (string * option path * string)) :=
  if bool_decide (ref_mode = "prompt")
  then
    let ref_prompt := Str.strip (default "" (form req !! "ref_prompt")) in
    if negb (Str.nonempty ref_prompt)
    then ret (Return (error_response
                "Text prompt is required when prompt mode is selected" 400))
    else ret (Next (ref_prompt, None, ""))
  else
    let ref_audio_existing := Str.strip (default "" (form req !! "ref_audio_existing")) in
    t <- get_files ;;
    let ref_audio_path :=
      if Str.nonempty ref_audio_existing
      then
        let cand := resolve (Path.join project_dir ref_audio_existing) in
        if confined project_dir cand && fs_exists t cand then Some cand else None
      else None in
    ref_audio_path <-
      match ref_audio_path with
      | Some p => ret (Some p)
      | None =>
          match uploads req !! "ref_audio" with
          | Some file =>
              if Str.nonempty (up_filename file)
              then p <- store_upload "ref" file ;; ret (Some p)
              else ret None
          | None => ret None
          end
      end ;;
    match ref_audio_path with
    | None => ret (Return (error_response
                "Audio reference is required when audio mode is selected" 400))
    | Some p => ret (Next ("", Some p, ref_audio_existing))
    end.

(** The lyrics file of a form request (lines 670-678). *)
Definition form_lrc (req : form_request) (mode : string) : M (option path) :=
  if bool_decide (mode = "advanced")
  then match uploads req !! "lrc_file" with
       | Some lrc_file =>
           if Str.nonempty (up_filename lrc_file)
           then p <- store_upload "lrc" lrc_file ;; ret (Some p)
           else ret None
       | None => ret None
       end
  else ret None.

(** The generation parameters after coercion. *)
Record params := Params {
  repo_id : pyval;
  audio_length : Z;
  batch_infer_num : Z;
  steps : Z;
  cfg_strength : pyfloat;
  use_chunked : bool;
  cuda_visible_devices : pyval;
}.

(** The parameters of a form request (lines 680-702). The default
    [cfg[k]] is evaluated before the form is asked. *)
Definition form_params (req : form_request) (cfg : pyval) (mode : string)
  : M params :=
  let field k := d <- lift (py_item cfg k) ;; ret (form_get (form req) k d) in
  if bool_decide (mode = "simple")
  then
    repo_id <- field "repo_id" ;;
    audio_length <- (v <- field "audio_length" ;; lift (py_int v)) ;;
    steps <- (v <- field "steps" ;; lift (py_int v)) ;;
    cfg_strength <- (v <- field "cfg_strength" ;; lift (py_float v)) ;;
    ret (Params repo_id audio_length 1 steps cfg_strength false (PyStr "0"))
  else
    repo_id <- field "repo_id" ;;
    audio_length <- (v <- field "audio_length" ;; lift (py_int v)) ;;
    batch_infer_num <- (v <- field "batch_infer_num" ;; lift (py_int v)) ;;
    steps <- (v <- field "steps" ;; lift (py_int v)) ;;
    cfg_strength <- (v <- field "cfg_strength" ;; lift (py_float v)) ;;
    let use_chunked := py_eq_str (form_get (form req) "use_chunked" PyNone) "on" in
    cuda <- field "cuda_visible_devices" ;;
    ret (Params repo_id audio_length batch_infer_num steps cfg_strength
                use_chunked (py_or cuda (PyStr "0"))).

(** [args_map] (lines 705-722 and 817-832) *)
Definition make_args_map (project mode : pyval) (ps : params)
    (ref_prompt : pyval) (ref_audio_path lrc_path : option path)
  : gmap string pyval :=
  let args_map : gmap string pyval :=
    <["cfg_strength" := PyFloat (cfg_strength ps)]>
    (<["steps" := PyInt (steps ps)]>
    (<["use_chunked" := PyBool (use_chunked ps)]>
    (<["batch_infer_num" := PyInt (batch_infer_num ps)]>
    (<["audio_length" := PyInt (audio_length ps)]>
    (<["repo_id" := repo_id ps]>
    (<["mode" := mode]>
    (<["project" := project]> ∅))))))) in
  let args_map :=
    match ref_audio_path with
    | Some p => <["ref_audio_path" := PyPath p]> args_map
    | None => <["ref_prompt" := ref_prompt]> args_map
    end in
  match lrc_path with
  | Some p => <["lrc_path" := PyPath p]> args_map
  | None => args_map
  end.

(** The history entry of lines 729-742 and 838-851. *)
Definition history_entry (result : run_result) (mode ref_mode prompt ref_audio : pyval)
    (ps : params) : pyval :=
  PyDict [ ("ts", PyInt now_epoch);
           ("file", PyStr (outfile_name result));
           ("mode", mode);
           ("ref_mode", ref_mode);
           ("prompt", prompt);
           ("ref_audio", ref_audio);
           ("audio_length", PyInt (audio_length ps));
           ("repo_id", repo_id ps);
           ("steps", PyInt (steps ps));
           ("cfg_strength", PyFloat (cfg_strength ps));
           ("chunked", PyBool (use_chunked ps));
           ("batch_infer_num", PyInt (batch_infer_num ps)) ].

(** The ledger append of both handlers: load the sequence, add the
    entry, rewrite the file (lines 728, 743-744). *)
Definition append_history (project_dir : path) (entry : pyval) : M unit :=
  h <- read_history project_dir ;;
  h <- lift (py_append h entry) ;;
  write_history project_dir h.

(** What a handler has in hand once the request is validated: the
    project directory, the arguments of the run, and the history entry it
    will write for a result. *)
Record job := Job {
  job_project_dir : path;
  job_args : gmap string pyval;
  job_env : gmap string pyval;
  job_entry : run_result → pyval;
}.

(** Lines 724-746 and 834-855: the run, the history entry on success
    only, and the result as the response. *)
Definition run_job (j : job) : M response :=
  result <- run_infer (job_args j) (job_env j) ;;
  (if ok result
   then append_history (job_project_dir j) (job_entry j result)
   else ret tt) ;;;
  ret (Response (ResultBody result) 200).

(** Lines 630-722 of [api_generate]: from the form to the job, or to the
    response that rejects the request. *)
Definition form_job (req : form_request) : M (step job) :=
  cfg <- load_config ;;
  active <- lift (py_get cfg "active_project" (PyStr "Default")) ;;
  let project := form_get (form req) "project" active in
  let mode := default "simple" (form req !! "mode") in
  project_dir <- project_path project cfg ;;
  let ref_mode := default "prompt" (form req !! "ref_mode") in
  reference <- form_reference req project_dir ref_mode ;;
  match reference with
  | Return r => ret (Return r)
  | Next (ref_prompt, ref_audio_path, ref_audio_existing) =>
      lrc_path <- form_lrc req mode ;;
      ps <- form_params req cfg mode ;;
      let args_map :=
        make_args_map project (PyStr mode) ps (PyStr ref_prompt)
                      ref_audio_path lrc_path in
      let env_extra : gmap string pyval :=
        {[ "CUDA_VISIBLE_DEVICES" := cuda_visible_devices ps ]} in
      ret (Next (Job project_dir args_map env_extra
        (λ result,
           history_entry result (PyStr mode) (PyStr ref_mode)
             (if bool_decide (ref_mode = "prompt") then PyStr ref_prompt else PyNone)
             (if Str.nonempty ref_audio_existing then PyStr ref_audio_existing
              else match ref_audio_path with
                   | Some p => PyStr (Path.to_string p)
                   | None => PyNone
                   end)
             ps)))
  end.

(** The body of the [try] block of [api_generate] (lines 630-746). *)
Definition api_generate_body (req : form_request) : M response :=
  j <~ form_job req ;;
  run_job j.

(** [api_generate] (lines 624-753) *)
Definition api_generate (req : form_request) : M response :=
  acquired <- acquire_nonblocking ;;
  if negb acquired
  then ret busy_response
  else try_finally (try_except (api_generate_body req) except_clauses) release.

(** [v.get(k, dflt)] where evaluating [dflt] may raise: the attribute
    [v.get] is looked up first, then the default is evaluated. *)
Definition py_get_with (v : pyval) (k : string) (dflt : res pyval) : res pyval :=
  match v with
  | PyDict d =>
      match dflt with
      | Ok dv => Ok (default dv (assoc_get d k))
      | Raise e => Raise e
      end
  | _ => Raise (no_attribute v "get")
  end.

(** [request.get_json(force=True)]: the body of the request, [None] when
    it is not a JSON document. *)
Definition get_json (req : option pyval) : M pyval :=
  match req with
  | Some data => ret data
  | None => raise (Exn HTTPException
                     "400 Bad Request: Failed to decode JSON object")
  end.

(** The parameters of a JSON request (lines 771-777). *)
Definition json_params (data cfg : pyval) : M params :=
  let field k := lift (py_get_with data k (py_item cfg k)) in
  repo_id <- field "repo_id" ;;
  audio_length <- (v <- field "audio_length" ;; lift (py_int v)) ;;
  use_chunked <- field "use_chunked" ;;
  batch_infer_num <- (v <- field "batch_infer_num" ;; lift (py_int v)) ;;
  steps <- (v <- field "steps" ;; lift (py_int v)) ;;
  cfg_strength <- (v <- field "cfg_strength" ;; lift (py_float v)) ;;
  cuda <- field "cuda_visible_devices" ;;
  ret (Params repo_id audio_length batch_infer_num steps cfg_strength
              (py_bool use_chunked) (PyStr (py_str (py_or cuda (PyStr ""))))).

(** [ref_mode] of a JSON request (line 781). *)
Definition json_ref_mode (data : pyval) : M pyval :=
  given <- lift (py_get data "ref_mode" PyNone) ;;
  b64 <- lift (py_get data "ref_audio_b64" PyNone) ;;
  url <- lift (py_get data "ref_audio_url" PyNone) ;;
  existing <- lift (py_get data "ref_audio_existing" PyNone) ;;
  ret (py_or given
         (if py_bool (py_or (py_or b64 url) existing)
          then PyStr "audio" else PyStr "prompt")).

Definition no_requests_response : response :=
  error_response "requests not installed; cannot fetch URLs" 400.

(** The reference input of a JSON request (lines 783-806). *)
Definition json_reference (data : pyval) (project_dir : path)
    (ref_mode ref_prompt : pyval) : M (step (option path)) :=
  if py_eq_str ref_mode "audio"
  then
    existing <- lift (py_get data "ref_audio_existing" PyNone) ;;
    ref_audio_path <-
      (if py_bool existing
       then
         name <- secure_name existing ;;
         let cand := resolve (Path.join project_dir name) in
         t <- get_files ;;
         if confined project_dir cand
         then (if fs_exists t cand then ret (Some cand) else ret None)
         else ret None
       else ret None) ;;
    b64 <- lift (py_get data "ref_audio_b64" PyNone) ;;
    ref_audio_path <-
      match ref_audio_path with
      | Some p => ret (Some p)
      | None =>
          if py_bool b64
          then
            b64 <- lift (py_item data "ref_audio_b64") ;;
            filename <- lift (py_get data "ref_audio_filename" PyNone) ;;
            p <- save_b64 b64 (py_or filename (PyStr "ref.wav")) UPLOADS_DIR ;;
            ret (Some p)
          else ret None
      end ;;
    url <- lift (py_get data "ref_audio_url" PyNone) ;;
    fetched <-
      match ref_audio_path with
      | Some p => ret (Next (Some p))
      | None =>
          if py_bool url
          then
            if negb requests_installed
            then ret (Return no_requests_response)
            else
              url <- lift (py_item data "ref_audio_url") ;;
              filename <- lift (py_get data "ref_audio_filename" PyNone) ;;
              p <- save_from_url url filename UPLOADS_DIR ;;
              ret (Next (Some p))
          else ret (Next None)
      end ;;
    match fetched with
    | Return r => ret (Return r)
    | Next None => ret (Return (error_response
                     "Audio reference is required when audio mode is selected" 400))
    | Next (Some p) => ret (Next (Some p))
    end
  else
    stripped <- lift (py_strip ref_prompt) ;;
    if negb (Str.nonempty stripped)
    then ret (Return (error_response
                "Text prompt is required when prompt mode is selected" 400))
    else ret (Next None).

(** The lyrics file of a JSON request (lines 808-815). *)
Definition json_lrc (data : pyval) : M (step (option path)) :=
  b64 <- lift (py_get data "lrc_b64" PyNone) ;;
  if py_bool b64
  then
    b64 <- lift (py_item data "lrc_b64") ;;
    filename <- lift (py_get data "lrc_filename" PyNone) ;;
    p <- save_b64 b64 (py_or filename (PyStr "lyrics.lrc")) UPLOADS_DIR ;;
    ret (Next (Some p))
  else
    url <- lift (py_get data "lrc_url" PyNone) ;;
    if py_bool url
    then
      if negb requests_installed
      then ret (Return no_requests_response)
      else
        url <- lift (py_item data "lrc_url") ;;
        filename <- lift (py_get data "lrc_filename" PyNone) ;;
        p <- save_from_url url filename UPLOADS_DIR ;;
        ret (Next (Some p))
    else ret (Next None).

(** Lines 764-832 of [api_generate_json]: from the body to the job, or to
    the response that rejects the request. *)
Definition json_job (req : option pyval) : M (step job) :=
  cfg <- load_config ;;
  data <- get_json req ;;
  project <- lift (py_get_with data "project"
                     (py_get cfg "active_project" (PyStr "Default"))) ;;
  mode <- lift (py_get data "mode" (PyStr "advanced")) ;;
  project_dir <- project_path project cfg ;;
  ps <- json_params data cfg ;;
  ref_prompt <- lift (py_get data "ref_prompt" (PyStr "")) ;;
  ref_mode <- json_ref_mode data ;;
  reference <- json_reference data project_dir ref_mode ref_prompt ;;
  match reference with
  | Return r => ret (Return r)
  | Next ref_audio_path =>
      lrc <- json_lrc data ;;
      match lrc with
      | Return r => ret (Return r)
      | Next lrc_path =>
          let args_map :=
            make_args_map project mode ps ref_prompt ref_audio_path lrc_path in
          let env_extra : gmap string pyval :=
            {[ "CUDA_VISIBLE_DEVICES" := cuda_visible_devices ps ]} in
          existing <- lift (py_get data "ref_audio_existing" PyNone) ;;
          ret (Next (Job project_dir args_map env_extra
            (λ result,
               history_entry result mode ref_mode
                 (if py_eq_str ref_mode "prompt" then ref_prompt else PyNone)
                 (py_or existing
                    match ref_audio_path with
                    | Some p => PyStr (Path.to_string p)
                    | None => PyNone
                    end)
                 ps)))
      end
  end.

(** The body of the [try] block of [api_generate_json] (lines 764-855). *)
Definition api_generate_json_body (req : option pyval) : M response :=
  j <~ json_job req ;;
  run_job j.

(** [api_generate_json] (lines 758-862) *)
Definition api_generate_json (req : option pyval) : M response :=
  acquired <- acquire_nonblocking ;;
  if negb acquired
  then ret busy_response
  else try_finally (try_except (api_generate_json_body req) except_clauses) release.

End Program.

Arguments Return {A} r.
Arguments Next {A} a.

(** *** The configuration, project, file and favorites routes
    (lines 162-185, 420-601, 864-897) *)

(** [s.lower()], which the program only compares with [default] and
    [.wav]: no character outside ASCII has one of their letters in its
    lower case, so the upper-case letters of ASCII are the ones that
    count, and every other byte is left as it is. *)
Definition lower_char (c : ascii) : ascii :=
  let n := nat_of_ascii c in
  if Nat.leb 65 n && Nat.leb n 90 then ascii_of_nat (n + 32) else c.

Fixpoint str_lower (s : string) : string :=
  match s with
  | "" => ""
  | String c r => String (lower_char c) (str_lower r)
  end.

(** The characters of [s] before its first dot and those after it. *)
Fixpoint cut_at_dot (s : string) : option (string * string) :=
  match s with
  | "" => None
  | String c r =>
      if bool_decide (c = "."%char) then Some ("", r)
      else match cut_at_dot r with
           | Some (a, b) => Some (String c a, b)
           | None => None
           end
  end.

(** [PurePath(name).suffix]: [name[i:]] for [i = name.rfind(".")] when
    [0 < i < len(name) - 1], the empty string otherwise. *)
Definition path_suffix (name : string) : string :=
  match cut_at_dot (String.rev name) with
  | Some (ext, stem) =>
      if Str.nonempty ext && Str.nonempty stem
      then "." +:+ String.rev ext
      else ""
  | None => ""
  end.

Section Management.
Context `{rt : PyRuntime} {host : Host}.

Definition FAVORITES_FILE : path := APP_ROOT ++ ["favorites.json"].

Definition DEFAULT_PROJECT_NAME : string := "Default".

(** **** More file-system calls *)

(** Remove the entry at [p] and nothing else. *)
Definition fs_remove (t : fs) (p : path) : fs :=
  List.filter (λ e, negb (bool_decide (fst e = p))) t.

(** The entries directly in [d], in scan order. *)
Definition fs_children (t : fs) (d : path) : list path :=
  List.map fst
    (List.filter (λ e, negb (bool_decide (fst e = []))
                       && bool_decide (Path.parent (fst e) = d)) t).

(** [list(d.iterdir())] *)
Definition iterdir (d : path) : M (list path) :=
  t <- get_files ;;
  if fs_is_dir t d then ret (fs_children t d)
  else if fs_exists t d then raise (os_error "Not a directory" d)
  else raise (os_error "No such file or directory" d).

(** [shutil.rmtree(d)] *)
Definition rmtree_strict (d : path) : M unit :=
  t <- get_files ;;
  if fs_is_dir t d then put_files (fs_remove_tree t d)
  else if fs_exists t d then raise (os_error "Not a directory" d)
  else raise (os_error "No such file or directory" d).

(** [p.unlink(missing_ok=False)] *)
Definition unlink (p : path) : M unit :=
  t <- get_files ;;
  if fs_is_dir t p then raise (os_error "Is a directory" p)
  else if fs_exists t p then put_files (fs_remove t p)
  else raise (os_error "No such file or directory" p).

(** [src.rename(dst)], that is [os.rename(src, dst)]: a file replaces a
    file, a directory replaces an empty directory, and renaming an entry
    to itself does nothing. *)
Definition os_rename (src dst : path) : M unit :=
  t <- get_files ;;
  match src, dst with
  | [], _ => raise (os_error "Device or resource busy" src)
  | _, [] => raise (os_error "Device or resource busy" dst)
  | _, _ =>
      if negb (fs_exists t src)
      then raise (os_error "No such file or directory" src)
      else if bool_decide (src = dst) then ret tt
      else if negb (fs_is_dir t (Path.parent dst))
      then raise (os_error "No such file or directory" dst)
      else if under src dst
      then raise (os_error "Invalid argument" dst)
      else if fs_is_dir t src
      then if fs_is_file t dst
           then raise (os_error "Not a directory" dst)
           else match fs_children t dst with
                | [] => put_files (fs_rename t src dst)
                | _ :: _ => raise (os_error "Directory not empty" dst)
                end
      else if fs_is_dir t dst
      then raise (os_error "Is a directory" dst)
      else put_files (fs_rename t src dst)
  end.

(** [p / v] *)
Definition py_div (p : path) (v : pyval) : res path :=
  match v with
  | PyStr s => Ok (Path.join p s)
  | PyPath q => Ok q
  | _ => Raise (Exn TypeError
                  ("unsupported operand type(s) for /: 'PosixPath' and '"
                   +:+ py_type_name v +:+ "'"))
  end.

(** **** More operations on values *)

(** [d[k] = v] on the entries of a dictionary: the key keeps its place
    when it is there, and is added at the end when it is not. *)
Fixpoint assoc_set (d : list (string * pyval)) (k : string) (v : pyval)
  : list (string * pyval) :=
  match d with
  | [] => [(k, v)]
  | (k', x) :: r =>
      if bool_decide (k' = k) then (k, v) :: r else (k', x) :: assoc_set r k v
  end.

(** [d[k] = v] *)
Definition py_setitem (d : pyval) (k : string) (v : pyval) : res pyval :=
  match d with
  | PyDict l => Ok (PyDict (assoc_set l k v))
  | _ => Raise (Exn TypeError
                  ("'" +:+ py_type_name d +:+ "' object does not support item assignment"))
  end.

(** [d.update(items)]: the attribute is looked up before the items are
    built, so the caller checks [update_allowed] first. *)
Definition update_allowed (d : pyval) : res unit :=
  match d with
  | PyDict _ => Ok tt
  | _ => Raise (no_attribute d "update")
  end.

Definition py_update (d : pyval) (items : list (string * pyval)) : pyval :=
  match d with
  | PyDict l => PyDict (fold_left (λ acc kv, assoc_set acc (fst kv) (snd kv)) items l)
  | _ => d
  end.

(** [list(v)], the items a [for] loop or a comprehension goes through. *)
Definition py_iter (v : pyval) : res (list pyval) :=
  match v with
  | PyList l => Ok l
  | PyDict d => Ok (List.map (λ kv, PyStr (fst kv)) d)
  | PyStr s => Ok (List.map PyStr (Str.chars s))
  | _ => Raise (Exn TypeError
                  ("'" +:+ py_type_name v +:+ "' object is not iterable"))
  end.

(** [[e for e in items if e.get(key) != name]] *)
Fixpoint drop_entries (key name : string) (items : list pyval) : res (list pyval) :=
  match items with
  | [] => Ok []
  | e :: r =>
      match py_get e key PyNone with
      | Raise x => Raise x
      | Ok v =>
          match drop_entries key name r with
          | Raise x => Raise x
          | Ok l => Ok (if py_eq_str v name then l else e :: l)
          end
      end
  end.

(** [for e in items: if e.get("file") == old: e["file"] = new] *)
Fixpoint retarget (old new : string) (items : list pyval) : res (list pyval) :=
  match items with
  | [] => Ok []
  | e :: r =>
      match py_get e "file" PyNone with
      | Raise x => Raise x
      | Ok v =>
          match (if py_eq_str v old then py_setitem e "file" (PyStr new) else Ok e) with
          | Raise x => Raise x
          | Ok e' =>
              match retarget old new r with
              | Raise x => Raise x
              | Ok l => Ok (e' :: l)
              end
          end
      end
  end.

(** The object [h] after the loop of lines 594-596: a list holds the
    patched entries; any other iterable the loop gets through is empty and
    is left as it is. *)
Definition retarget_history (old new : string) (h : pyval) : res pyval :=
  match py_iter h with
  | Raise x => Raise x
  | Ok items =>
      match retarget old new items with
      | Raise x => Raise x
      | Ok items' => Ok (match h with PyList _ => PyList items' | _ => h end)
      end
  end.

(** **** Helpers (lines 162-185) *)

(** [is_reserved_project] (lines 167-168), on a string. *)
Definition is_reserved_project (name : string) : bool :=
  bool_decide (str_lower (Str.strip name) = str_lower DEFAULT_PROJECT_NAME).

(** [ensure_default_project] (lines 170-174) *)
Definition ensure_default_project (cfg : pyval) : M path :=
  base <- ensure_project_base cfg ;;
  let d := Path.join base DEFAULT_PROJECT_NAME in
  mkdir_parents d ;;;
  ret d.

(** [save_config] (lines 184-185) *)
Definition save_config (cfg : pyval) : M unit :=
  write_text CONFIG_PATH (Json cfg).

(** **** Replies *)

(** What a route answers: the JSON document and the status code. An
    exception that leaves a route goes to the error handler of the
    application (lines 153-160); here the route raises it. *)
Record reply := Reply { reply_body : pyval; reply_status : Z }.

Definition ok_reply : reply := Reply (PyDict [("ok", PyBool true)]) 200.

Definition refused (msg : string) (code : Z) : reply :=
  Reply (PyDict [("ok", PyBool false); ("error", PyStr msg)]) code.

(** **** [api_config] (lines 420-440) *)

Definition api_config_get : M reply :=
  cfg <- load_config ;;
  ret (Reply cfg 200).

Definition api_config_post (req : option pyval) : M reply :=
  data <- get_json req ;;
  cfg <- load_config ;;
  lift (update_allowed cfg) ;;;
  repo_id <- lift (py_get_with data "repo_id" (py_item cfg "repo_id")) ;;
  v <- lift (py_get_with data "audio_length" (py_item cfg "audio_length")) ;;
  audio_length <- lift (py_int v) ;;
  v <- lift (py_get_with data "batch_infer_num" (py_item cfg "batch_infer_num")) ;;
  batch_infer_num <- lift (py_int v) ;;
  use_chunked <- lift (py_get_with data "use_chunked" (py_item cfg "use_chunked")) ;;
  v <- lift (py_get_with data "steps" (py_item cfg "steps")) ;;
  steps <- lift (py_int v) ;;
  v <- lift (py_get_with data "cfg_strength" (py_item cfg "cfg_strength")) ;;
  cfg_strength <- lift (py_float v) ;;
  cuda <- lift (py_get_with data "cuda_visible_devices"
                            (py_item cfg "cuda_visible_devices")) ;;
  base_dir <- lift (py_get_with data "base_dir" (py_item cfg "base_dir")) ;;
  active <- lift (py_get_with data "active_project" (py_item cfg "active_project")) ;;
  python_bin <- lift (py_get_with data "python_bin" (py_get cfg "python_bin" (PyStr ""))) ;;
  let cfg :=
    py_update cfg
      [ ("repo_id", repo_id);
        ("audio_length", PyInt audio_length);
        ("batch_infer_num", PyInt batch_infer_num);
        ("use_chunked", PyBool (py_bool use_chunked));
        ("steps", PyInt steps);
        ("cfg_strength", PyFloat cfg_strength);
        ("cuda_visible_devices", PyStr (py_str cuda));
        ("base_dir", base_dir);
        ("active_project", active);
        ("python_bin", python_bin) ] in
  ensure_project_base cfg ;;;
  save_config cfg ;;;
  ret (Reply (PyDict [("ok", PyBool true); ("config", cfg)]) 200).

(** **** The project routes (lines 455-544) *)

(** [(data.get(k) or "").strip()] *)
Definition stripped_field (data : pyval) (k : string) : M string :=
  v <- lift (py_get data k PyNone) ;;
  lift (py_strip (py_or v (PyStr ""))).

(** [any(x.suffix.lower() == ".wav" for x in items)] *)
Definition any_wav (items : list path) : bool :=
  existsb (λ x, bool_decide (str_lower (path_suffix (Path.name x)) = ".wav")) items.

(** [api_projects_create] (lines 455-469) *)
Definition api_projects_create (req : option pyval) : M reply :=
  cfg <- load_config ;;
  ensure_default_project cfg ;;;
  data <- get_json req ;;
  name <- stripped_field data "name" ;;
  if is_reserved_project name
  then ret (refused "The name 'Default' is reserved." 400)
  else
    p <- project_path_no_create (PyStr name) cfg ;;
    t <- get_files ;;
    if fs_exists t p
    then ret (refused "Project already exists" 400)
    else
      mkdir_parents p ;;;
      ret (Reply (PyDict [("ok", PyBool true); ("name", PyStr (Path.name p))]) 200).

(** Lines 503-510 of [api_projects_rename]: the old directory, should it
    be there again without audio in it, is removed; a failure is
    ignored. *)
Definition sweep_reappeared (src : path) : M unit :=
  try_except
    (t <- get_files ;;
     if fs_exists t src
     then items <- iterdir src ;;
          if any_wav items then ret tt else rmtree_strict src
     else ret tt)
    (λ _, ret tt).

(** [cfg.get("active_project") == name], then
    [cfg["active_project"] = to] and [save_config(cfg)]. *)
Definition retarget_active (cfg : pyval) (name to : string) : M unit :=
  a <- lift (py_get cfg "active_project" PyNone) ;;
  if py_eq_str a name
  then cfg <- lift (py_setitem cfg "active_project" (PyStr to)) ;;
       save_config cfg
  else ret tt.

(** [api_projects_rename] (lines 471-515) *)
Definition api_projects_rename (req : option pyval) : M reply :=
  cfg <- load_config ;;
  ensure_default_project cfg ;;;
  data <- get_json req ;;
  old <- stripped_field data "old" ;;
  new <- stripped_field data "new" ;;
  if is_reserved_project old
  then ret (refused "The 'Default' project cannot be renamed." 400)
  else if is_reserved_project new
  then ret (refused "You cannot rename a project to the reserved name 'Default'." 400)
  else
    src <- project_path_no_create (PyStr old) cfg ;;
    dst <- project_path_no_create (PyStr new) cfg ;;
    t <- get_files ;;
    if negb (fs_exists t src)
    then ret (refused "Source project does not exist" 400)
    else if fs_exists t dst
    then ret (refused "Target project already exists" 400)
    else if bool_decide (src = dst)
    then ret ok_reply
    else
      try_except
        (os_rename src dst ;;;
         retarget_active cfg old new ;;;
         sweep_reappeared src ;;;
         ret ok_reply)
        (λ e, ret (refused (exn_msg e) 400)).

(** [api_projects_delete] (lines 517-544) *)
Definition api_projects_delete (req : option pyval) : M reply :=
  cfg <- load_config ;;
  ensure_default_project cfg ;;;
  data <- get_json req ;;
  name <- stripped_field data "name" ;;
  if is_reserved_project name
  then ret (refused "The 'Default' project cannot be deleted." 400)
  else
    f <- lift (py_get data "force" PyNone) ;;
    let force := py_bool f in
    p <- project_path (PyStr name) cfg ;;
    try_except
      (removed <- (if force
                   then rmtree_strict p ;;; ret true
                   else items <- iterdir p ;;
                        if any_wav items then ret false
                        else rmtree_strict p ;;; ret true) ;;
       if removed : bool
       then retarget_active cfg name "Default" ;;; ret ok_reply
       else ret (refused "Project not empty" 400))
      (λ e, ret (refused (exn_msg e) 400)).

(** **** The file routes (lines 562-601) *)

(** [data.get("project", cfg.get("active_project", "Default"))] *)
Definition requested_project (data cfg : pyval) : M pyval :=
  lift (py_get_with data "project" (py_get cfg "active_project" (PyStr "Default"))).

(** [(p / data.get(k, "")).resolve()] *)
Definition resolved_field (p : path) (data : pyval) (k : string) : M path :=
  v <- lift (py_get data k (PyStr "")) ;;
  q <- lift (py_div p v) ;;
  ret (resolve q).

(** [api_files_delete] (lines 562-579) *)
Definition api_files_delete (req : option pyval) : M reply :=
  cfg <- load_config ;;
  data <- get_json req ;;
  proj <- requested_project data cfg ;;
  p <- project_path proj cfg ;;
  target <- resolved_field p data "name" ;;
  if escapes p target
  then ret (refused "Invalid path" 400)
  else
    try_except
      (unlink target ;;;
       h <- read_history p ;;
       items <- lift (py_iter h) ;;
       kept <- lift (drop_entries "file" (Path.name target) items) ;;
       write_history p (PyList kept) ;;;
       ret ok_reply)
      (λ e, ret (refused (exn_msg e) 400)).

(** [api_files_rename] (lines 581-601) *)
Definition api_files_rename (req : option pyval) : M reply :=
  cfg <- load_config ;;
  data <- get_json req ;;
  proj <- requested_project data cfg ;;
  p <- project_path proj cfg ;;
  src <- resolved_field p data "src" ;;
  dst <- resolved_field p data "dst" ;;
  if negb (bool_decide (p ∈ Path.parents src))
     || negb (bool_decide (p ∈ Path.parents dst))
  then ret (refused "Invalid path" 400)
  else
    try_except
      (os_rename src dst ;;;
       h <- read_history p ;;
       h <- lift (retarget_history (Path.name src) (Path.name dst) h) ;;
       write_history p h ;;;
       ret ok_reply)
      (λ e, ret (refused (exn_msg e) 400)).

(** **** The favorites routes (lines 864-897) *)

(** [json.loads(FAVORITES_FILE.read_text())]; [bad_json] gives the error
    the parser raises on a text that is no JSON document. *)
Definition read_favorites (bad_json : string → exn) : M pyval :=
  t <- get_files ;;
  match fs_lookup t FAVORITES_FILE with
  | Some (File (Json v)) => ret v
  | Some (File (Bytes s)) => raise (bad_json s)
  | Some Dir => raise (os_error "Is a directory" FAVORITES_FILE)
  | None => raise (os_error "No such file or directory" FAVORITES_FILE)
  end.

(** [api_favorites], method GET (lines 866-873) *)
Definition api_favorites_get : M reply :=
  t <- get_files ;;
  if fs_exists t FAVORITES_FILE
  then match fs_lookup t FAVORITES_FILE with
       | Some (File (Json v)) => ret (Reply (PyDict [("favorites", v)]) 200)
       | _ => ret (Reply (PyDict [("favorites", PyList [])]) 200)
       end
  else ret (Reply (PyDict [("favorites", PyList [])]) 200).

(** [api_favorites], method POST (lines 875-884) *)
Definition api_favorites_post (req : option pyval) : M reply :=
  data <- get_json req ;;
  favorites <- lift (py_get data "favorites" (PyList [])) ;;
  try_except
    (write_text FAVORITES_FILE (Json favorites) ;;; ret ok_reply)
    (λ e, ret (refused (exn_msg e) 500)).

(** [api_delete_favorite] (lines 886-897) *)
Definition api_delete_favorite (bad_json : string → exn) (favorite_id : string)
  : M reply :=
  t <- get_files ;;
  if fs_exists t FAVORITES_FILE
  then
    try_except
      (favorites <- read_favorites bad_json ;;
       items <- lift (py_iter favorites) ;;
       kept <- lift (drop_entries "id" favorite_id items) ;;
       write_text FAVORITES_FILE (Json (PyList kept)) ;;;
       ret ok_reply)
      (λ e, ret (refused (exn_msg e) 500))
  else ret (refused "Favorites file not found" 404).

End Management.

(** *** A small runtime, host and external tool on which the examples run *)

Module Sample.

(** Decimal numerals: an optional sign and at least one digit. *)
Fixpoint digits_value (acc : Z) (s : string) : option Z :=
  match s with
  | "" => Some acc
  | String c r =>
      match Ascii.is_nat c with
      | Some d => digits_value (10 * acc + Z.of_nat d) r
      | None => None
      end
  end.

Definition parse_digits (s : string) : option Z :=
  match s with
  | "" => None
  | _ => digits_value 0 s
  end.

Definition parse_int (s : string) : option Z :=
  match Str.strip s with
  | String "-" r => Z.opp <$> parse_digits r
  | String "+" r => parse_digits r
  | r => parse_digits r
  end.

(** Floats are kept as decimal fractions: [(m, d)] stands for
    [m / 10^d]. *)
Definition dec : Type := Z * nat.

Definition dec_lit (m e : Z) : dec :=
  if (0 <=? e)%Z then (m * 10 ^ e, O)%Z else (m, Z.to_nat (- e)).

Fixpoint pad_left (n : nat) (s : string) : string :=
  match n with
  | O => s
  | S k => if Nat.ltb (String.length s) n then pad_left k ("0" +:+ s) else s
  end.

Definition dec_str (x : dec) : string :=
  let '(m, d) := x in
  let scale := (10 ^ Z.of_nat d)%Z in
  let whole := Z.quot (Z.abs m) scale in
  let frac := Z.rem (Z.abs m) scale in
  (if (m <? 0)%Z then "-" else "")
  +:+ pretty whole +:+ "."
  +:+ (match d with O => "0" | _ => pad_left d (pretty frac) end).

Definition dec_parse (s : string) : option dec :=
  match Str.split "." (Str.strip s) with
  | [whole] => (λ z, (z, O)) <$> parse_int whole
  | [whole; frac] =>
      match parse_int whole, parse_digits frac with
      | Some w, Some f =>
          let scale := (10 ^ Z.of_nat (String.length frac))%Z in
          Some (if Str.starts_with "-" whole
                then (w * scale - f)%Z else (w * scale + f)%Z,
                String.length frac)
      | _, _ => None
      end
  | _ => None
  end.

(** The letters of the Latin-1 supplement, U+00C0 to U+00FF without the
    multiplication and the division sign, for the Unicode table. *)
Definition latin1_letter (ch : string) : bool :=
  match ch with
  | String c (String d "") =>
      let n := nat_of_ascii d in
      Nat.eqb (nat_of_ascii c) 195 && Nat.leb 128 n && Nat.leb n 191
      && negb (Nat.eqb n 151) && negb (Nat.eqb n 183)
  | _ => false
  end.

#[export] Instance runtime : PyRuntime := {|
  pyfloat := dec;
  float_str := dec_str;
  float_of_Z := λ z, Some (z, O);
  float_parse := dec_parse;
  float_trunc := λ x, Trunc (Z.quot (fst x) (10 ^ Z.of_nat (snd x)));
  float_is_zero := λ x, Z.eqb (fst x) 0;
  float_lit := dec_lit;
  int_parse := parse_int;
  str_repr := λ s, "'" +:+ s +:+ "'";
  b64decode := λ s, Some s;
  shlex_join := Str.join " ";
  url_basename := Path.basename;
  isalnum_wide := latin1_letter;
|}.

#[export] Instance host : Host := {|
  APP_ROOT := ["srv"; "DiffRhythm"; "gui"];
  resolve := Path.lexical_resolve;
  cwd := ["srv"; "DiffRhythm"; "gui"];
  os_name_nt := false;
  platform_darwin := false;
  os_pathsep := ":";
  os_environ := ∅;
  host_python := "/usr/bin/python3";
  requests_installed := true;
|}.

(** The directory that follows [--output-dir] on a command line. *)
Fixpoint output_dir (cmd : list string) : option path :=
  match cmd with
  | flag :: rest =>
      if bool_decide (flag = "--output-dir")
      then match rest with
           | d :: _ => Some (Path.components d)
           | [] => None
           end
      else output_dir rest
  | [] => None
  end.

(** An external tool that writes the given files into its output
    directory and exits with status [rc]. *)
Definition tool (rc : Z) (names : list string) (sp : spawn) (t : fs) : proc_outcome :=
  Exits rc "generating"
        (λ t, match output_dir (sp_cmd sp) with
              | Some d =>
                  fold_left (λ t n, fs_store t (d ++ [n]) (File (Bytes "RIFF"))) names t
              | None => t
              end).

(** An interpreter that cannot be started. *)
Definition missing_tool (sp : spawn) (t : fs) : proc_outcome :=
  SpawnFails (Exn OSError "[Errno 2] No such file or directory: 'python'").

Definition oracle (proc : spawn → fs → proc_outcome) : Oracle := {|
  uuid_hex := λ n, pretty (Z.of_nat n) +:+ "3f2a9c1eb7d04e6a8c5f1d2e3a4b5c6";
  now := DateTime 2024 5 1 9 30 0;
  now_valid := eq_refl;
  now_epoch := 1714555800;
  run_process := proc;
  http_get := λ _, FetchFails (Exn OSError "Connection refused");
|}.

(** The tool of the example scenario, one that fails after writing its
    output, and one that succeeds under a name of its own choosing. *)
Definition good_tool : Oracle := oracle (tool 0 ["output.wav"]).
Definition failing_tool : Oracle := oracle (tool 1 ["output.wav"]).
Definition silent_tool : Oracle := oracle (tool 0 []).
Definition renaming_tool : Oracle := oracle (tool 0 ["notes.txt"; "take-7.wav"]).
Definition no_tool : Oracle := oracle missing_tool.

Definition default_project : path :=
  ["srv"; "DiffRhythm"; "gui"; "projects"; "Default"].

Definition scratch : path := ["srv"; "DiffRhythm"; "gui"; "tmp"; "run-03f2a9c1"].

Definition sample_params : params :=
  Params (PyStr "ASLP-lab/DiffRhythm-1_2") 95 1 56 (38%Z, 1%nat) true (PyStr "0").

Definition entry (name : string) : pyval :=
  PyDict [("ts", PyInt 1714555800); ("file", PyStr name); ("mode", PyStr "simple")].

(** The server right after the external tool has written [output.wav]
    into the scratch directory, and the same once [run_infer] has made
    sure that the project directory exists. *)
Definition after_tool : world :=
  World false
        [(scratch, Dir); (scratch ++ ["output.wav"], File (Bytes "RIFF"))]
        [] 1.

Definition after_tool_with_project : world :=
  World false
        [(scratch, Dir); (scratch ++ ["output.wav"], File (Bytes "RIFF"));
         (["srv"], Dir); (["srv"; "DiffRhythm"], Dir);
         (["srv"; "DiffRhythm"; "gui"], Dir);
         (["srv"; "DiffRhythm"; "gui"; "projects"], Dir);
         (default_project, Dir)]
        [] 1.

(** The server after the tool, when the Default project already holds a
    directory under the name that the artifact is to get, with an
    [output.wav] in it. *)
Definition after_tool_blocked : world :=
  World false
        [(scratch, Dir); (scratch ++ ["output.wav"], File (Bytes "RIFF"));
         (["srv"], Dir); (["srv"; "DiffRhythm"], Dir);
         (["srv"; "DiffRhythm"; "gui"], Dir);
         (["srv"; "DiffRhythm"; "gui"; "projects"], Dir);
         (default_project, Dir);
         (default_project ++ ["output-20240501-093000.wav"], Dir);
         (default_project ++ ["output-20240501-093000.wav"; "output.wav"],
          File (Bytes "WAVE"))]
        [] 1.

(** What is left of an outcome: the result inside the response, the log
    text of a launch, the job of a validated request. *)
Definition result_of (out : res response * world) : option run_result :=
  match fst out with
  | Ok (Response (ResultBody r) _) => Some r
  | _ => None
  end.

Definition logs_of (out : res (path * Z * string) * world) : string :=
  match fst out with
  | Ok (_, _, l) => l
  | Raise _ => ""
  end.

Definition job_of (out : res (step job) * world) : job :=
  match fst out with
  | Ok (Next j) => j
  | _ => Job [] ∅ ∅ (λ _, PyNone)
  end.

(** A project directory with an empty ledger, and one with a ledger of
    one entry. *)
Definition fresh_project : world := World false [(default_project, Dir)] [] 0.

Definition used_project : world :=
  World false
        [(default_project, Dir);
         (default_project ++ ["history.json"],
          File (Json (PyList [entry "output-20240430-180000.wav"])))]
        [] 0.

(** A server at rest: nothing on disk, the gate free. *)
Definition idle : world := World false [] [] 0.

(** The same server while another job holds the gate. *)
Definition busy : world := World true [] [] 0.

(** The request of the example scenario. *)
Definition simple_request : form_request :=
  FormRequest {[ "project" := "Default"; "mode" := "simple";
                 "ref_mode" := "prompt"; "ref_prompt" := "uplifting piano";
                 "audio_length" := "95"; "steps" := "56";
                 "cfg_strength" := "3.8" ]} ∅.

End Sample.

(** *** A studio with one project, on which the project, file and
    favorites routes are run *)

Module Studio.
Import Sample.

Definition app_root : path := ["srv"; "DiffRhythm"; "gui"].

Definition base_dir : path := app_root ++ ["projects"].

Definition demo : path := base_dir ++ ["demo"].

Definition installation : list (path * node) :=
  [(["srv"], Dir); (["srv"; "DiffRhythm"], Dir); (app_root, Dir);
   (base_dir, Dir); (default_project, Dir)].

(** The project [demo] holds two takes and a ledger that names both. *)
Definition studio : world :=
  World false
        (installation
         ++ [(demo, Dir);
             (demo ++ ["take-1.wav"], File (Bytes "RIFF"));
             (demo ++ ["take-2.WAV"], File (Bytes "RIFF"));
             (demo ++ ["history.json"],
              File (Json (PyList [entry "take-1.wav"; entry "take-2.WAV"])))])
        [] 0.

(** The same installation with an empty project [drafts] and [drafts] as
    the active project of a stored configuration. *)
Definition drafts : path := base_dir ++ ["drafts"].

Definition stored_config : list (string * pyval) :=
  [("repo_id", PyStr "ASLP-lab/DiffRhythm-1_2");
   ("audio_length", PyInt 95);
   ("batch_infer_num", PyInt 1);
   ("use_chunked", PyBool false);
   ("steps", PyInt 56);
   ("cfg_strength", PyFloat (38%Z, 1%nat));
   ("cuda_visible_devices", PyStr "0");
   ("base_dir", PyStr "/srv/DiffRhythm/gui/projects");
   ("active_project", PyStr "drafts")].

Definition drafting : world :=
  World false
        (installation
         ++ [(drafts, Dir);
             (app_root ++ ["config.json"], File (Json (PyDict stored_config)))])
        [] 0.

(** A no-break space, U+00A0, and an em space, U+2003, as their bytes. *)
Definition nbsp : string := String "194"%char (String "160"%char "").

Definition em_space : string :=
  String "226"%char (String "128"%char (String "131"%char "")).

(** A tool that writes its output and prints bytes that are no text. *)
Definition garbling (sp : spawn) (t : fs) : proc_outcome :=
  match tool 0 ["output.wav"] sp t with
  | Exits _ _ eff =>
      Undecodable "'utf-8' codec can't decode byte 0xff in position 0: invalid start byte"
                  eff
  | other => other
  end.

Definition garbling_tool : Oracle := oracle garbling.

(** A network on which every download breaks off after four bytes. *)
Definition breaking_net : Oracle := {|
  uuid_hex := uuid_hex (Oracle := good_tool);
  now := now (Oracle := good_tool);
  now_valid := now_valid (Oracle := good_tool);
  now_epoch := now_epoch (Oracle := good_tool);
  run_process := run_process (Oracle := good_tool);
  http_get := λ _, FetchBreaks "RIFF" (Exn OSError "Connection broken: IncompleteRead");
|}.

Definition favorite (id title : string) : pyval :=
  PyDict [("id", PyStr id); ("title", PyStr title)].

(** The files a route leaves, and its reply. *)
Definition files_after {A} (out : res A * world) : list (path * node) :=
  files (snd out).

Definition reply_of (out : res reply * world) : option reply :=
  match fst out with
  | Ok r => Some r
  | Raise _ => None
  end.

Definition result_or_none (out : res run_result * world) : run_result :=
  match fst out with
  | Ok r => r
  | Raise _ => RunResult false 0 "" "" ""
  end.

End Studio.

(** *** Notions used to state the properties *)

Section Notions.
Context `{rt : PyRuntime} {host : Host} {oracle : Oracle}.

(** A computation leaves the job gate as it found it. *)
Definition keeps_lock {A} (m : M A) : Prop :=
  ∀ w, lock (snd (m w)) = lock w.

(** A computation is quiet when it leaves the job gate and the table of
    spawned processes as it found them. *)
Definition quiet {A} (m : M A) : Prop :=
  ∀ w, lock (snd (m w)) = lock w ∧ spawned (snd (m w)) = spawned w.

(** Neither directory lies inside the other. *)
Definition apart (d1 d2 : path) : Prop :=
  ¬ d1 `prefix_of` d2 ∧ ¬ d2 `prefix_of` d1.

(** Whether a string begins with two dots. *)
Definition starts_dotdot (s : string) : bool :=
  match s with
  | String a (String b _) => bool_decide (a = "."%char) && bool_decide (b = "."%char)
  | _ => false
  end.

(** The outcome of a path resolution stays below [base]: it is a path
    that [base] is a prefix of, or it is an error. *)
Definition within (base : path) (r : res path) : Prop :=
  match r with
  | Ok p => base `prefix_of` p
  | Raise _ => True
  end.

(** The canonical destination of an artifact in project directory [pd]. *)
Definition final_path (pd : path) : path :=
  pd ++ ["output-" +:+ timestamp_str +:+ ".wav"].

(** If the scratch directory [tmp] holds an artifact, it can be moved: it
    is a regular file, no directory sits at its destination, and the
    scratch and project directories do not contain each other. *)
Definition movable (t : fs) (tmp pd : path) : Prop :=
  fs_exists t (artifact_source t tmp) = true →
  fs_is_file t (artifact_source t tmp) = true
  ∧ fs_is_dir t (final_path pd) = false
  ∧ apart tmp pd.







(** The sequence a project ledger holds, as [read_history] returns it and
    [append] can extend it: the stored JSON array, or the empty sequence
    for a missing or unreadable file. A ledger file that holds some other
    JSON value, or a directory in its place, is no ledger. *)
Definition ledger (t : fs) (pd : path) : option (list pyval) :=
  match fs_lookup t (history_file pd) with
  | None => Some []
  | Some (File (Bytes _)) => Some []
  | Some (File (Json (PyList l))) => Some l
  | Some (File (Json _)) => None
  | Some Dir => None
  end.

(** Appending a sequence of entries, one [append] after the other. *)
Fixpoint append_all (pd : path) (entries : list pyval) : M unit :=
  match entries with
  | [] => ret tt
  | e :: rest => append_history pd e ;;; append_all pd rest
  end.

(** The world a concurrent reader can meet while [steps] run: the one
    left by the first [k] of them. *)
Definition world_after (k : nat) (steps : list (M unit)) (w : world) : world :=
  snd (run_steps (take k steps) w).

(** A rewrite of the history file of [pd] with [items] is atomic when, at
    every point during the rewrite, the file is the old one or the new
    one. *)
Definition atomic_rewrite (pd : path) (items : pyval) (w : world) : Prop :=
  ∀ k,
    let seen := fs_lookup (files (world_after k (write_history_steps pd items) w))
                          (history_file pd) in
    seen = fs_lookup (files w) (history_file pd)
    ∨ seen = Some (File (Json items)).

(** The argument vector as the specification words it (section 6), in
    its order: output directory, audio length, repository, the audio
    reference or else the text prompt, the lyrics file when there is one,
    the chunked flag when the boolean is true, batch count, steps and the
    cfg strength printed as a float. [lrc_path] and [ref_audio_path] are
    absent when the request has none. *)
Definition spec_argument_vector (scratch : path) (ps : params)
    (ref_prompt : pyval) (ref_audio_path lrc_path : option path) : list pyval :=
  [PyStr "--output-dir"; PyStr (Path.to_string scratch);
   PyStr "--audio-length"; PyStr (pretty (audio_length ps));
   PyStr "--repo-id"; repo_id ps]
  ++ match ref_audio_path with
     | Some p => [PyStr "--ref-audio-path"; PyStr (Path.to_string p)]
     | None => [PyStr "--ref-prompt"; ref_prompt]
     end
  ++ match lrc_path with
     | Some p => [PyStr "--lrc-path"; PyStr (Path.to_string p)]
     | None => []
     end
  ++ (if use_chunked ps then [PyStr "--chunked"] else [])
  ++ [PyStr "--batch-infer-num"; PyStr (pretty (batch_infer_num ps));
      PyStr "--steps"; PyStr (pretty (steps ps));
      PyStr "--cfg-strength"; PyStr (float_str (cfg_strength ps))].

(** A form request without reference input: the prompt is missing or
    blank, no existing file is named and no reference file is uploaded. *)
Definition form_unreferenced (req : form_request) : Prop :=
  Str.strip (default "" (form req !! "ref_prompt")) = ""
  ∧ Str.strip (default "" (form req !! "ref_audio_existing")) = ""
  ∧ match uploads req !! "ref_audio" with
    | Some file => up_filename file = ""
    | None => True
    end.

(** A JSON request without reference input: the prompt is absent, null or
    a blank string, and none of the three audio fields is set. *)
Definition json_unreferenced (d : list (string * pyval)) : Prop :=
  match default (PyStr "") (assoc_get d "ref_prompt") with
  | PyStr s => Str.strip s = ""
  | PyNone => True
  | _ => False
  end
  ∧ py_bool (default PyNone (assoc_get d "ref_audio_b64")) = false
  ∧ py_bool (default PyNone (assoc_get d "ref_audio_url")) = false
  ∧ py_bool (default PyNone (assoc_get d "ref_audio_existing")) = false.

(** A handler part that does not hand a job on: it returns a response
    with an error body, or it raises. *)
Definition rejects {A} (out : res (step A)) : Prop :=
  match out with
  | Ok (Return r) => ∃ msg, r = error_response msg 400
  | Ok (Next _) => False
  | Raise _ => True
  end.

End Notions.

(** *** Notions for the project, file and favorites routes *)

Section StoreNotions.
Context `{rt : PyRuntime}.

(** [t'] is [t] with some directories added: every path holds what it
    held, or held nothing and is now a directory. *)
Definition grown (t t' : fs) : Prop :=
  ∀ q, fs_lookup t' q = fs_lookup t q
       ∨ (fs_lookup t q = None ∧ fs_lookup t' q = Some Dir).

(** The two tables agree outside the directory [d]. *)
Definition same_outside (d : path) (t t' : fs) : Prop :=
  ∀ q, ¬ d `prefix_of` q → fs_lookup t' q = fs_lookup t q.

(** Every character of [s] satisfies [f]. *)
Fixpoint all_chars (f : ascii → bool) (s : string) : bool :=
  match s with
  | "" => true
  | String c r => f c && all_chars f r
  end.

(** The first and the last character of [s], if any. *)
Definition first_char (s : string) : option ascii :=
  match s with
  | "" => None
  | String c _ => Some c
  end.

Definition last_char (s : string) : option ascii := first_char (String.rev s).

(** A byte that a name made by [secure_name] can hold: an ASCII letter
    or digit, a dot, an underscore or a dash, or a byte of a character
    outside ASCII. *)
Definition name_byte (c : ascii) : bool := name_char c || negb (Str.is_ascii c).

End StoreNotions.

Section RouteNotions.
Context `{rt : PyRuntime} {host : Host}.

(** The base directory, as [ensure_project_base] computes it before it
    touches the disk. *)
Definition base_of (cfg : pyval) (w : world) : res path :=
  let cfg := if py_bool cfg then Ok cfg else fst (load_config w) in
  match cfg with
  | Ok cfg =>
      match py_get cfg "base_dir" (PyStr (Path.to_string DEFAULT_BASE)) with
      | Ok b => match to_path b with Ok b => Ok (resolve b) | Raise e => Raise e end
      | Raise e => Raise e
      end
  | Raise e => Raise e
  end.

(** A computation changes nothing outside the directory [p]. *)
Definition confined_to {A} (p : path) (m : M A) : Prop :=
  ∀ w q, ¬ p `prefix_of` q →
         fs_lookup (files (snd (m w))) q = fs_lookup (files w) q.

(** The configuration [load_config] returns in [w]. *)
Definition config_of (w : world) : pyval :=
  match fst (load_config w) with
  | Ok cfg => cfg
  | Raise _ => DEFAULT_CONFIG
  end.

(** The reply of a route that catches every exception of its body. *)
Definition caught (out : res unit * world) : res reply * world :=
  match out with
  | (Ok _, w) => (Ok ok_reply, w)
  | (Raise e, w) => (Ok (refused (exn_msg e) 400), w)
  end.

End RouteNotions.

Section ConfigNotions.
Context `{rt : PyRuntime}.

(** A configuration in which the numeric settings are numbers, the flag
    is a boolean and the device list is a string, as the generation
    routes read them. *)
Definition typed_config (cfg : pyval) : Prop :=
  (∃ v, py_item cfg "repo_id" = Ok v)
  ∧ (∃ z, py_item cfg "audio_length" = Ok (PyInt z))
  ∧ (∃ z, py_item cfg "batch_infer_num" = Ok (PyInt z))
  ∧ (∃ b, py_item cfg "use_chunked" = Ok (PyBool b))
  ∧ (∃ z, py_item cfg "steps" = Ok (PyInt z))
  ∧ (∃ f, py_item cfg "cfg_strength" = Ok (PyFloat f))
  ∧ (∃ s, py_item cfg "cuda_visible_devices" = Ok (PyStr s))
  ∧ (∃ v, py_item cfg "base_dir" = Ok v)
  ∧ (∃ v, py_item cfg "active_project" = Ok v)
  ∧ (∃ v, py_item cfg "python_bin" = Ok v).

(** How [api_config] converts a setting before it stores it. *)
Inductive conversion := AsIs | AsInt | AsBool | AsFloat | AsStr.

Definition convert (c : conversion) (v : pyval) : res pyval :=
  match c with
  | AsIs => Ok v
  | AsInt => match py_int v with Ok z => Ok (PyInt z) | Raise e => Raise e end
  | AsBool => Ok (PyBool (py_bool v))
  | AsFloat => match py_float v with Ok f => Ok (PyFloat f) | Raise e => Raise e end
  | AsStr => Ok (PyStr (py_str v))
  end.

(** The ten settings of lines 426-435, each with its conversion. *)
Definition config_settings : list (string * conversion) :=
  [ ("repo_id", AsIs); ("audio_length", AsInt); ("batch_infer_num", AsInt);
    ("use_chunked", AsBool); ("steps", AsInt); ("cfg_strength", AsFloat);
    ("cuda_visible_devices", AsStr); ("base_dir", AsIs);
    ("active_project", AsIs); ("python_bin", AsIs) ].

(** The value of setting [k] that a request [data] asks for on the
    configuration [old]: the one the request holds under [k], or else the
    configured one, which must be there unless [k] is [python_bin]. *)
Definition asked (data old : pyval) (k : string) : res pyval :=
  py_get_with data k
    (if bool_decide (k = "python_bin") then py_get old k (PyStr "")
     else py_item old k).

(** Whether a history entry, or a favorite, carries [name] under
    [key]. *)
Definition carries (key name : string) (e : pyval) : bool :=
  match py_get e key PyNone with
  | Ok v => py_eq_str v name
  | Raise _ => false
  end.

(** A history entry with its file name changed from [old] to [new], if
    [old] is the name it carries. *)
Definition repointed (old new : string) (e : pyval) : pyval :=
  match e with
  | PyDict l =>
      if carries "file" old e then PyDict (assoc_set l "file" (PyStr new)) else e
  | _ => e
  end.

End ConfigNotions.

(** ** Part II: theorems *)

Section Proofs.
Context `{rt : PyRuntime} {host : Host} {oracle : Oracle}.

(** *** The monad *)

Lemma bind_ok {A B} (m : M A) (k : A → M B) w a w' :
  m w = (Ok a, w') → bind m k w = k a w'.
Proof. intros E. unfold bind. now rewrite E. Qed.

(** *** Frame properties: who touches the gate and the process table *)

Lemma quiet_ret {A} (a : A) : quiet (ret a).
Proof. intros w. split; reflexivity. Qed.

Lemma quiet_raise {A} e : quiet (@raise _ A e).
Proof. intros w. split; reflexivity. Qed.

Lemma quiet_lift {A} (r : res A) : quiet (lift r).
Proof. intros w. split; reflexivity. Qed.

Lemma quiet_get_files : quiet get_files.
Proof. intros w. split; reflexivity. Qed.

Lemma quiet_put_files t : quiet (put_files t).
Proof. intros w. split; reflexivity. Qed.

Lemma quiet_fresh_hex n : quiet (fresh_hex n).
Proof. intros w. split; reflexivity. Qed.

Lemma quiet_bind {A B} (m : M A) (k : A → M B) :
  quiet m → (∀ a, quiet (k a)) → quiet (bind m k).
Proof.
  intros Hm Hk w. unfold bind. specialize (Hm w).
  destruct (m w) as [[a|e] w']; simpl in *; [|exact Hm].
  destruct (Hk a w') as [-> ->]. exact Hm.
Qed.

Create HintDb quiet discriminated.
#[local] Hint Resolve quiet_ret quiet_raise quiet_lift quiet_get_files
  quiet_put_files quiet_fresh_hex : quiet.

(** One step of a frame proof: split a bind, close a leaf with the hint
    base, or take a branch of the program apart. *)
Ltac quiet_step :=
  match goal with
  | |- quiet (bind _ _) => apply quiet_bind; [|intros]
  | |- quiet (if ?b then _ else _) => destruct b
  | |- quiet (match ?x with _ => _ end) => destruct x
  | |- quiet _ => solve [eauto with quiet]
  end.

Ltac quiet := repeat quiet_step.

Lemma quiet_mkdir_parents p : quiet (mkdir_parents p).
Proof. unfold mkdir_parents. quiet. Qed.

Lemma quiet_mkdir_exist_ok p : quiet (mkdir_exist_ok p).
Proof. unfold mkdir_exist_ok. quiet. Qed.

Lemma quiet_open_truncate p : quiet (open_truncate p).
Proof. unfold open_truncate. quiet. Qed.

Lemma quiet_write_flush p c : quiet (write_flush p c).
Proof. unfold write_flush. quiet. Qed.

#[local] Hint Resolve quiet_mkdir_parents quiet_mkdir_exist_ok quiet_open_truncate quiet_write_flush : quiet.

Lemma quiet_write_text p c : quiet (write_text p c).
Proof. unfold write_text, write_text_steps, run_steps. quiet. Qed.

Lemma quiet_shutil_move src dst : quiet (shutil_move src dst).
Proof. unfold shutil_move. quiet. Qed.

Lemma quiet_rmtree d : quiet (rmtree d).
Proof. unfold rmtree. quiet. Qed.

Lemma quiet_load_config : quiet load_config.
Proof. unfold load_config. quiet. Qed.

#[local] Hint Resolve quiet_write_text quiet_shutil_move quiet_rmtree quiet_load_config : quiet.

Lemma quiet_ensure_project_base cfg : quiet (ensure_project_base cfg).
Proof. unfold ensure_project_base. quiet. Qed.

#[local] Hint Resolve quiet_ensure_project_base : quiet.

Lemma quiet_project_path project cfg : quiet (project_path project cfg).
Proof. unfold project_path. quiet. Qed.

Lemma quiet_read_history p : quiet (read_history p).
Proof. unfold read_history. quiet. Qed.

Lemma quiet_write_history p items : quiet (write_history p items).
Proof. unfold write_history. quiet. Qed.

Lemma quiet_sys_executable : quiet sys_executable.
Proof. unfold sys_executable. quiet. Qed.

Lemma quiet_secure_name name : quiet (secure_name name).
Proof. unfold secure_name. quiet. Qed.

#[local] Hint Resolve quiet_project_path quiet_read_history quiet_write_history quiet_sys_executable quiet_secure_name : quiet.

Lemma quiet_save_b64 d f dest : quiet (save_b64 d f dest).
Proof. unfold save_b64. quiet. Qed.

Lemma quiet_save_from_url u f dest : quiet (save_from_url u f dest).
Proof. unfold save_from_url. quiet. Qed.

Lemma quiet_build_infer_cmd a d : quiet (build_infer_cmd a d).
Proof. unfold build_infer_cmd. quiet. Qed.

Lemma quiet_append_history p e : quiet (append_history p e).
Proof. unfold append_history. quiet. Qed.

Lemma quiet_store_upload k f : quiet (store_upload k f).
Proof. unfold store_upload. quiet. Qed.

Lemma quiet_get_json r : quiet (get_json r).
Proof. unfold get_json. quiet. Qed.

#[local] Hint Resolve quiet_save_b64 quiet_save_from_url quiet_build_infer_cmd quiet_append_history quiet_store_upload quiet_get_json : quiet.

Lemma quiet_relocate a d rc l : quiet (relocate a d rc l).
Proof. unfold relocate. quiet. Qed.

Lemma quiet_form_reference req pd m : quiet (form_reference req pd m).
Proof. unfold form_reference. quiet. Qed.

Lemma quiet_form_lrc req m : quiet (form_lrc req m).
Proof. unfold form_lrc. quiet. Qed.

Lemma quiet_form_params req cfg m : quiet (form_params req cfg m).
Proof. unfold form_params. quiet. Qed.

Lemma quiet_json_params d c : quiet (json_params d c).
Proof. unfold json_params. quiet. Qed.

Lemma quiet_json_ref_mode d : quiet (json_ref_mode d).
Proof. unfold json_ref_mode. quiet. Qed.

Lemma quiet_json_reference d pd m p : quiet (json_reference d pd m p).
Proof. unfold json_reference. quiet. Qed.

Lemma quiet_json_lrc d : quiet (json_lrc d).
Proof. unfold json_lrc. quiet. Qed.

#[local] Hint Resolve quiet_relocate quiet_form_reference quiet_form_lrc quiet_form_params quiet_json_params quiet_json_ref_mode quiet_json_reference quiet_json_lrc : quiet.

Lemma quiet_form_job req : quiet (form_job req).
Proof. unfold form_job. quiet. Qed.

Lemma quiet_json_job req : quiet (json_job req).
Proof. unfold json_job. quiet. Qed.

#[local] Hint Resolve quiet_form_job quiet_json_job : quiet.

(** What is quiet leaves the gate alone. *)
Lemma keeps_of_quiet {A} (m : M A) : quiet m → keeps_lock m.
Proof. intros H w. apply H. Qed.

Lemma keeps_ret {A} (a : A) : keeps_lock (ret a).
Proof. intros w. reflexivity. Qed.

Lemma keeps_subprocess_run sp : keeps_lock (subprocess_run sp).
Proof. intros w. unfold subprocess_run. destruct (run_process sp (files w)); reflexivity. Qed.

Lemma keeps_bind {A B} (m : M A) (k : A → M B) :
  keeps_lock m → (∀ a, keeps_lock (k a)) → keeps_lock (bind m k).
Proof.
  intros Hm Hk w. unfold bind. specialize (Hm w).
  destruct (m w) as [[a|e] w']; simpl in *.
  - rewrite Hk. exact Hm.
  - exact Hm.
Qed.

Lemma keeps_try_except {A} (m : M A) (h : exn → M A) :
  keeps_lock m → (∀ e, keeps_lock (h e)) → keeps_lock (try_except m h).
Proof.
  intros Hm Hh w. unfold try_except. specialize (Hm w).
  destruct (m w) as [[a|e] w']; simpl in *.
  - exact Hm.
  - rewrite Hh. exact Hm.
Qed.

Lemma keeps_bind_step {A} (m : M (step A)) (k : A → M response) :
  keeps_lock m → (∀ a, keeps_lock (k a)) → keeps_lock (bind_step m k).
Proof.
  intros Hm Hk. unfold bind_step. apply keeps_bind; [exact Hm|].
  intros [r|a]; [apply keeps_ret | apply Hk].
Qed.

Create HintDb keeps discriminated.
#[local] Hint Resolve keeps_ret keeps_subprocess_run : keeps.
#[local] Hint Extern 5 (keeps_lock _) =>
  (apply keeps_of_quiet; solve [eauto with quiet]) : keeps.

Ltac keeps_step :=
  match goal with
  | |- keeps_lock (bind _ _) => apply keeps_bind; [|intros]
  | |- keeps_lock (bind_step _ _) => apply keeps_bind_step; [|intros]
  | |- keeps_lock (try_except _ _) => apply keeps_try_except; [|intros]
  | |- keeps_lock (if ?b then _ else _) => destruct b
  | |- keeps_lock (match ?x with _ => _ end) => destruct x
  | |- keeps_lock _ => solve [eauto with keeps]
  end.

Ltac keeps := repeat keeps_step.

Lemma keeps_launch a e : keeps_lock (launch a e).
Proof. unfold launch. keeps. Qed.

#[local] Hint Resolve keeps_launch : keeps.

Lemma keeps_run_infer a e : keeps_lock (run_infer a e).
Proof. unfold run_infer. keeps. Qed.

#[local] Hint Resolve keeps_run_infer : keeps.

Lemma keeps_run_job j : keeps_lock (run_job j).
Proof. unfold run_job. keeps. Qed.

#[local] Hint Resolve keeps_run_job : keeps.

Lemma keeps_except_clauses e : keeps_lock (except_clauses e).
Proof. unfold except_clauses. keeps. Qed.

Lemma keeps_api_generate_body req : keeps_lock (api_generate_body req).
Proof. unfold api_generate_body. keeps. Qed.

Lemma keeps_api_generate_json_body req : keeps_lock (api_generate_json_body req).
Proof. unfold api_generate_json_body. keeps. Qed.

(** *** The job gate (section 4.1) *)

(** The [except] clauses turn every exception into a response. *)
Lemma try_except_clauses_returns (m : M response) w :
  ∃ r w', try_except m except_clauses w = (Ok r, w').
Proof.
  unfold try_except. destruct (m w) as [[r|e] w']; [eauto|].
  unfold except_clauses. destruct (is_value_error e); unfold ret; eauto.
Qed.

(** A handler body run under the gate: whatever it does, the response is
    returned with the gate free. *)
Lemma guarded_body_releases (m : M response) w :
  keeps_lock m → lock w = true →
  ∃ r w', try_finally (try_except m except_clauses) release w = (Ok r, w')
          ∧ lock w' = false.
Proof.
  intros Hk Hl. unfold try_finally.
  destruct (try_except_clauses_returns m w) as (r & w' & E). rewrite E.
  assert (lock w' = true) as Hl'.
  { pose proof (keeps_try_except m except_clauses Hk keeps_except_clauses w) as K.
    rewrite E in K. simpl in K. congruence. }
  unfold release. rewrite Hl'. eexists _, _. split; reflexivity.
Qed.

(** C1. A generation request that acquires the job gate, through
    [api_generate] or [api_generate_json], ends with a response and with
    the gate released, whatever the request, the state of the disk, the
    behaviour of the external process and the exit path taken: success,
    validation failure, process failure or unexpected fault. *)
Theorem gate_released_on_every_exit
    (form_req : form_request) (json_req : option pyval) (w : world) :
  lock w = false →
  (∃ r w', api_generate form_req w = (Ok r, w') ∧ lock w' = false)
  ∧ (∃ r w', api_generate_json json_req w = (Ok r, w') ∧ lock w' = false).
Proof.
  intros Hfree. split.
  - unfold api_generate, acquire_nonblocking, bind. rewrite Hfree. simpl.
    apply guarded_body_releases; [apply keeps_api_generate_body | reflexivity].
  - unfold api_generate_json, acquire_nonblocking, bind. rewrite Hfree. simpl.
    apply guarded_body_releases; [apply keeps_api_generate_json_body | reflexivity].
Qed.

(** C2. While the job gate is held, a generation request is answered at
    once with [ok: false], the error ["Another job is running"] and status
    429, and the server is left exactly as it was: no process is spawned,
    no directory is created, no file is written. *)
Theorem busy_gate_rejects_unchanged
    (form_req : form_request) (json_req : option pyval) (w : world) :
  lock w = true →
  api_generate form_req w
    = (Ok (Response (ErrorBody "Another job is running") 429), w)
  ∧ api_generate_json json_req w
    = (Ok (Response (ErrorBody "Another job is running") 429), w).
Proof.
  intros Hheld. split.
  - unfold api_generate, acquire_nonblocking, bind. rewrite Hheld. reflexivity.
  - unfold api_generate_json, acquire_nonblocking, bind. rewrite Hheld. reflexivity.
Qed.

(** *** Project paths stay under the base directory *)

(** **** The sanitiser of the project name *)

Lemma prefix_nil r : String.prefix "" r = true.
Proof. now destruct r. Qed.

Lemma prefix_dotdot_intro r : String.prefix ".." (String "." (String "." r)) = true.
Proof.
  cbn [String.prefix].
  destruct (ascii_dec "." ".") as [_|Hn]; [apply prefix_nil | congruence].
Qed.

Lemma prefix_dotdot_iff s :
  String.prefix ".." s = true ↔ ∃ r, s = String "." (String "." r).
Proof.
  split.
  - destruct s as [|a [|b r]]; cbn [String.prefix].
    + discriminate.
    + destruct (ascii_dec "." a); discriminate.
    + destruct (ascii_dec "." a) as [<-|]; [|discriminate].
      destruct (ascii_dec "." b) as [<-|]; [|discriminate].
      eauto.
  - intros [r ->]. apply prefix_dotdot_intro.
Qed.

Lemma replace_dotdot_match r :
  Str.replace ".." "" (String "." (String "." r)) = Str.replace ".." "" r.
Proof.
  unfold Str.replace. cbn [Str.replace_go].
  now rewrite prefix_dotdot_intro.
Qed.

Lemma replace_dotdot_other c r :
  String.prefix ".." (String c r) = false →
  Str.replace ".." "" (String c r) = String c (Str.replace ".." "" r).
Proof.
  intros E. unfold Str.replace. cbn [Str.replace_go]. now rewrite E.
Qed.

Lemma prefix_dot_cons c r :
  String.prefix "." (String c r) = bool_decide (c = "."%char).
Proof.
  cbn [String.prefix]. destruct (ascii_dec "." c) as [<-|Hn].
  - now rewrite prefix_nil, bool_decide_eq_true_2.
  - rewrite bool_decide_eq_false_2; [reflexivity | congruence].
Qed.

Lemma replace_dotdot_head r :
  String.prefix "." r = false → String.prefix "." (Str.replace ".." "" r) = false.
Proof.
  destruct r as [|c r]; [reflexivity|]. intros E.
  rewrite prefix_dot_cons in E. apply bool_decide_eq_false in E.
  rewrite replace_dotdot_other.
  - rewrite prefix_dot_cons. now apply bool_decide_eq_false.
  - cbn [String.prefix]. destruct (ascii_dec "." c); [congruence | reflexivity].
Qed.

(** After [replace("..", "")] no two dots are left side by side. *)
Lemma replace_dotdot_free s : Str.contains ".." (Str.replace ".." "" s) = false.
Proof.
  remember (String.length s) as n eqn:Hn.
  revert s Hn. induction n as [n IH] using lt_wf_ind. intros s Hn.
  destruct s as [|c r]; [reflexivity|].
  destruct (String.prefix ".." (String c r)) eqn:E.
  - apply prefix_dotdot_iff in E as [r' [= -> ->]].
    rewrite replace_dotdot_match.
    apply (IH (String.length r')); [simpl in Hn; lia | reflexivity].
  - rewrite (replace_dotdot_other _ _ E).
    cbn [Str.contains].
    rewrite (IH (String.length r)) by (simpl in Hn; (lia || reflexivity)).
    rewrite orb_false_r.
    cbn [String.prefix]. destruct (ascii_dec "." c) as [<-|]; [|reflexivity].
    apply replace_dotdot_head.
    destruct r as [|b r]; [reflexivity|].
    rewrite prefix_dot_cons. apply bool_decide_eq_false. intros ->.
    now rewrite prefix_dotdot_intro in E.
Qed.

(** [".."] occurs in [s] exactly when [s] can be cut around it. *)
Lemma contains_dotdot_iff s :
  Str.contains ".." s = true ↔ ∃ a b, s = a +:+ ".." +:+ b.
Proof.
  split.
  - induction s as [|c r IH]; cbn [Str.contains].
    + rewrite orb_false_r. intros E. apply prefix_dotdot_iff in E as [? ?]. discriminate.
    + intros E. apply orb_true_iff in E as [E|E].
      * apply prefix_dotdot_iff in E as [r' ->]. exists "", r'. reflexivity.
      * destruct (IH E) as (a & b & ->). exists (String c a), b. reflexivity.
  - intros (a & b & ->). induction a as [|c a IH].
    + change ("" +:+ ".." +:+ b) with (String "." (String "." b)).
      cbn [Str.contains]. now rewrite prefix_dotdot_intro.
    + change (String c a +:+ ".." +:+ b) with (String c (a +:+ ".." +:+ b)).
      cbn [Str.contains]. rewrite IH. apply orb_true_r.
Qed.

Lemma app_assoc_string (a b c : string) : (a +:+ b) +:+ c = a +:+ (b +:+ c).
Proof.
  induction a as [|x a IH]; [reflexivity|].
  change (String x ((a +:+ b) +:+ c) = String x (a +:+ (b +:+ c))).
  now rewrite IH.
Qed.

Lemma app_nil_r_string (a : string) : a +:+ "" = a.
Proof.
  induction a as [|x a IH]; [reflexivity|].
  change (String x (a +:+ "") = String x a). now rewrite IH.
Qed.

(** A piece of a string without [".."] has none either. *)
Lemma dotdot_free_piece (pre s post : string) :
  Str.contains ".." (pre +:+ s +:+ post) = false → Str.contains ".." s = false.
Proof.
  intros Hfree. destruct (Str.contains ".." s) eqn:E; [|reflexivity].
  apply contains_dotdot_iff in E as (a & b & ->).
  assert (Str.contains ".." (pre +:+ (a +:+ ".." +:+ b) +:+ post) = true) as Hc.
  { apply contains_dotdot_iff. exists (pre +:+ a), (b +:+ post).
    now rewrite !app_assoc_string. }
  congruence.
Qed.

Lemma drop_while_suffix f s : ∃ pre, s = pre +:+ Str.drop_while f s.
Proof.
  induction s as [|c r [pre IH]]; [now exists ""|].
  cbn [Str.drop_while]. destruct (f c).
  - exists (String c pre).
    change (String c r = String c (pre +:+ Str.drop_while f r)). now rewrite <- IH.
  - now exists "".
Qed.

Lemma rev_app_spec (s acc : string) :
  String.rev_app s acc = String.rev s +:+ acc.
Proof.
  unfold String.rev. revert acc.
  induction s as [|c r IH]; intros acc; [reflexivity|].
  cbn [String.rev_app]. rewrite IH, (IH (String c "")).
  now rewrite app_assoc_string.
Qed.

Lemma rev_cons c (s : string) : String.rev (String c s) = String.rev s +:+ String c "".
Proof. unfold String.rev at 1. cbn [String.rev_app]. apply rev_app_spec. Qed.

Lemma rev_app_distr_string (a b : string) :
  String.rev (a +:+ b) = String.rev b +:+ String.rev a.
Proof.
  induction a as [|c a IH].
  - change ("" +:+ b) with b. change (String.rev "") with "".
    now rewrite app_nil_r_string.
  - change (String c a +:+ b) with (String c (a +:+ b)).
    now rewrite !rev_cons, IH, app_assoc_string.
Qed.

Lemma rev_involutive_string (s : string) : String.rev (String.rev s) = s.
Proof.
  induction s as [|c r IH]; [reflexivity|].
  now rewrite rev_cons, rev_app_distr_string, IH.
Qed.

Lemma strip_with_piece f s : ∃ pre post, s = pre +:+ Str.strip_with f s +:+ post.
Proof.
  unfold Str.strip_with, Str.rstrip, Str.lstrip.
  destruct (drop_while_suffix f s) as [pre Hpre].
  set (t := Str.drop_while f s) in *.
  destruct (drop_while_suffix f (String.rev t)) as [post' Hpost].
  exists pre, (String.rev post').
  rewrite <- rev_app_distr_string, <- Hpost, rev_involutive_string.
  exact Hpre.
Qed.

(** Replacing backslashes by slashes goes character by character. *)
Lemma replace_backslash_cons c r :
  Str.replace "\" "/" (String c r)
  = String (if bool_decide (c = "\"%char) then "/"%char else c)
           (Str.replace "\" "/" r).
Proof.
  unfold Str.replace. cbn [Str.replace_go String.prefix].
  destruct (ascii_dec "\" c) as [<-|Hn].
  - rewrite prefix_nil, bool_decide_eq_true_2 by reflexivity. reflexivity.
  - rewrite bool_decide_eq_false_2 by congruence. reflexivity.
Qed.

Lemma prefix_dotdot_starts s : String.prefix ".." s = starts_dotdot s.
Proof.
  destruct s as [|a [|b r]]; cbn [String.prefix starts_dotdot].
  - reflexivity.
  - destruct (ascii_dec "." a); reflexivity.
  - destruct (ascii_dec "." a) as [<-|Ha].
    + rewrite bool_decide_eq_true_2 by reflexivity.
      destruct (ascii_dec "." b) as [<-|Hb].
      * rewrite prefix_nil. now rewrite bool_decide_eq_true_2.
      * rewrite bool_decide_eq_false_2; [reflexivity | congruence].
    + rewrite bool_decide_eq_false_2; [reflexivity | congruence].
Qed.

Lemma replace_backslash_dotdot s :
  Str.contains ".." (Str.replace "\" "/" s) = Str.contains ".." s.
Proof.
  induction s as [|c r IH]; [reflexivity|].
  rewrite replace_backslash_cons. cbn [Str.contains]. rewrite IH. f_equal.
  rewrite !prefix_dotdot_starts.
  destruct r as [|d r']; [reflexivity|].
  rewrite replace_backslash_cons. cbn [starts_dotdot].
  destruct (bool_decide (c = "\"%char)) eqn:Ec, (bool_decide (d = "\"%char)) eqn:Ed;
    try apply bool_decide_eq_true in Ec; try apply bool_decide_eq_true in Ed;
    subst; reflexivity.
Qed.

(** The sanitised project name holds no [".."], whatever the identifier
    was. *)
Lemma safe_name_no_dotdot project : Str.contains ".." (safe_name project) = false.
Proof.
  unfold safe_name.
  set (s := Str.replace "\" "/" (Str.replace ".." "" project)).
  assert (Str.contains ".." s = false) as Hs
    by (subst s; rewrite replace_backslash_dotdot; apply replace_dotdot_free).
  destruct (Str.nonempty (Str.strip_slashes s)); [|reflexivity].
  unfold Str.strip_slashes.
  destruct (strip_with_piece Str.is_slash s) as (pre & post & E).
  rewrite E in Hs. now apply dotdot_free_piece in Hs.
Qed.

(** **** The confinement check *)

Lemma parents_prefix (base p : path) :
  base ∈ Path.parents p → base `prefix_of` p.
Proof.
  unfold Path.parents. intros Hin.
  apply list_elem_of_In, in_map_iff in Hin as (n & <- & _).
  apply prefix_take.
Qed.

Lemma not_escapes_prefix (base p : path) :
  escapes base p = false → base `prefix_of` p.
Proof.
  unfold escapes. intros E. apply andb_false_iff in E as [E|E];
    apply negb_false_iff, bool_decide_eq_true in E.
  - now apply parents_prefix.
  - subst. reflexivity.
Qed.

(** C7. For every project identifier, [project_path] and
    [project_path_no_create] either raise or return a path that has the
    configured base directory as a prefix; this holds whatever the
    identifier contains and however the host resolves paths. *)
Theorem project_path_stays_under_base
    (project : string) (cfg : pyval) (w : world) :
  match ensure_project_base cfg w with
  | (Ok base, _) =>
      within base (fst (project_path (PyStr project) cfg w))
      ∧ within base (fst (project_path_no_create (PyStr project) cfg w))
  | (Raise e, _) =>
      fst (project_path (PyStr project) cfg w) = Raise e
      ∧ fst (project_path_no_create (PyStr project) cfg w) = Raise e
  end.
Proof.
  unfold project_path, project_path_no_create, bind.
  destruct (ensure_project_base cfg w) as [[base|e] w0]; [|split; reflexivity].
  assert (∃ s, py_strip (py_or (PyStr project) (PyStr "Default")) = Ok s)
    as [s Hs].
  { unfold py_or. destruct (py_bool _); simpl; eauto. }
  unfold lift. rewrite Hs.
  set (p := resolve (Path.join base (safe_name s))).
  destruct (escapes base p) eqn:E; simpl; [split; exact I|].
  apply not_escapes_prefix in E. split.
  - unfold bind. destruct (mkdir_exist_ok p w0) as [[[]|?] ?]; simpl; [exact E|exact I].
  - exact E.
Qed.

(** *** The file system *)

Lemma fs_lookup_store_eq (t : fs) p n : fs_lookup (fs_store t p n) p = Some n.
Proof.
  induction t as [|[q m] t IH]; simpl.
  - now rewrite bool_decide_eq_true_2.
  - destruct (bool_decide (q = p)) eqn:E; simpl.
    + now rewrite bool_decide_eq_true_2.
    + now rewrite E.
Qed.

Lemma fs_lookup_store_ne (t : fs) p q n :
  p ≠ q → fs_lookup (fs_store t p n) q = fs_lookup t q.
Proof.
  intros Hne. induction t as [|[k m] t IH]; simpl.
  - now rewrite bool_decide_eq_false_2.
  - destruct (bool_decide (k = p)) eqn:E; simpl.
    + apply bool_decide_eq_true in E. subst k.
      now rewrite !bool_decide_eq_false_2.
    + now rewrite IH.
Qed.

Lemma fs_store_store (t : fs) p a b :
  fs_store (fs_store t p a) p b = fs_store t p b.
Proof.
  induction t as [|[k m] t IH]; simpl.
  - now rewrite bool_decide_eq_true_2.
  - destruct (bool_decide (k = p)) eqn:E; simpl.
    + now rewrite bool_decide_eq_true_2.
    + now rewrite E, IH.
Qed.

Lemma fs_lookup_remove_tree (t : fs) d q :
  fs_lookup (fs_remove_tree t d) q = if under d q then None else fs_lookup t q.
Proof.
  unfold fs_remove_tree.
  induction t as [|[k m] t IH]; simpl.
  - now destruct (under d q).
  - destruct (under d k) eqn:Ek; simpl.
    + rewrite IH. destruct (under d q) eqn:Eq; [reflexivity|].
      rewrite bool_decide_eq_false_2; [reflexivity|].
      intros ->. congruence.
    + rewrite IH. destruct (bool_decide (k = q)) eqn:Ekq; [|reflexivity].
      apply bool_decide_eq_true in Ekq. subst k. now rewrite Ek.
Qed.

Lemma under_true d q : under d q = true ↔ d `prefix_of` q.
Proof. unfold under. apply bool_decide_eq_true. Qed.

Lemma under_false d q : under d q = false ↔ ¬ d `prefix_of` q.
Proof. unfold under. apply bool_decide_eq_false. Qed.

Lemma rebase_root src dst k :
  src `prefix_of` k → (rebase src dst k = dst ↔ k = src).
Proof.
  intros [rest ->]. unfold rebase. rewrite drop_app_length. split.
  - intros E. rewrite <- (app_nil_r dst) in E at 2.
    apply app_inv_head in E. subst. now rewrite app_nil_r.
  - intros E. rewrite <- (app_nil_r src) in E at 2.
    apply app_inv_head in E. subst. now rewrite app_nil_r.
Qed.

(** After a rename, the destination holds what the source held. *)
Lemma fs_lookup_rename_dst (t : fs) src dst :
  ¬ dst `prefix_of` src →
  fs_lookup (fs_rename t src dst) dst = fs_lookup t src.
Proof.
  intros Hds. unfold fs_rename, fs_remove_tree.
  induction t as [|[k m] t IH]; simpl; [reflexivity|].
  destruct (under dst k) eqn:Ek; simpl.
  - rewrite IH. rewrite bool_decide_eq_false_2; [reflexivity|].
    intros ->. apply under_true in Ek. contradiction.
  - destruct (under src k) eqn:Es; simpl.
    + apply under_true in Es.
      destruct (bool_decide (k = src)) eqn:Eks.
      * apply bool_decide_eq_true in Eks.
        rewrite bool_decide_eq_true_2; [reflexivity|]. now apply rebase_root.
      * apply bool_decide_eq_false in Eks.
        rewrite bool_decide_eq_false_2; [exact IH|].
        intros E. now apply rebase_root in E.
    + rewrite IH.
      rewrite (bool_decide_eq_false_2 (k = dst)).
      * rewrite (bool_decide_eq_false_2 (k = src)); [reflexivity|].
        intros ->. apply under_false in Es. now apply Es.
      * intros ->. apply under_false in Ek. now apply Ek.
Qed.

(** A rename leaves alone what lies neither below the source nor below
    the destination. *)
Lemma fs_lookup_rename_other (t : fs) src dst q :
  ¬ src `prefix_of` q → ¬ dst `prefix_of` q →
  fs_lookup (fs_rename t src dst) q = fs_lookup t q.
Proof.
  intros Hs Hd. unfold fs_rename, fs_remove_tree.
  induction t as [|[k m] t IH]; simpl; [reflexivity|].
  destruct (under dst k) eqn:Ek; simpl.
  - rewrite IH. rewrite bool_decide_eq_false_2; [reflexivity|].
    intros ->. apply under_true in Ek. contradiction.
  - destruct (under src k) eqn:Es; simpl.
    + apply under_true in Es. rewrite IH.
      rewrite (bool_decide_eq_false_2 (k = q)) by (intros ->; contradiction).
      rewrite bool_decide_eq_false_2; [reflexivity|].
      intros <-. apply Hd. unfold rebase. now apply prefix_app_r.
    + now rewrite IH.
Qed.

Lemma fs_is_file_not_dir (t : fs) p :
  fs_is_file t p = true → p ≠ [] → fs_is_dir t p = false.
Proof.
  unfold fs_is_file, fs_is_dir. destruct p; [congruence|].
  now destruct (fs_lookup t _) as [[|]|].
Qed.

Lemma fs_is_file_exists (t : fs) p : fs_is_file t p = true → fs_exists t p = true.
Proof.
  unfold fs_is_file, fs_exists. destruct p; [reflexivity|].
  destruct (fs_lookup t _) as [[|]|]; try discriminate.
  intros _. apply bool_decide_eq_true. eauto.
Qed.

Lemma parent_snoc (p : path) x : Path.parent (p ++ [x]) = p.
Proof. apply removelast_last. Qed.

Lemma child_of_parent (p : path) : p ≠ [] → p = Path.parent p ++ [Path.name p].
Proof. intros. now apply app_removelast_last. Qed.

Lemma prefix_snoc_inv (d p : path) x :
  d `prefix_of` p ++ [x] → d `prefix_of` p ∨ d = p ++ [x].
Proof.
  intros [k E]. destruct (decide (k = [])) as [->|Hk].
  - right. now rewrite app_nil_r in E.
  - left. destruct (exists_last Hk) as (k' & y & ->).
    rewrite app_assoc in E. apply app_inj_tail in E as [-> _].
    now apply prefix_app_r.
Qed.

(** Directories that lie apart have no child of one below a child of the
    other. *)
Lemma apart_children (d1 d2 : path) x y :
  apart d1 d2 → ¬ (d1 ++ [x]) `prefix_of` (d2 ++ [y]).
Proof.
  intros [H12 H21] Hp.
  assert (d1 `prefix_of` d2 ++ [y]) as H
    by (etrans; [apply prefix_app_r; reflexivity | exact Hp]).
  apply prefix_snoc_inv in H as [H| ->]; [contradiction|].
  apply H21. now apply prefix_app_r.
Qed.

Lemma apart_child_r (d1 d2 : path) y :
  apart d1 d2 → ¬ d1 `prefix_of` (d2 ++ [y]).
Proof.
  intros [H12 H21] H.
  apply prefix_snoc_inv in H as [H| ->]; [contradiction|].
  apply H21. now apply prefix_app_r.
Qed.

Lemma apart_sym (d1 d2 : path) : apart d1 d2 → apart d2 d1.
Proof. intros [? ?]. now split. Qed.

(** *** The artifact relocator (section 4.4) *)

Lemma glob_head_child (t : fs) d ext p rest :
  fs_glob t d ext = p :: rest →
  p ≠ [] ∧ Path.parent p = d ∧ Str.ends_with ext (Path.name p) = true.
Proof.
  unfold fs_glob. intros E.
  assert (In p (List.map fst (List.filter
            (λ e, negb (bool_decide (fst e = []))
                  && bool_decide (Path.parent (fst e) = d)
                  && Str.ends_with ext (Path.name (fst e))) t))) as Hin
    by (rewrite E; now left).
  apply in_map_iff in Hin as ([k n] & <- & Hin).
  apply filter_In in Hin as [_ Hc]. simpl in *.
  apply andb_true_iff in Hc as [Hc Hext].
  apply andb_true_iff in Hc as [Hne Hpar].
  apply negb_true_iff, bool_decide_eq_false in Hne.
  apply bool_decide_eq_true in Hpar. auto.
Qed.

(** The source chosen by [run_infer] is [output.wav] of the scratch
    directory or, when that does not exist, the first entry of the scratch
    directory whose name ends in [.wav]; in both cases it lies directly in
    the scratch directory. *)
Lemma artifact_source_spec (t : fs) (tmp : path) :
  let src := artifact_source t tmp in
  src ≠ [] ∧ Path.parent src = tmp
  ∧ (src = tmp ++ ["output.wav"]
     ∨ fs_exists t (tmp ++ ["output.wav"]) = false
       ∧ Str.ends_with ".wav" (Path.name src) = true).
Proof.
  unfold artifact_source.
  destruct (fs_exists t (tmp ++ ["output.wav"])) eqn:E; simpl.
  - split; [now destruct tmp|]. split; [apply parent_snoc | now left].
  - destruct (fs_glob t tmp ".wav") as [|p rest] eqn:G.
    + split; [now destruct tmp|]. split; [apply parent_snoc | now left].
    + apply glob_head_child in G as (? & ? & ?). auto.
Qed.

Lemma mkdir_exist_ok_dir p w w' :
  mkdir_exist_ok p w = (Ok tt, w') → fs_is_dir (files w') p = true.
Proof.
  unfold mkdir_exist_ok, bind, get_files, ret, raise, put_files.
  destruct (fs_is_dir (files w) p) eqn:E1; [now intros [= <-]|].
  destruct (fs_exists (files w) p); [discriminate|].
  destruct (fs_is_dir (files w) (Path.parent p)); [|discriminate].
  intros [= <-]. simpl. unfold fs_is_dir. destruct p; [reflexivity|].
  now rewrite fs_lookup_store_eq.
Qed.

Lemma project_path_dir project cfg w pd w' :
  project_path project cfg w = (Ok pd, w') → fs_is_dir (files w') pd = true.
Proof.
  unfold project_path, bind.
  destruct (ensure_project_base cfg w) as [[base|?] w0]; [|discriminate].
  destruct (lift _ w0) as [[s|?] w1]; [|discriminate].
  destruct (escapes _ _); [discriminate|].
  destruct (mkdir_exist_ok _ w1) as [[[]|?] w2] eqn:E; [|discriminate].
  unfold ret. intros [= <- <-]. now apply mkdir_exist_ok_dir in E.
Qed.

Lemma shutil_move_file src dst w :
  fs_is_dir (files w) dst = false →
  fs_is_dir (files w) (Path.parent dst) = true →
  fs_is_dir (files w) src = false →
  ¬ src `prefix_of` dst →
  shutil_move src dst w = (Ok tt, set_files w (fs_rename (files w) src dst)).
Proof.
  intros Hd Hp Hs Hu. unfold shutil_move, bind, get_files.
  rewrite Hd, Hp, Hs. simpl.
  apply under_false in Hu. rewrite Hu. reflexivity.
Qed.

(** What [relocate] does when an artifact is found and can be moved. *)
Lemma relocate_found args tmp rc logs w pd w1 :
  project_path (dict_get args "project") PyNone w = (Ok pd, w1) →
  fs_is_file (files w1) (artifact_source (files w1) tmp) = true →
  fs_is_dir (files w1) (final_path pd) = false →
  apart tmp pd →
  relocate args tmp rc logs w
  = (Ok (RunResult (Z.eqb rc 0) rc logs (Path.to_string (final_path pd))
                   ("output-" +:+ timestamp_str +:+ ".wav")),
     set_files w1
       (fs_remove_tree
          (fs_rename (files w1) (artifact_source (files w1) tmp) (final_path pd))
          tmp)).
Proof.
  intros Hpp Hfile Hfree Hapart.
  pose proof (project_path_dir _ _ _ _ _ Hpp) as Hdir.
  destruct (artifact_source_spec (files w1) tmp) as (Hne & Hpar & _).
  set (src := artifact_source (files w1) tmp) in *.
  unfold relocate. rewrite (bind_ok _ _ _ _ _ Hpp).
  unfold bind at 1. unfold get_files at 1. fold src.
  rewrite (fs_is_file_exists _ _ Hfile).
  unfold bind at 1. unfold bind at 1.
  fold (final_path pd).
  rewrite shutil_move_file.
  - reflexivity.
  - exact Hfree.
  - unfold final_path. now rewrite parent_snoc.
  - now apply fs_is_file_not_dir.
  - rewrite (child_of_parent src Hne), Hpar. unfold final_path.
    now apply apart_children.
Qed.

(** What [relocate] does when the scratch directory holds no artifact. *)
Lemma relocate_absent args tmp rc logs w pd w1 :
  project_path (dict_get args "project") PyNone w = (Ok pd, w1) →
  fs_exists (files w1) (artifact_source (files w1) tmp) = false →
  relocate args tmp rc logs w
  = (Ok (RunResult false rc logs "" ""),
     set_files w1 (fs_remove_tree (files w1) tmp)).
Proof.
  intros Hpp Habs. unfold relocate. rewrite (bind_ok _ _ _ _ _ Hpp).
  unfold bind at 1. unfold get_files at 1. rewrite Habs. reflexivity.
Qed.















(** *** The result of a run (section 4.3) *)

(** C4. The result of [run_infer] has [ok] true exactly when the process
    exited with status 0 and an artifact was found in the scratch
    directory. The exit status is passed on in the result, and it changes
    nothing else: for any other status the relocation leaves the same
    files and reports the same output file. *)
Theorem run_ok_iff_exit_zero_and_artifact
    (args env : gmap string pyval) (w0 : world)
    (tmp : path) (rc : Z) (logs : string) (w : world) (pd : path) (w1 : world) :
  launch args env w0 = (Ok (tmp, rc, logs), w) →
  project_path (dict_get args "project") PyNone w = (Ok pd, w1) →
  movable (files w1) tmp pd →
  ∃ r w2,
    run_infer args env w0 = (Ok r, w2)
    ∧ (ok r = true
       ↔ rc = 0%Z ∧ fs_exists (files w1) (artifact_source (files w1) tmp) = true)
    ∧ returncode r = rc
    ∧ ∀ rc', ∃ r',
        relocate args tmp rc' logs w = (Ok r', w2)
        ∧ returncode r' = rc'
        ∧ outfile r' = outfile r ∧ outfile_name r' = outfile_name r.
Proof.
  intros Hl Hpp Hmov.
  unfold run_infer. rewrite (bind_ok _ _ _ _ _ Hl).
  destruct (fs_exists (files w1) (artifact_source (files w1) tmp)) eqn:Hex.
  - destruct (Hmov Hex) as (Hfile & Hfree & Hapart).
    eexists _, _. split; [apply relocate_found; eassumption|]. simpl.
    split; [|split; [reflexivity|]].
    + rewrite Z.eqb_eq. tauto.
    + intros rc'. eexists. split; [apply relocate_found; eassumption|]. now simpl.
  - eexists _, _. split; [eapply relocate_absent; eassumption|]. simpl.
    split; [|split; [reflexivity|]].
    + split; [discriminate | intros [_ ?]; discriminate].
    + intros rc'. eexists. split; [eapply relocate_absent; eassumption|]. now simpl.
Qed.

(** *** The handlers *)

(** When the gate is free, [api_generate] is its body run under the gate,
    followed by the release. *)
Lemma api_generate_returns req w0 r w' :
  lock w0 = false →
  api_generate_body req (set_lock w0 true) = (Ok r, w') →
  api_generate req w0 = (Ok r, set_lock w' false).
Proof.
  intros Hfree Hb.
  unfold api_generate, acquire_nonblocking, bind. rewrite Hfree. simpl.
  unfold try_finally, try_except. rewrite Hb.
  pose proof (keeps_api_generate_body req (set_lock w0 true)) as K.
  rewrite Hb in K. simpl in K.
  unfold release. now rewrite K.
Qed.

Lemma final_name_not_history (d : path) :
  ¬ final_path d `prefix_of` history_file d.
Proof.
  unfold final_path, history_file. intros [k E].
  rewrite <- app_assoc in E. apply app_inv_head in E.
  simpl in E. discriminate.
Qed.

(** C10. A run whose process exits with a non-zero status while an
    artifact is present in the scratch directory: [api_generate] still
    moves the artifact into the project directory and answers with the
    result, whose [outfile] and [outfile_name] are the non-empty final
    path and name and whose [ok] is false; apart from the relocation the
    files are left as they were, so the history file is not written. *)
Theorem failed_run_keeps_artifact_without_history
    (req : form_request) (w0 : world) (j : job) (w : world)
    (tmp : path) (rc : Z) (logs : string) (wl : world) (pd : path) (w1 : world) :
  lock w0 = false →
  form_job req (set_lock w0 true) = (Ok (Next j), w) →
  launch (job_args j) (job_env j) w = (Ok (tmp, rc, logs), wl) →
  rc ≠ 0%Z →
  project_path (dict_get (job_args j) "project") PyNone wl = (Ok pd, w1) →
  fs_is_file (files w1) (artifact_source (files w1) tmp) = true →
  fs_is_dir (files w1) (final_path pd) = false →
  apart tmp pd →
  ∃ r w',
    api_generate req w0 = (Ok (Response (ResultBody r) 200), w')
    ∧ ok r = false ∧ returncode r = rc
    ∧ outfile r = Path.to_string (final_path pd) ∧ outfile r ≠ ""
    ∧ outfile_name r = "output-" +:+ timestamp_str +:+ ".wav"
    ∧ outfile_name r ≠ ""
    ∧ fs_lookup (files w') (final_path pd)
      = fs_lookup (files w1) (artifact_source (files w1) tmp)
    ∧ files w'
      = fs_remove_tree
          (fs_rename (files w1) (artifact_source (files w1) tmp) (final_path pd))
          tmp
    ∧ fs_lookup (files w') (history_file pd)
      = fs_lookup (files w1) (history_file pd).
Proof.
  intros Hfree Hjob Hl Hrc Hpp Hfile Hdst Hapart.
  pose proof (relocate_found _ tmp rc logs _ _ _ Hpp Hfile Hdst Hapart) as Hrel.
  assert (Z.eqb rc 0 = false) as Hz by now apply Z.eqb_neq.
  rewrite Hz in Hrel.
  destruct (artifact_source_spec (files w1) tmp) as (Hne & Hpar & _).
  set (src := artifact_source (files w1) tmp) in *.
  assert (src = tmp ++ [Path.name src]) as Hsrc
    by (rewrite <- Hpar at 1; now apply child_of_parent).
  eexists _, _. split.
  { apply api_generate_returns; [exact Hfree|].
    unfold api_generate_body, bind_step. rewrite (bind_ok _ _ _ _ _ Hjob).
    unfold run_job, run_infer.
    unfold bind at 1. unfold bind at 1. rewrite Hl. rewrite Hrel. simpl.
    reflexivity. }
  simpl. repeat split.
  - unfold Path.to_string. discriminate.
  - discriminate.
  - rewrite fs_lookup_remove_tree.
    assert (under tmp (final_path pd) = false) as ->
      by (apply under_false; unfold final_path, history_file; now apply apart_child_r).
    apply fs_lookup_rename_dst. rewrite Hsrc. unfold final_path.
    apply apart_children. now apply apart_sym.
  - rewrite fs_lookup_remove_tree.
    assert (under tmp (history_file pd) = false) as ->
      by (apply under_false; unfold final_path, history_file; now apply apart_child_r).
    apply fs_lookup_rename_other; [|apply final_name_not_history].
    rewrite Hsrc. unfold history_file. now apply apart_children.
Qed.

(** *** The history ledger (section 4.5) *)

Lemma history_file_parent (pd : path) : Path.parent (history_file pd) = pd.
Proof. apply parent_snoc. Qed.

Lemma history_file_ne (pd : path) : history_file pd ≠ pd.
Proof.
  unfold history_file. intros E.
  apply (f_equal length) in E. rewrite length_app in E. simpl in E. lia.
Qed.

Lemma ledger_not_dir (t : fs) pd l :
  ledger t pd = Some l → fs_is_dir t (history_file pd) = false.
Proof.
  unfold ledger, fs_is_dir, history_file.
  destruct (pd ++ ["history.json"]) eqn:E; [now destruct pd|].
  now destruct (fs_lookup t _) as [[|]|].
Qed.

Lemma read_history_ledger pd w l :
  ledger (files w) pd = Some l → read_history pd w = (Ok (PyList l), w).
Proof.
  unfold ledger, read_history, bind, get_files, fs_exists.
  assert (history_file pd ≠ []) as Hne by (unfold history_file; now destruct pd).
  destruct (history_file pd) as [|c cs] eqn:E; [congruence|]. rewrite <- E.
  destruct (fs_lookup (files w) (history_file pd)) as [[|[txt|v]]|] eqn:L.
  - discriminate.
  - intros [= <-]. rewrite bool_decide_eq_true_2 by eauto. reflexivity.
  - rewrite bool_decide_eq_true_2 by eauto.
    destruct v; try discriminate. now intros [= <-].
  - intros [= <-]. rewrite bool_decide_eq_false_2; [reflexivity|].
    intros [? ?]. discriminate.
Qed.

Lemma fs_is_dir_store_other (t : fs) p q n :
  p ≠ q → fs_is_dir (fs_store t p n) q = fs_is_dir t q.
Proof.
  intros Hne. unfold fs_is_dir. destruct q; [reflexivity|].
  now rewrite fs_lookup_store_ne.
Qed.

(** The rewrite in full: on a ledger, in an existing project directory,
    [write_history] succeeds and leaves the new sequence in the file. *)
Lemma write_history_ledger pd items w l :
  fs_is_dir (files w) pd = true →
  ledger (files w) pd = Some l →
  write_history pd items w
  = (Ok tt, set_files w (fs_store (files w) (history_file pd) (File (Json items)))).
Proof.
  intros Hdir Hl.
  unfold write_history, write_text, write_text_steps, run_steps.
  unfold open_truncate, write_flush, bind, get_files, put_files, ret. simpl.
  rewrite (ledger_not_dir _ _ _ Hl), history_file_parent, Hdir. simpl.
  now rewrite fs_store_store.
Qed.

Lemma append_history_ledger pd e w l :
  fs_is_dir (files w) pd = true →
  ledger (files w) pd = Some l →
  append_history pd e w
  = (Ok tt, set_files w (fs_store (files w) (history_file pd)
                           (File (Json (PyList (l ++ [e])))))).
Proof.
  intros Hdir Hl. unfold append_history.
  rewrite (bind_ok _ _ _ _ _ (read_history_ledger _ _ _ Hl)).
  unfold bind at 1. unfold lift, py_append.
  now apply write_history_ledger with l.
Qed.

(** C8. On a project ledger, appending N entries and then reading yields
    the sequence that was stored before followed by the N entries in
    insertion order, hence exactly the N entries on a fresh ledger; each
    append leaves in the file the previously stored sequence plus the new
    entry, and changes nothing else. *)
Theorem history_append_read_round_trip
    (pd : path) (entries : list pyval) (w : world) (stored : list pyval) :
  fs_is_dir (files w) pd = true →
  ledger (files w) pd = Some stored →
  (∃ w', append_all pd entries w = (Ok tt, w')
         ∧ read_history pd w' = (Ok (PyList (stored ++ entries)), w'))
  ∧ (∀ e, append_history pd e w
          = (Ok tt, set_files w (fs_store (files w) (history_file pd)
                                   (File (Json (PyList (stored ++ [e]))))))).
Proof.
  intros Hdir Hl. split; [|intros e; now apply append_history_ledger].
  revert w stored Hdir Hl.
  induction entries as [|e rest IH]; intros w stored Hdir Hl; simpl.
  - exists w. split; [reflexivity|].
    rewrite app_nil_r. now apply read_history_ledger.
  - rewrite (bind_ok _ _ _ _ _ (append_history_ledger _ e _ _ Hdir Hl)).
    destruct (IH (set_files w (fs_store (files w) (history_file pd)
                                 (File (Json (PyList (stored ++ [e]))))))
                 (stored ++ [e])) as (w' & Happ & Hread).
    + simpl. rewrite fs_is_dir_store_other; [exact Hdir | apply history_file_ne].
    + unfold ledger. simpl. now rewrite fs_lookup_store_eq.
    + exists w'. split; [exact Happ|].
      now rewrite <- app_assoc in Hread.
Qed.

(** What [write_history] does, step by step: it opens the history file
    itself for writing, which empties it, and then writes the new
    sequence into it. *)
Lemma world_after_first pd items w l :
  fs_is_dir (files w) pd = true →
  ledger (files w) pd = Some l →
  world_after 1 (write_history_steps pd items) w
  = set_files w (fs_store (files w) (history_file pd) (File (Bytes ""))).
Proof.
  intros Hdir Hl. unfold world_after, write_history_steps, write_text_steps.
  simpl. unfold open_truncate, bind, get_files, put_files, ret. simpl.
  now rewrite (ledger_not_dir _ _ _ Hl), history_file_parent, Hdir.
Qed.

(** C9, as the code has it. Every rewrite of a project's history file is
    done in place: [write_history] first cuts the history file itself to
    length zero and then writes the new sequence into that same file; no
    other path is touched at any point. Between the two steps the file is
    empty, and a reader gets the empty sequence from [read_history]. *)
Theorem history_rewritten_in_place
    (pd : path) (items : pyval) (w : world) (stored : list pyval) :
  fs_is_dir (files w) pd = true →
  ledger (files w) pd = Some stored →
  write_history_steps pd items
  = [open_truncate (history_file pd); write_flush (history_file pd) (Json items)]
  ∧ (let mid := world_after 1 (write_history_steps pd items) w in
     fs_lookup (files mid) (history_file pd) = Some (File (Bytes ""))
     ∧ read_history pd mid = (Ok (PyList []), mid))
  ∧ write_history pd items w
    = (Ok tt, set_files w (fs_store (files w) (history_file pd) (File (Json items))))
  ∧ ∀ k q, q ≠ history_file pd →
      fs_lookup (files (world_after k (write_history_steps pd items) w)) q
      = fs_lookup (files w) q.
Proof.
  intros Hdir Hl. split; [reflexivity|]. split; [|split].
  - simpl. rewrite (world_after_first _ _ _ _ Hdir Hl). simpl.
    split; [apply fs_lookup_store_eq|].
    apply read_history_ledger. unfold ledger. simpl.
    now rewrite fs_lookup_store_eq.
  - now apply write_history_ledger with stored.
  - intros k q Hq.
    destruct k as [|[|k]].
    + reflexivity.
    + rewrite (world_after_first _ _ _ _ Hdir Hl). simpl.
      now apply fs_lookup_store_ne.
    + pose proof (write_history_ledger pd items w stored Hdir Hl) as E.
      unfold write_history, write_text, write_text_steps in E.
      unfold world_after, write_history_steps, write_text_steps.
      cbn [take]. rewrite take_nil, E. simpl.
      now apply fs_lookup_store_ne.
Qed.

(** *** The command builder (section 4.2) *)

Lemma load_config_pure w : ∃ cfg, load_config w = (Ok cfg, w).
Proof.
  unfold load_config, bind, get_files, ret.
  destruct (fs_exists (files w) CONFIG_PATH); [|eauto].
  destruct (fs_lookup (files w) CONFIG_PATH) as [[|[?|?]]|]; eauto.
Qed.

(** [sys_executable] always names an interpreter and changes nothing. *)
Lemma sys_executable_pure w : ∃ exe, sys_executable w = (Ok exe, w).
Proof.
  unfold sys_executable.
  destruct (load_config_pure w) as [cfg E]. rewrite (bind_ok _ _ _ _ _ E).
  destruct (configured_python cfg); [unfold ret; eauto|].
  unfold bind, get_files, ret.
  destruct (List.find _ venv_candidates); eauto.
Qed.

(** Reading the dictionary that [make_args_map] builds. *)
Ltac args_lookup :=
  repeat first
    [ rewrite lookup_insert_eq
    | rewrite lookup_insert_ne by discriminate
    | rewrite lookup_empty ].

(** The command built from the dictionary of a request that has an audio
    reference or else a prompt that is not empty. *)
Lemma build_infer_cmd_on_args
    (project mode : pyval) (ps : params) (ref_prompt : pyval)
    (ref_audio_path lrc_path : option path) (scratch : path) (w : world) :
  (ref_audio_path = None → py_bool ref_prompt = true) →
  ∃ exe,
    sys_executable w = (Ok exe, w)
    ∧ build_infer_cmd
        (make_args_map project mode ps ref_prompt ref_audio_path lrc_path)
        scratch w
      = (Ok ([PyStr exe; PyStr (Path.to_string INFER_SCRIPT)]
             ++ spec_argument_vector scratch ps ref_prompt ref_audio_path lrc_path),
         w).
Proof.
  intros Hvalid.
  destruct (sys_executable_pure w) as [exe Hexe].
  exists exe. split; [exact Hexe|].
  unfold build_infer_cmd. rewrite (bind_ok _ _ _ _ _ Hexe).
  unfold spec_argument_vector, make_args_map, dict_get_or, dict_get.
  destruct ref_audio_path as [ra|], lrc_path as [lp|];
    args_lookup;
    cbv [default from_option id py_int py_float bind lift ret];
    try rewrite (Hvalid eq_refl);
    destruct (use_chunked ps); reflexivity.
Qed.

Lemma strip_nonempty s : Str.nonempty (Str.strip s) = true → Str.nonempty s = true.
Proof. destruct s; [discriminate | reflexivity]. Qed.

(** What the validation of the reference input lets through: an audio
    reference, or a prompt that is not empty. *)
Lemma form_reference_valid req pd ref_mode w ref_prompt ref_audio_path existing w' :
  form_reference req pd ref_mode w
  = (Ok (Next (ref_prompt, ref_audio_path, existing)), w') →
  ref_audio_path = None → py_bool (PyStr ref_prompt) = true.
Proof.
  unfold form_reference.
  destruct (bool_decide (ref_mode = "prompt")).
  - destruct (Str.nonempty (Str.strip _)) eqn:E; simpl; [|discriminate].
    unfold ret. intros [= <- <- <- <-] _. exact E.
  - unfold bind at 1. unfold get_files at 1. unfold bind.
    match goal with
    | |- context [match ?m w with _ => _ end] => destruct (m w) as [[[p|]|?] ?]
    end; unfold ret; try discriminate.
    intros [= <- <- <- <-]. discriminate.
Qed.

Lemma json_reference_valid data pd ref_mode ref_prompt w ref_audio_path w' :
  json_reference data pd ref_mode ref_prompt w = (Ok (Next ref_audio_path), w') →
  ref_audio_path = None → py_bool ref_prompt = true.
Proof.
  unfold json_reference.
  destruct (py_eq_str ref_mode "audio").
  - unfold bind.
    repeat match goal with
    | |- context [match ?m ?w0 with _ => _ end] =>
        lazymatch m with
        | bind _ _ => fail
        | _ => destruct (m w0) as [[?|?] ?]; try discriminate
        end
    end.
    all: try match goal with
         | s : step (option path) |- _ => destruct s as [?|[?|]]
         end; unfold ret; try discriminate.
    all: intros [= <- <-]; discriminate.
  - unfold bind, lift.
    destruct (py_strip ref_prompt) as [stripped|?] eqn:Es; [|discriminate].
    destruct (Str.nonempty stripped) eqn:En; simpl; unfold ret; [|discriminate].
    intros _ _. destruct ref_prompt; try discriminate.
    simpl in Es. injection Es as <-. now apply strip_nonempty.
Qed.

(** Every job that [api_generate] hands to the run carries the
    dictionary of a validated request. *)
Lemma form_job_validated req w j w' :
  form_job req w = (Ok (Next j), w') →
  ∃ project mode ps ref_prompt ref_audio_path lrc_path,
    job_args j = make_args_map project mode ps ref_prompt ref_audio_path lrc_path
    ∧ (ref_audio_path = None → py_bool ref_prompt = true).
Proof.
  unfold form_job, bind.
  destruct (load_config w) as [[cfg|?] w1]; [|discriminate].
  destruct (lift _ w1) as [[active|?] w2]; [|discriminate].
  destruct (project_path _ cfg w2) as [[pd|?] w3]; [|discriminate].
  destruct (form_reference _ _ _ w3) as [[[r|[[rp ra] ex]]|?] w4] eqn:Href;
    [discriminate| |discriminate].
  destruct (form_lrc _ _ w4) as [[lrc|?] w5]; [|discriminate].
  destruct (form_params _ _ _ w5) as [[ps|?] w6]; [|discriminate].
  unfold ret. intros [= <- <-]. simpl.
  eexists _, _, _, _, _, _. split; [reflexivity|].
  eapply form_reference_valid. exact Href.
Qed.

(** So does every job that [api_generate_json] hands to the run. *)
Lemma json_job_validated req w j w' :
  json_job req w = (Ok (Next j), w') →
  ∃ project mode ps ref_prompt ref_audio_path lrc_path,
    job_args j = make_args_map project mode ps ref_prompt ref_audio_path lrc_path
    ∧ (ref_audio_path = None → py_bool ref_prompt = true).
Proof.
  unfold json_job, bind.
  destruct (load_config w) as [[cfg|?] w1]; [|discriminate].
  destruct (get_json req w1) as [[data|?] w1']; [|discriminate].
  destruct (lift (py_get_with _ _ _) w1') as [[project|?] w2]; [|discriminate].
  destruct (lift (py_get _ "mode" _) w2) as [[mode|?] w3]; [|discriminate].
  destruct (project_path _ cfg w3) as [[pd|?] w4]; [|discriminate].
  destruct (json_params _ cfg w4) as [[ps|?] w5]; [|discriminate].
  destruct (lift (py_get _ "ref_prompt" _) w5) as [[rp|?] w6]; [|discriminate].
  destruct (json_ref_mode _ w6) as [[ref_mode|?] w7]; [|discriminate].
  destruct (json_reference _ _ _ _ w7) as [[[r|ra]|?] w8] eqn:Href;
    [discriminate| |discriminate].
  destruct (json_lrc _ w8) as [[[r|lrc]|?] w9]; [discriminate| |discriminate].
  destruct (lift _ w9) as [[existing|?] w10]; [|discriminate].
  unfold ret. intros [= <- <-]. simpl.
  eexists _, _, _, _, _, _. split; [reflexivity|].
  eapply json_reference_valid. exact Href.
Qed.

(** C3. For every validated job request, that is every job that
    [api_generate] or [api_generate_json] hands to the run, and for every
    scratch directory, [build_infer_cmd] yields the interpreter and the
    script followed by exactly the argument vector of the specification,
    in its order: [--output-dir], [--audio-length], [--repo-id], the audio
    reference or else the prompt, the lyrics file when there is one,
    [--chunked] exactly when the boolean is true, [--batch-infer-num],
    [--steps], and [--cfg-strength] printed by the float printer. *)
Theorem build_infer_cmd_argument_vector
    (form_req : form_request) (json_req : option pyval) (w0 : world)
    (j : job) (w1 : world) :
  form_job form_req w0 = (Ok (Next j), w1)
  ∨ json_job json_req w0 = (Ok (Next j), w1) →
  ∃ project mode ps ref_prompt ref_audio_path lrc_path,
    job_args j = make_args_map project mode ps ref_prompt ref_audio_path lrc_path
    ∧ (ref_audio_path = None → py_bool ref_prompt = true)
    ∧ ∀ (scratch : path) (w : world),
        ∃ exe,
          sys_executable w = (Ok exe, w)
          ∧ build_infer_cmd (job_args j) scratch w
            = (Ok ([PyStr exe; PyStr (Path.to_string INFER_SCRIPT)]
                   ++ spec_argument_vector scratch ps ref_prompt
                        ref_audio_path lrc_path),
               w).
Proof.
  intros Hjob.
  assert (∃ project mode ps ref_prompt ref_audio_path lrc_path,
             job_args j
             = make_args_map project mode ps ref_prompt ref_audio_path lrc_path
             ∧ (ref_audio_path = None → py_bool ref_prompt = true))
    as (project & mode & ps & rp & ra & lrc & Hargs & Hvalid).
  { destruct Hjob as [Hjob|Hjob].
    - eapply form_job_validated. exact Hjob.
    - eapply json_job_validated. exact Hjob. }
  exists project, mode, ps, rp, ra, lrc.
  split; [exact Hargs|]. split; [exact Hvalid|].
  intros scratch w. rewrite Hargs.
  now apply build_infer_cmd_on_args.
Qed.

(** *** Requests without reference input (section 7, validation) *)

Lemma form_reference_unreferenced req pd ref_mode w :
  form_unreferenced req → rejects (fst (form_reference req pd ref_mode w)).
Proof.
  intros (Hp & He & Hu). unfold form_reference.
  destruct (bool_decide (ref_mode = "prompt")).
  - rewrite Hp. simpl. eauto.
  - rewrite He. unfold bind, get_files. simpl.
    destruct (uploads req !! "ref_audio") as [file|]; [|simpl; eauto].
    rewrite Hu. simpl. eauto.
Qed.

Lemma form_job_unreferenced req w :
  form_unreferenced req → rejects (fst (form_job req w)).
Proof.
  intros Hun. unfold form_job, bind.
  destruct (load_config w) as [[cfg|?] w1]; [|exact I].
  destruct (lift _ w1) as [[active|?] w2]; [|exact I].
  destruct (project_path _ cfg w2) as [[pd|?] w3]; [|exact I].
  pose proof (form_reference_unreferenced req pd
                (default "prompt" (form req !! "ref_mode")) w3 Hun) as R.
  destruct (form_reference _ _ _ w3) as [[[r|a]|?] w4]; simpl in *;
    [exact R | contradiction | exact I].
Qed.

Lemma json_reference_unreferenced d pd ref_mode w :
  json_unreferenced d →
  rejects (fst (json_reference (PyDict d) pd ref_mode
                  (default (PyStr "") (assoc_get d "ref_prompt")) w)).
Proof.
  intros (Hp & Hb & Hu & He). unfold json_reference.
  destruct (py_eq_str ref_mode "audio").
  - unfold bind, lift, py_get. rewrite He, Hb, Hu. simpl. eauto.
  - destruct (default (PyStr "") (assoc_get d "ref_prompt")) as [| | | |s| | |];
      try contradiction; [exact I|].
    unfold bind, lift, py_strip. rewrite Hp. simpl. eauto.
Qed.

Lemma json_job_unreferenced d w :
  json_unreferenced d → rejects (fst (json_job (Some (PyDict d)) w)).
Proof.
  intros Hun. unfold json_job, bind.
  destruct (load_config w) as [[cfg|?] w1]; [|exact I].
  unfold get_json, ret.
  destruct (lift (py_get_with _ _ _) w1) as [[project|?] w2]; [|exact I].
  destruct (lift (py_get _ "mode" _) w2) as [[mode|?] w3]; [|exact I].
  destruct (project_path _ cfg w3) as [[pd|?] w4]; [|exact I].
  destruct (json_params _ cfg w4) as [[ps|?] w5]; [|exact I].
  unfold lift at 1. unfold py_get at 1.
  destruct (json_ref_mode _ w5) as [[ref_mode|?] w6]; [|exact I].
  pose proof (json_reference_unreferenced d pd ref_mode w6 Hun) as R.
  destruct (json_reference _ _ _ _ w6) as [[[r|a]|?] w7]; simpl in *;
    [exact R | contradiction | exact I].
Qed.

(** A request without reference input never reaches the run: the handler
    answers with an error, with status 400 or, when a fault came first,
    500; what it leaves behind is what the validation left, so no process
    was spawned and [run_infer], which makes the scratch directory, was
    not entered. *)
Lemma unreferenced_request_never_runs
    (form_req : form_request) (d : list (string * pyval)) (w : world) :
  lock w = false →
  form_unreferenced form_req → json_unreferenced d →
  (∃ msg code,
      api_generate form_req w
      = (Ok (error_response msg code),
         set_lock (snd (form_job form_req (set_lock w true))) false)
      ∧ (code = 400%Z ∨ code = 500%Z)
      ∧ spawned (snd (form_job form_req (set_lock w true))) = spawned w)
  ∧ (∃ msg code,
      api_generate_json (Some (PyDict d)) w
      = (Ok (error_response msg code),
         set_lock (snd (json_job (Some (PyDict d)) (set_lock w true))) false)
      ∧ (code = 400%Z ∨ code = 500%Z)
      ∧ spawned (snd (json_job (Some (PyDict d)) (set_lock w true))) = spawned w).
Proof.
  intros Hfree Hf Hj. split.
  - pose proof (form_job_unreferenced form_req (set_lock w true) Hf) as R.
    pose proof (quiet_form_job form_req (set_lock w true)) as [Kl Ks].
    unfold api_generate, acquire_nonblocking, bind. rewrite Hfree. simpl.
    unfold try_finally, try_except, api_generate_body, bind_step, bind.
    destruct (form_job form_req (set_lock w true)) as [[[r|a]|e] w1];
      simpl in *; [| contradiction |].
    + destruct R as [msg ->]. unfold ret, release. rewrite Kl.
      eexists _, _. split; [reflexivity|]. auto.
    + unfold except_clauses, release.
      destruct (is_value_error e); unfold ret; rewrite Kl;
        eexists _, _; (split; [reflexivity|]); auto.
  - pose proof (json_job_unreferenced d (set_lock w true) Hj) as R.
    pose proof (quiet_json_job (Some (PyDict d)) (set_lock w true)) as [Kl Ks].
    unfold api_generate_json, acquire_nonblocking, bind. rewrite Hfree. simpl.
    unfold try_finally, try_except, api_generate_json_body, bind_step, bind.
    destruct (json_job (Some (PyDict d)) (set_lock w true)) as [[[r|a]|e] w1];
      simpl in *; [| contradiction |].
    + destruct R as [msg ->]. unfold ret, release. rewrite Kl.
      eexists _, _. split; [reflexivity|]. auto.
    + unfold except_clauses, release.
      destruct (is_value_error e); unfold ret; rewrite Kl;
        eexists _, _; (split; [reflexivity|]); auto.
Qed.

End Proofs.

(** ** Part III: the helpers and the other routes *)

Section MoreProofs.
Context `{rt : PyRuntime} {host : Host} {oracle : Oracle}.

(** *** The monad, read backwards *)

Lemma bind_inv {A B} (m : M A) (k : A → M B) w b w' :
  bind m k w = (Ok b, w') → ∃ a w1, m w = (Ok a, w1) ∧ k a w1 = (Ok b, w').
Proof.
  unfold bind. destruct (m w) as [[a|e] w1]; [eauto|discriminate].
Qed.

Lemma lift_inv {A} (r : res A) w a w' :
  lift r w = (Ok a, w') → r = Ok a ∧ w' = w.
Proof. unfold lift. now intros [= -> ->]. Qed.

Lemma ret_inv {A} (x : A) w a w' : ret x w = (Ok a, w') → a = x ∧ w' = w.
Proof. unfold ret. now intros [= -> ->]. Qed.

(** *** Strings *)

Lemma all_chars_app f (a b : string) :
  all_chars f (a +:+ b) = all_chars f a && all_chars f b.
Proof.
  induction a as [|c a IH]; [reflexivity|].
  change (String c a +:+ b) with (String c (a +:+ b)).
  cbn [all_chars]. now rewrite IH, andb_assoc.
Qed.

Lemma all_chars_concat f (l : list string) :
  Forall (λ ch, all_chars f ch = true) l → all_chars f (Str.concat l) = true.
Proof.
  induction 1 as [|ch l Hch _ IH]; [reflexivity|].
  cbn [Str.concat]. now rewrite all_chars_app, Hch, IH.
Qed.

(** A character is one ASCII byte or is made of bytes outside ASCII. *)
Lemma chars_shape s :
  Forall (λ ch, (∃ c, ch = String c "" ∧ Str.is_ascii c = true)
                ∨ all_chars (λ c, negb (Str.is_ascii c)) ch = true)
         (Str.chars s).
Proof.
  induction s as [|c r IH]; [constructor|].
  cbn [Str.chars].
  assert ((∃ c0, String c "" = String c0 "" ∧ Str.is_ascii c0 = true)
          ∨ all_chars (λ c0, negb (Str.is_ascii c0)) (String c "") = true) as H1.
  { destruct (Str.is_ascii c) eqn:E; [left; eauto|right].
    cbn [all_chars]. now rewrite E. }
  destruct (Str.chars r) as [|ch rest]; [now constructor|].
  inversion IH as [|? ? Hch Hrest]; subst.
  destruct (negb (Str.is_ascii c) && Str.starts_cont ch) eqn:E.
  - apply andb_true_iff in E as [Ec Es]. constructor; [|exact Hrest].
    right. cbn [all_chars]. rewrite Ec. simpl.
    destruct Hch as [(c0 & -> & Hc0)|Hch]; [|exact Hch].
    exfalso. unfold Str.starts_cont, Str.is_cont in Es.
    unfold Str.is_ascii in Hc0.
    apply andb_true_iff in Es as [Es _].
    apply Nat.leb_le in Es. apply Nat.ltb_lt in Hc0. lia.
  - constructor; [exact H1|]. now constructor.
Qed.

Lemma kept_char_bytes ch :
  (∃ c, ch = String c "" ∧ Str.is_ascii c = true)
  ∨ all_chars (λ c, negb (Str.is_ascii c)) ch = true →
  kept_char ch = true → all_chars name_byte ch = true.
Proof.
  intros [(c & -> & Hc)|Hch] Hk.
  - unfold kept_char in Hk. rewrite Hc in Hk.
    cbn [all_chars]. unfold name_byte. now rewrite Hk.
  - clear Hk. induction ch as [|c r IH]; [reflexivity|].
    cbn [all_chars] in *. apply andb_true_iff in Hch as [Hc Hr].
    unfold name_byte at 1. now rewrite Hc, orb_true_r, IH.
Qed.

(** What [secure_name] keeps of a name is made of the bytes of a name. *)
Lemma all_chars_filter s : all_chars name_byte (Str.filter kept_char s) = true.
Proof.
  unfold Str.filter. apply all_chars_concat.
  pose proof (chars_shape s) as H.
  induction H as [|ch l Hch _ IH]; [constructor|].
  cbn [List.filter]. destruct (kept_char ch) eqn:E; [|exact IH].
  constructor; [|exact IH]. now apply kept_char_bytes.
Qed.

Lemma all_chars_strip_with f g s :
  all_chars f s = true → all_chars f (Str.strip_with g s) = true.
Proof.
  intros Hs. destruct (strip_with_piece g s) as (pre & post & E).
  rewrite E, !all_chars_app in Hs.
  apply andb_true_iff in Hs as [_ Hs]. now apply andb_true_iff in Hs as [Hs _].
Qed.

Lemma drop_while_first f s c : first_char (Str.drop_while f s) = Some c → f c = false.
Proof.
  induction s as [|x s IH]; [discriminate|].
  cbn [Str.drop_while]. destruct (f x) eqn:E; [exact IH|].
  now intros [= <-].
Qed.

Lemma first_char_app (a b : string) c :
  first_char a = Some c → first_char (a +:+ b) = Some c.
Proof. now destruct a. Qed.

(** What [strip] leaves neither begins nor ends with a stripped
    character. *)
Lemma strip_with_last f s c :
  last_char (Str.strip_with f s) = Some c → f c = false.
Proof.
  unfold last_char, Str.strip_with, Str.rstrip.
  rewrite rev_involutive_string. apply drop_while_first.
Qed.

Lemma strip_with_first f s c :
  first_char (Str.strip_with f s) = Some c → f c = false.
Proof.
  unfold Str.strip_with, Str.lstrip. intros Hc.
  set (t := Str.drop_while f s) in *.
  apply (drop_while_first f s). fold t.
  unfold Str.rstrip in Hc.
  destruct (drop_while_suffix f (String.rev t)) as [pre E].
  apply (f_equal String.rev) in E.
  rewrite rev_involutive_string, rev_app_distr_string in E.
  rewrite E. now apply first_char_app.
Qed.









(** *** Calls that only make directories *)

Lemma grown_refl (t : fs) : grown t t.
Proof. intros q. now left. Qed.

Lemma grown_trans (t1 t2 t3 : fs) : grown t1 t2 → grown t2 t3 → grown t1 t3.
Proof.
  intros H12 H23 q. destruct (H23 q) as [E|[E1 E2]], (H12 q) as [F|[F1 F2]].
  - left. congruence.
  - right. split; congruence.
  - right. split; congruence.
  - congruence.
Qed.

Lemma grown_store (t : fs) p :
  fs_lookup t p = None → grown t (fs_store t p Dir).
Proof.
  intros Hp q. destruct (decide (p = q)) as [<-|Hne].
  - right. split; [exact Hp|apply fs_lookup_store_eq].
  - left. now apply fs_lookup_store_ne.
Qed.

Lemma grown_is_dir (t t' : fs) p :
  grown t t' → fs_is_dir t p = true → fs_is_dir t' p = true.
Proof.
  intros G. unfold fs_is_dir. destruct p; [reflexivity|].
  destruct (G (s :: p)) as [->|[-> ->]]; [auto|discriminate].
Qed.

Lemma grown_exists (t t' : fs) p :
  grown t t' → fs_exists t p = true → fs_exists t' p = true.
Proof.
  intros G. unfold fs_exists. destruct p; [reflexivity|].
  destruct (G (s :: p)) as [->|[-> ->]]; [auto|].
  intros E. apply bool_decide_eq_true in E as [? [=]].
Qed.

(** What a directory scan finds is the same for files. *)
Lemma grown_file (t t' : fs) p c :
  grown t t' → (fs_lookup t' p = Some (File c) ↔ fs_lookup t p = Some (File c)).
Proof.
  intros G. destruct (G p) as [->|[-> ->]]; [reflexivity|]. split; discriminate.
Qed.

Lemma mkdir_chain_grown (t : fs) pre rest t' :
  mkdir_chain t pre rest = Ok t' → grown t t'.
Proof.
  revert t pre. induction rest as [|c r IH]; intros t pre; cbn [mkdir_chain].
  - intros [= <-]. apply grown_refl.
  - destruct (fs_lookup t (pre ++ [c])) as [[|?]|] eqn:E; [|discriminate|].
    + apply IH.
    + intros H. apply IH in H. eapply grown_trans; [|exact H].
      now apply grown_store.
Qed.

(** After the chain, every directory on the way is there. *)
Lemma mkdir_chain_dirs (t : fs) pre rest t' :
  mkdir_chain t pre rest = Ok t' →
  ∀ a b, rest = a ++ b → a ≠ [] → fs_lookup t' (pre ++ a) = Some Dir.
Proof.
  revert t pre. induction rest as [|c r IH]; intros t pre H a b Hab Ha.
  - now destruct a.
  - destruct a as [|x a]; [done|]. injection Hab as <- ->.
    cbn [mkdir_chain] in H.
    assert (∃ t1, fs_lookup t1 (pre ++ [c]) = Some Dir
                  ∧ mkdir_chain t1 (pre ++ [c]) (a ++ b) = Ok t') as (t1 & Hd & H1).
    { destruct (fs_lookup t (pre ++ [c])) as [[|?]|] eqn:E; [|discriminate|].
      - now exists t.
      - exists (fs_store t (pre ++ [c]) Dir). now rewrite fs_lookup_store_eq. }
    destruct a as [|y a].
    + apply mkdir_chain_grown in H1.
      destruct (H1 (pre ++ [c])) as [->|[F _]]; [exact Hd|congruence].
    + rewrite (cons_middle c pre), app_assoc.
      now apply (IH _ _ H1 (y :: a) b).
Qed.

Lemma mkdir_chain_again (t : fs) pre rest :
  (∀ a b, rest = a ++ b → a ≠ [] → fs_lookup t (pre ++ a) = Some Dir) →
  mkdir_chain t pre rest = Ok t.
Proof.
  revert pre. induction rest as [|c r IH]; intros pre H; [reflexivity|].
  cbn [mkdir_chain]. rewrite (H [c] r) by done.
  apply IH. intros a b -> Ha.
  rewrite <- app_assoc. apply (H (c :: a) b); done.
Qed.

Lemma mkdir_parents_inv p w w' :
  mkdir_parents p w = (Ok tt, w') →
  ∃ t', mkdir_chain (files w) [] p = Ok t' ∧ w' = set_files w t'.
Proof.
  unfold mkdir_parents, bind, get_files.
  destruct (mkdir_chain (files w) [] p) as [t'|e]; [|discriminate].
  unfold put_files. intros [= <-]. eauto.
Qed.

Lemma mkdir_parents_grown p w w' :
  mkdir_parents p w = (Ok tt, w') →
  grown (files w) (files w') ∧ fs_is_dir (files w') p = true.
Proof.
  intros H. apply mkdir_parents_inv in H as (t' & H & ->). simpl. split.
  - now apply mkdir_chain_grown in H.
  - unfold fs_is_dir. destruct p as [|x p]; [reflexivity|].
    pose proof (mkdir_chain_dirs _ _ _ _ H (x :: p) []) as Hd. simpl in Hd.
    rewrite Hd; [reflexivity| |done]. now rewrite app_nil_r.
Qed.

Lemma mkdir_parents_again p w w' :
  mkdir_parents p w = (Ok tt, w') → mkdir_parents p w' = (Ok tt, w').
Proof.
  intros H. apply mkdir_parents_inv in H as (t' & H & ->).
  unfold mkdir_parents, bind, get_files. simpl.
  rewrite mkdir_chain_again by (now apply (mkdir_chain_dirs _ _ _ _ H)).
  reflexivity.
Qed.

Lemma mkdir_exist_ok_grown p w w' :
  mkdir_exist_ok p w = (Ok tt, w') → grown (files w) (files w').
Proof.
  unfold mkdir_exist_ok, bind, get_files, ret, raise, put_files.
  destruct (fs_is_dir (files w) p) eqn:E1; [intros [= <-]; apply grown_refl|].
  destruct (fs_exists (files w) p) eqn:E2; [discriminate|].
  destruct (fs_is_dir (files w) (Path.parent p)); [|discriminate].
  intros [= <-]. simpl. apply grown_store.
  unfold fs_exists in E2. destruct p; [discriminate|].
  apply bool_decide_eq_false in E2.
  destruct (fs_lookup _ _); [|reflexivity]. exfalso. eauto.
Qed.

Lemma mkdir_exist_ok_there p w :
  fs_is_dir (files w) p = true → mkdir_exist_ok p w = (Ok tt, w).
Proof. intros E. unfold mkdir_exist_ok, bind, get_files. now rewrite E. Qed.

(** [load_config] reads the same configuration when only directories
    have been added. *)
Lemma load_config_result w : load_config w = (fst (load_config w), w).
Proof.
  unfold load_config, bind, get_files, ret.
  destruct (fs_exists _ _); [|reflexivity].
  now destruct (fs_lookup _ _) as [[|[|]]|].
Qed.

Lemma load_config_grown w w' :
  grown (files w) (files w') → fst (load_config w') = fst (load_config w).
Proof.
  intros G. unfold load_config, bind, get_files, ret.
  destruct (G CONFIG_PATH) as [E|[E1 E2]].
  - assert (fs_exists (files w') CONFIG_PATH = fs_exists (files w) CONFIG_PATH) as ->.
    { unfold fs_exists. destruct CONFIG_PATH; [reflexivity|]. now rewrite E. }
    rewrite E. destruct (fs_exists _ _); [|reflexivity].
    now destruct (fs_lookup (files w) CONFIG_PATH) as [[|[|]]|].
  - rewrite E1, E2.
    now destruct (fs_exists (files w') _), (fs_exists (files w) _).
Qed.

Lemma ensure_project_base_inv cfg w base w' :
  ensure_project_base cfg w = (Ok base, w') →
  base_of cfg w = Ok base
  ∧ ∃ w1, mkdir_parents base w = (Ok tt, w1)
          ∧ mkdir_exist_ok (base ++ ["Default"]) w1 = (Ok tt, w').
Proof.
  unfold ensure_project_base, base_of. intros H.
  apply bind_inv in H as (cfg' & w0 & E0 & H).
  assert (w0 = w ∧ (if py_bool cfg then Ok cfg else fst (load_config w)) = Ok cfg')
    as [-> ->].
  { destruct (py_bool cfg).
    - apply ret_inv in E0 as [-> ->]. auto.
    - rewrite load_config_result in E0. injection E0 as E0 <-. auto. }
  apply bind_inv in H as (b & w1 & E1 & H). apply lift_inv in E1 as [E1 ->].
  apply bind_inv in H as (b' & w1 & E2 & H). apply lift_inv in E2 as [E2 ->].
  apply bind_inv in H as ([] & w1 & E3 & H).
  apply bind_inv in H as ([] & w2 & E4 & H).
  apply ret_inv in H as [-> ->].
  rewrite E1, E2. split; [reflexivity|]. eauto.
Qed.

Lemma ensure_project_base_grown cfg w base w' :
  ensure_project_base cfg w = (Ok base, w') →
  grown (files w) (files w')
  ∧ fs_is_dir (files w') base = true
  ∧ fs_is_dir (files w') (base ++ ["Default"]) = true.
Proof.
  intros H. apply ensure_project_base_inv in H as (_ & w1 & E1 & E2).
  pose proof (mkdir_parents_grown _ _ _ E1) as [G1 D1].
  pose proof (mkdir_exist_ok_grown _ _ _ E2) as G2.
  split; [eapply grown_trans; eassumption|].
  split; [eapply grown_is_dir; eassumption|].
  now apply mkdir_exist_ok_dir in E2.
Qed.

Lemma base_of_grown cfg w w' :
  grown (files w) (files w') → base_of cfg w' = base_of cfg w.
Proof.
  intros G. unfold base_of. now rewrite (load_config_grown _ _ G).
Qed.

Lemma ensure_project_base_eq cfg w base w1 w2 :
  base_of cfg w = Ok base →
  mkdir_parents base w = (Ok tt, w1) →
  mkdir_exist_ok (base ++ ["Default"]) w1 = (Ok tt, w2) →
  ensure_project_base cfg w = (Ok base, w2).
Proof.
  unfold base_of, ensure_project_base. intros Hb E1 E2.
  assert (∃ cfg', (if py_bool cfg then ret cfg else load_config) w = (Ok cfg', w)
                  ∧ (if py_bool cfg then Ok cfg else fst (load_config w)) = Ok cfg')
    as (cfg' & Ec & Ec').
  { destruct (py_bool cfg); [now exists cfg|].
    rewrite load_config_result.
    destruct (fst (load_config w)) as [c|e]; [now exists c|discriminate]. }
  rewrite Ec' in Hb. rewrite (bind_ok _ _ _ _ _ Ec).
  destruct (py_get cfg' _ _) as [b|] eqn:Eb; [|discriminate].
  destruct (to_path b) as [b'|] eqn:Eb'; [|discriminate].
  injection Hb as <-.
  unfold bind at 1. unfold lift at 1.
  unfold bind at 1. unfold lift at 1. rewrite Eb'.
  rewrite (bind_ok _ _ _ _ _ E1), (bind_ok _ _ _ _ _ E2). reflexivity.
Qed.

(** Calling [ensure_project_base] a second time changes nothing. *)
Lemma ensure_project_base_again cfg w base w' :
  ensure_project_base cfg w = (Ok base, w') →
  ensure_project_base cfg w' = (Ok base, w').
Proof.
  intros H. pose proof (ensure_project_base_grown _ _ _ _ H) as (G & D1 & D2).
  apply ensure_project_base_inv in H as (Hb & w1 & E1 & E2).
  apply (ensure_project_base_eq _ _ _ w').
  - now rewrite (base_of_grown _ _ _ G).
  - pose proof (mkdir_parents_again _ _ _ E1) as E1'.
    apply mkdir_parents_inv in E1 as (t1 & C1 & ->).
    apply mkdir_parents_inv in E1' as (t1' & C1' & _). simpl in C1'.
    unfold mkdir_parents, bind, get_files.
    pose proof (mkdir_exist_ok_grown _ _ _ E2) as G2. simpl in G2.
    rewrite mkdir_chain_again; [destruct w'; reflexivity|].
    intros a b Hab Ha.
    pose proof (mkdir_chain_dirs _ _ _ _ C1 a b Hab Ha) as Hd.
    destruct (G2 ([] ++ a)) as [->|[F _]]; [exact Hd|congruence].
  - now apply mkdir_exist_ok_there.
Qed.



(** Every directory on the way to [p], and [p] itself, is there. *)
Lemma mkdir_parents_there p w :
  (∀ a b, p = a ++ b → a ≠ [] → fs_lookup (files w) a = Some Dir) →
  mkdir_parents p w = (Ok tt, w).
Proof.
  intros H. unfold mkdir_parents, bind, get_files.
  rewrite mkdir_chain_again by exact H. now destruct w.
Qed.

Lemma grown_dir (t t' : fs) q :
  grown t t' → fs_lookup t q = Some Dir → fs_lookup t' q = Some Dir.
Proof. intros G E. destruct (G q) as [->|[F _]]; congruence. Qed.

Lemma mkdir_parents_dirs p w w' :
  mkdir_parents p w = (Ok tt, w') →
  ∀ a b, p = a ++ b → a ≠ [] → fs_lookup (files w') a = Some Dir.
Proof.
  intros H a b Hab Ha. apply mkdir_parents_inv in H as (t' & H & ->).
  exact (mkdir_chain_dirs _ _ _ _ H a b Hab Ha).
Qed.

(** Once [ensure_project_base] has run, it runs again without effect,
    also after more directories have been made. *)
Lemma ensure_project_base_stable cfg w base w0 w' :
  ensure_project_base cfg w = (Ok base, w0) →
  grown (files w0) (files w') →
  ensure_project_base cfg w' = (Ok base, w').
Proof.
  intros H G'. pose proof (ensure_project_base_grown _ _ _ _ H) as (G & D1 & D2).
  apply ensure_project_base_inv in H as (Hb & w1 & E1 & E2).
  apply (ensure_project_base_eq _ _ _ w').
  - rewrite (base_of_grown _ w w'); [exact Hb|]. eapply grown_trans; eassumption.
  - apply mkdir_parents_there. intros a b Hab Ha.
    apply (grown_dir (files w1)).
    + eapply grown_trans; [|exact G']. now apply mkdir_exist_ok_grown in E2.
    + now apply (mkdir_parents_dirs _ _ _ E1 a b).
  - apply mkdir_exist_ok_there. eapply grown_is_dir; eassumption.
Qed.

Lemma project_path_inv project cfg w pd w' :
  project_path project cfg w = (Ok pd, w') →
  ∃ base w0 s,
    ensure_project_base cfg w = (Ok base, w0)
    ∧ py_strip (py_or project (PyStr "Default")) = Ok s
    ∧ pd = resolve (Path.join base (safe_name s))
    ∧ escapes base pd = false
    ∧ mkdir_exist_ok pd w0 = (Ok tt, w').
Proof.
  unfold project_path. intros H.
  apply bind_inv in H as (base & w0 & E0 & H).
  apply bind_inv in H as (s & w1 & E1 & H). apply lift_inv in E1 as [E1 ->].
  destruct (escapes base _) eqn:Eesc; [discriminate|].
  apply bind_inv in H as ([] & w2 & E2 & H). apply ret_inv in H as [-> ->].
  exists base, w0, s. auto.
Qed.

Lemma project_path_no_create_inv project cfg w pd w' :
  project_path_no_create project cfg w = (Ok pd, w') →
  ∃ base s,
    ensure_project_base cfg w = (Ok base, w')
    ∧ py_strip (py_or project (PyStr "Default")) = Ok s
    ∧ pd = resolve (Path.join base (safe_name s))
    ∧ escapes base pd = false.
Proof.
  unfold project_path_no_create. intros H.
  apply bind_inv in H as (base & w0 & E0 & H).
  apply bind_inv in H as (s & w1 & E1 & H). apply lift_inv in E1 as [E1 ->].
  destruct (escapes base _) eqn:Eesc; [discriminate|].
  apply ret_inv in H as [-> ->].
  exists base, s. auto.
Qed.

Lemma project_path_eq project cfg w base w0 s w' :
  ensure_project_base cfg w = (Ok base, w0) →
  py_strip (py_or project (PyStr "Default")) = Ok s →
  escapes base (resolve (Path.join base (safe_name s))) = false →
  mkdir_exist_ok (resolve (Path.join base (safe_name s))) w0 = (Ok tt, w') →
  project_path project cfg w = (Ok (resolve (Path.join base (safe_name s))), w').
Proof.
  intros E0 E1 E2 E3. unfold project_path.
  rewrite (bind_ok _ _ _ _ _ E0). unfold bind at 1, lift at 1. rewrite E1, E2.
  now rewrite (bind_ok _ _ _ _ _ E3).
Qed.

Lemma project_path_grown project cfg w pd w' :
  project_path project cfg w = (Ok pd, w') → grown (files w) (files w').
Proof.
  intros H. apply project_path_inv in H as (base & w0 & s & E0 & _ & _ & _ & E3).
  apply ensure_project_base_grown in E0 as (G & _).
  apply mkdir_exist_ok_grown in E3. eapply grown_trans; eassumption.
Qed.

(** X2. When [project_path] (lines 198-207) returns, the path it returns
    is a directory, every path of the disk holds what it held or is a new
    directory, the job gate and the process table are untouched, and the
    same call made again returns the same path and changes nothing. *)
Theorem project_path_only_makes_directories project cfg w pd w' :
  project_path project cfg w = (Ok pd, w') →
  fs_is_dir (files w') pd = true
  ∧ grown (files w) (files w')
  ∧ lock w' = lock w ∧ spawned w' = spawned w
  ∧ project_path project cfg w' = (Ok pd, w').
Proof.
  intros H. pose proof (project_path_grown _ _ _ _ _ H) as G.
  pose proof (project_path_dir _ _ _ _ _ H) as D.
  pose proof (quiet_project_path project cfg w) as [Kl Ks]. rewrite H in Kl, Ks.
  repeat split; try assumption.
  apply project_path_inv in H as (base & w0 & s & E0 & E1 & -> & E2 & E3).
  apply (project_path_eq _ _ _ base w').
  - eapply ensure_project_base_stable; [exact E0|].
    now apply mkdir_exist_ok_grown in E3.
  - exact E1.
  - exact E2.
  - now apply mkdir_exist_ok_there.
Qed.

Lemma join_default (base : path) : Path.join base "Default" = base ++ ["Default"].
Proof. reflexivity. Qed.

Lemma ensure_default_project_same cfg w base w0 :
  ensure_project_base cfg w = (Ok base, w0) →
  mkdir_parents (base ++ ["Default"]) w0 = (Ok tt, w0).
Proof.
  intros E0. pose proof (ensure_project_base_grown _ _ _ _ E0) as (_ & _ & D).
  apply ensure_project_base_inv in E0 as (_ & w1 & E1 & E2).
  apply mkdir_parents_there. intros a b Hab Ha.
  destruct (decide (b = [])) as [->|Hb].
  - rewrite app_nil_r in Hab. subst a.
    unfold fs_is_dir in D. destruct (base ++ ["Default"]); [done|].
    now destruct (fs_lookup _ _) as [[|]|].
  - destruct (exists_last Hb) as (b' & x & ->).
    rewrite app_assoc in Hab. apply app_inj_tail in Hab as [Hab _].
    apply (grown_dir (files w1)); [now apply mkdir_exist_ok_grown in E2|].
    now apply (mkdir_parents_dirs _ _ _ E1 a b').
Qed.

Lemma ensure_default_project_eq cfg w base w0 :
  ensure_project_base cfg w = (Ok base, w0) →
  ensure_default_project cfg w = (Ok (base ++ ["Default"]), w0).
Proof.
  intros E0. unfold ensure_default_project, DEFAULT_PROJECT_NAME.
  rewrite (bind_ok _ _ _ _ _ E0), join_default.
  now rewrite (bind_ok _ _ _ _ _ (ensure_default_project_same _ _ _ _ E0)).
Qed.

Lemma ensure_default_project_inv cfg w d w' :
  ensure_default_project cfg w = (Ok d, w') →
  ∃ base, ensure_project_base cfg w = (Ok base, w') ∧ d = base ++ ["Default"].
Proof.
  unfold ensure_default_project, DEFAULT_PROJECT_NAME. intros H.
  apply bind_inv in H as (base & w0 & E0 & H).
  rewrite join_default in H.
  rewrite (bind_ok _ _ _ _ _ (ensure_default_project_same _ _ _ _ E0)) in H.
  apply ret_inv in H as [-> ->]. eauto.
Qed.

(** X3. [ensure_default_project] (lines 170-174) succeeds exactly when
    [ensure_project_base] (lines 190-196) does, leaves the same state,
    and returns the directory [Default] of the base, which then exists:
    its own [mkdir] never has anything left to do. *)
Theorem ensure_default_project_is_ensure_project_base cfg w d w' :
  ensure_default_project cfg w = (Ok d, w')
  ↔ ∃ base, ensure_project_base cfg w = (Ok base, w') ∧ d = base ++ ["Default"]
            ∧ fs_is_dir (files w') d = true.
Proof.
  split.
  - intros H. apply ensure_default_project_inv in H as (base & E0 & ->).
    exists base. repeat split; [exact E0|].
    now apply ensure_project_base_grown in E0.
  - intros (base & E0 & -> & _). now apply ensure_default_project_eq.
Qed.



(** *** Uploads *)

Lemma mkdir_chain_raise (t : fs) pre rest e :
  mkdir_chain t pre rest = Raise e → exn_kind_of e = OSError.
Proof.
  revert t pre. induction rest as [|c r IH]; intros t pre; cbn [mkdir_chain];
    [discriminate|].
  destruct (fs_lookup t (pre ++ [c])) as [[|?]|]; eauto.
  now intros [= <-].
Qed.

Lemma mkdir_parents_raise p w e w' :
  mkdir_parents p w = (Raise e, w') → exn_kind_of e = OSError ∧ w' = w.
Proof.
  unfold mkdir_parents, bind, get_files.
  destruct (mkdir_chain (files w) [] p) as [t'|e'] eqn:E; [discriminate|].
  unfold raise. intros [= <- <-]. split; [|reflexivity].
  now apply mkdir_chain_raise in E.
Qed.

Lemma open_truncate_cases p w :
  (open_truncate p w
   = (Ok tt, set_files w (fs_store (files w) p (File (Bytes "")))))
  ∨ (∃ e, open_truncate p w = (Raise e, w) ∧ exn_kind_of e = OSError).
Proof.
  unfold open_truncate, bind, get_files, raise, put_files.
  destruct (fs_is_dir (files w) p); [right; eauto|].
  destruct (fs_is_dir (files w) (Path.parent p)); [now left | right; eauto].
Qed.

Lemma join_relative (d : path) s :
  Str.starts_with "/" s = false → d `prefix_of` Path.join d s.
Proof. intros E. unfold Path.join. rewrite E. now apply prefix_app_r. Qed.

Lemma plain_not_absolute s :
  all_chars name_byte s = true → Str.starts_with "/" s = false.
Proof.
  destruct s as [|c r]; [reflexivity|].
  cbn [all_chars]. intros Hs. apply andb_true_iff in Hs as [Hc _].
  unfold Str.starts_with. cbn [String.prefix].
  destruct (ascii_dec "/" c) as [<-|?]; [|reflexivity].
  vm_compute in Hc. discriminate.
Qed.

(** [secure_name] never gives an absolute name, and it leaves the disk
    alone. *)
Lemma secure_name_relative name w :
  match secure_name name w with
  | (Ok s, w') => Str.starts_with "/" s = false ∧ files w' = files w
  | (Raise e, w') => exn_kind_of e = AttributeError ∧ w' = w
  end.
Proof.
  unfold secure_name, bind, lift.
  destruct (py_strip (py_or name (PyStr ""))) as [s|e] eqn:Es.
  - set (safe := Str.strip_with is_dot _).
    destruct (Str.nonempty safe) eqn:En; simpl; [|split; reflexivity].
    split; [|reflexivity].
    apply plain_not_absolute, all_chars_strip_with, all_chars_filter.
  - split; [|reflexivity].
    unfold py_strip in Es. destruct (py_or _ _); try discriminate;
      now injection Es as <-.
Qed.

(** X4. [save_b64] (lines 278-284): a path it returns lies below [dest]
    and holds the decoded bytes of the payload, which was a string of
    valid base64; when it raises because the payload is not valid base64
    or not a string, an empty file is left below [dest], the file having
    been opened before the payload was decoded. *)
Theorem save_b64_outcome (data_b64 filename : pyval) (dest : path) (w : world) :
  match save_b64 data_b64 filename dest w with
  | (Ok p, w') =>
      dest `prefix_of` p
      ∧ ∃ s decoded,
          data_b64 = PyStr s ∧ b64decode s = Some decoded
          ∧ fs_lookup (files w') p = Some (File (Bytes decoded))
  | (Raise e, w') =>
      (exn_kind_of e = ValueError ∨ exn_kind_of e = TypeError) →
      ∃ p, dest `prefix_of` p ∧ fs_lookup (files w') p = Some (File (Bytes ""))
  end.
Proof.
  unfold save_b64. unfold bind at 1.
  destruct (mkdir_parents dest w) as [[[]|e] w1] eqn:E1.
  2:{ apply mkdir_parents_raise in E1 as [K _]. rewrite K. now intros [|]. }
  unfold bind at 1.
  set (arg := if py_bool filename then _ else _).
  assert (∃ a w2, arg w1 = (Ok a, w2) ∧ files w2 = files w1) as (a & w2 & -> & F2).
  { subst arg. destruct (py_bool filename); [now eexists _, _|].
    unfold bind, fresh_hex, ret. now eexists _, _. }
  unfold bind at 1.
  pose proof (secure_name_relative a w2) as Hn.
  destruct (secure_name a w2) as [[fn|e] w3].
  2:{ destruct Hn as [K _]. rewrite K. now intros [|]. }
  destruct Hn as [Hrel F3].
  pose proof (join_relative dest fn Hrel) as Hpre.
  set (p := Path.join dest fn) in *.
  unfold bind at 1.
  destruct (open_truncate_cases p w3) as [->|(e & -> & K)].
  2:{ rewrite K. now intros [|]. }
  unfold bind at 1, lift at 1.
  destruct data_b64 as [| | | |s| | |]; try (intros _; exists p; split;
    [exact Hpre | simpl; apply fs_lookup_store_eq]).
  destruct (b64decode s) as [decoded|] eqn:Ed.
  - unfold bind, write_flush, get_files, put_files, ret. simpl.
    split; [exact Hpre|]. exists s, decoded.
    repeat split; [exact Ed|]. apply fs_lookup_store_eq.
  - intros _. exists p. split; [exact Hpre|]. simpl. apply fs_lookup_store_eq.
Qed.

(** X5. [save_from_url] (lines 286-299): a path it returns lies below
    [dest] and holds the whole body of the response; without the
    [requests] library it raises a runtime error and touches nothing;
    when it raises, either only directories have been made, which is so
    whenever the request itself fails, or the body broke off while it was
    copied, the exception of the copy is raised and a file below [dest]
    holds the part that had arrived. *)
Theorem save_from_url_outcome (url filename : pyval) (dest : path) (w : world) :
  match save_from_url url filename dest w with
  | (Ok p, w') =>
      requests_installed = true
      ∧ dest `prefix_of` p
      ∧ ∃ body, http_get (py_str url) = Fetched body
                ∧ fs_lookup (files w') p = Some (File (Bytes body))
  | (Raise e, w') =>
      (requests_installed = false → exn_kind_of e = RuntimeError ∧ w' = w)
      ∧ (∀ x, http_get (py_str url) = FetchFails x → grown (files w) (files w'))
      ∧ (grown (files w) (files w')
         ∨ ∃ part p,
             http_get (py_str url) = FetchBreaks part e
             ∧ dest `prefix_of` p
             ∧ fs_lookup (files w') p = Some (File (Bytes part)))
  end.
Proof.
  unfold save_from_url.
  destruct requests_installed eqn:R; simpl.
  2:{ split; [now split|]. split; [intros x _|left]; apply grown_refl. }
  unfold bind at 1.
  destruct (mkdir_parents dest w) as [[[]|e] w1] eqn:E1.
  2:{ apply mkdir_parents_raise in E1 as [K ->]. split; [discriminate|].
      split; [intros x _|left]; apply grown_refl. }
  apply mkdir_parents_grown in E1 as [G _].
  unfold bind at 1.
  destruct (http_get (py_str url)) as [body|x|part x] eqn:Eg.
  2:{ unfold raise. split; [discriminate|]. split; [now intros|now left]. }
  all: unfold ret at 1; unfold bind at 1;
    pose proof (secure_name_relative
                  (py_or filename (py_or (PyStr (url_basename (py_str url)))
                                         (PyStr "download.bin"))) w1) as Hn;
    destruct (secure_name _ w1) as [[fn|e] w3];
    [destruct Hn as [Hrel F3]
    |destruct Hn as [_ ->]; split; [discriminate|]; split; [discriminate|now left]];
    pose proof (join_relative dest fn Hrel) as Hpre;
    set (p := Path.join dest fn) in *;
    unfold bind at 1;
    (destruct (open_truncate_cases p w3) as [->|(e & -> & K)];
     [|split; [discriminate|]; split; [discriminate|left; now rewrite F3]]);
    unfold bind, write_flush, get_files, put_files, ret, raise; simpl.
  - split; [reflexivity|]. split; [exact Hpre|]. exists body. split; [reflexivity|].
    apply fs_lookup_store_eq.
  - split; [discriminate|]. split; [discriminate|]. right. exists part, p.
    split; [reflexivity|]. split; [exact Hpre|]. apply fs_lookup_store_eq.
Qed.



(** *** The configuration *)

Lemma write_text_inv p c w w' :
  write_text p c w = (Ok tt, w') →
  w' = set_files w (fs_store (files w) p (File c)).
Proof.
  unfold write_text, write_text_steps, run_steps. intros H.
  apply bind_inv in H as ([] & w1 & E1 & H).
  apply bind_inv in H as ([] & w2 & E2 & H). apply ret_inv in H as [_ ->].
  destruct (open_truncate_cases p w) as [E|(e & E & _)]; rewrite E in E1;
    [|discriminate].
  injection E1 as <-. unfold write_flush, bind, get_files, put_files in E2.
  injection E2 as <-. simpl. now rewrite fs_store_store.
Qed.

Lemma write_text_raise p c w e w' :
  write_text p c w = (Raise e, w') → w' = w.
Proof.
  unfold write_text, write_text_steps, run_steps. unfold bind at 1.
  destruct (open_truncate_cases p w) as [->|(x & -> & _)]; [|now intros [= _ <-]].
  unfold write_flush, bind, get_files, put_files, ret. discriminate.
Qed.

Lemma write_text_ok p c w :
  fs_is_dir (files w) p = false →
  fs_is_dir (files w) (Path.parent p) = true →
  write_text p c w = (Ok tt, set_files w (fs_store (files w) p (File c))).
Proof.
  intros Hp Hd. unfold write_text, write_text_steps, run_steps.
  unfold open_truncate, write_flush, bind, get_files, put_files, ret. simpl.
  rewrite Hp, Hd. simpl. now rewrite fs_store_store.
Qed.

Lemma config_path_parent : Path.parent CONFIG_PATH = APP_ROOT.
Proof. apply parent_snoc. Qed.

Lemma load_config_stored t cfg w :
  files w = fs_store t CONFIG_PATH (File (Json cfg)) →
  load_config w = (Ok cfg, w).
Proof.
  intros E. unfold load_config, bind, get_files. rewrite E.
  assert (fs_exists (fs_store t CONFIG_PATH (File (Json cfg))) CONFIG_PATH = true) as ->.
  { unfold fs_exists. destruct CONFIG_PATH; [reflexivity|].
    apply bool_decide_eq_true. rewrite fs_lookup_store_eq. eauto. }
  now rewrite fs_lookup_store_eq.
Qed.

(** X6. Where the application directory exists and no directory sits at
    [config.json], [save_config] (lines 184-185) succeeds, [load_config]
    (lines 176-182) then returns the configuration that was saved, and no
    other path has changed. *)
Theorem config_round_trip (cfg : pyval) (w : world) :
  fs_is_dir (files w) APP_ROOT = true →
  fs_is_dir (files w) CONFIG_PATH = false →
  ∃ w', save_config cfg w = (Ok tt, w')
        ∧ load_config w' = (Ok cfg, w')
        ∧ ∀ q, q ≠ CONFIG_PATH → fs_lookup (files w') q = fs_lookup (files w) q.
Proof.
  intros Hroot Hfile. eexists. split; [|split].
  - unfold save_config. apply write_text_ok; [exact Hfile|].
    now rewrite config_path_parent.
  - now apply (load_config_stored (files w)).
  - intros q Hq. simpl. now apply fs_lookup_store_ne.
Qed.

Lemma assoc_get_set_eq (d : list (string * pyval)) k v :
  assoc_get (assoc_set d k v) k = Some v.
Proof.
  induction d as [|[k' x] d IH]; simpl.
  - now rewrite bool_decide_eq_true_2.
  - destruct (bool_decide (k' = k)) eqn:E; simpl.
    + now rewrite bool_decide_eq_true_2.
    + now rewrite E.
Qed.

Lemma assoc_get_set_ne (d : list (string * pyval)) k k' v :
  k ≠ k' → assoc_get (assoc_set d k v) k' = assoc_get d k'.
Proof.
  intros Hne. induction d as [|[j x] d IH]; simpl.
  - now rewrite bool_decide_eq_false_2.
  - destruct (bool_decide (j = k)) eqn:E; simpl.
    + apply bool_decide_eq_true in E. subst j.
      now rewrite !bool_decide_eq_false_2.
    + now rewrite IH.
Qed.

Lemma py_item_found d k v : assoc_get d k = Some v → py_item (PyDict d) k = Ok v.
Proof. unfold py_item. now intros ->. Qed.

Lemma mkdir_exist_ok_raise p w e w' :
  mkdir_exist_ok p w = (Raise e, w') → w' = w.
Proof.
  unfold mkdir_exist_ok, bind, get_files, ret, raise, put_files.
  destruct (fs_is_dir (files w) p); [discriminate|].
  destruct (fs_exists (files w) p); [now intros [= _ <-]|].
  destruct (fs_is_dir (files w) (Path.parent p)); [discriminate|now intros [= _ <-]].
Qed.

(** Whether it returns or raises, [ensure_project_base] has only made
    directories. *)
Lemma ensure_project_base_only_grows cfg w :
  grown (files w) (files (snd (ensure_project_base cfg w))).
Proof.
  destruct (ensure_project_base cfg w) as [[base|e] w'] eqn:H.
  - now apply ensure_project_base_grown in H as (G & _).
  - simpl. revert H. unfold ensure_project_base. unfold bind at 1.
    assert (∃ r, (if py_bool cfg then ret cfg else load_config) w = (r, w))
      as [r ->].
    { destruct (py_bool cfg); [now eexists|]. rewrite load_config_result. now eexists. }
    destruct r as [cfg'|x]; [|intros [= _ <-]; apply grown_refl].
    unfold bind at 1, lift at 1.
    destruct (py_get cfg' _ _) as [b|x]; [|intros [= _ <-]; apply grown_refl].
    unfold bind at 1, lift at 1.
    destruct (to_path b) as [b'|x]; [|intros [= _ <-]; apply grown_refl].
    unfold bind at 1.
    destruct (mkdir_parents (resolve b') w) as [[[]|x] w1] eqn:E1.
    2:{ apply mkdir_parents_raise in E1 as [_ ->]. intros [= _ <-]. apply grown_refl. }
    apply mkdir_parents_grown in E1 as [G _].
    unfold bind at 1.
    destruct (mkdir_exist_ok _ w1) as [[[]|x] w2] eqn:E2; [discriminate|].
    apply mkdir_exist_ok_raise in E2 as ->. now intros [= _ <-].
Qed.

(** One call of the update of lines 425-436: evaluate a [lift]ed value,
    and stop with the disk as it was should it raise. *)
Ltac config_step :=
  unfold bind at 1; unfold lift at 1;
  lazymatch goal with
  | |- match (match ?r with Ok _ => _ | Raise _ => _ end) with pair _ _ => _ end =>
      destruct r as [?v|?e] eqn:?E; [|apply grown_refl]
  end.

(** X7. [api_config] with method POST (lines 423-440): when it answers,
    the request had a body and the configuration was a dictionary; the
    answer is [ok] with the updated configuration, which is the one
    stored ([load_config] returns it); in it each of the ten settings
    holds the value the request gives for it, or else the value
    configured before, converted as the setting demands (a number, a
    boolean, a string, or as it is), and every other key holds what it
    held before; the numeric settings are numbers, [use_chunked] is a
    boolean and [cuda_visible_devices] a string. When it raises, no file
    has been written, only directories made. *)
Theorem api_config_post_outcome (req : option pyval) (w : world) :
  match api_config_post req w with
  | (Ok r, w') =>
      ∃ data old cfg,
        req = Some data
        ∧ load_config w = (Ok (PyDict old), w)
        ∧ r = Reply (PyDict [("ok", PyBool true); ("config", PyDict cfg)]) 200
        ∧ load_config w' = (Ok (PyDict cfg), w')
        ∧ Forall (λ kc, ∃ v x, asked data (PyDict old) (fst kc) = Ok v
                               ∧ convert (snd kc) v = Ok x
                               ∧ assoc_get cfg (fst kc) = Some x)
                 config_settings
        ∧ (∀ k, k ∉ List.map fst config_settings →
                assoc_get cfg k = assoc_get old k)
        ∧ typed_config (PyDict cfg)
  | (Raise e, w') => grown (files w) (files w')
  end.
Proof.
  unfold api_config_post. unfold bind at 1.
  destruct req as [data|]; [|apply grown_refl]. unfold get_json, ret.
  unfold bind at 1. rewrite load_config_result.
  destruct (fst (load_config w)) as [cfg0|e0] eqn:E0; [|apply grown_refl].
  unfold bind at 1, lift at 1.
  destruct cfg0 as [| | | | | | |l0]; try apply grown_refl.
  cbn [update_allowed].
  do 14 config_step.
  set (cfg := py_update _ _).
  unfold bind at 1.
  pose proof (ensure_project_base_only_grows cfg w) as G.
  destruct (ensure_project_base cfg w) as [[base|x] w1]; [|exact G].
  simpl in G. unfold bind at 1.
  destruct (save_config cfg w1) as [[[]|x] w2] eqn:Es.
  2:{ apply write_text_raise in Es as ->. exact G. }
  apply write_text_inv in Es.
  unfold py_update in cfg. cbn [fold_left fst snd] in cfg.
  match goal with cfg := PyDict ?l |- _ => set (c := l) in * end.
  exists data, l0, c.
  split; [reflexivity|]. split; [reflexivity|].
  split; [reflexivity|].
  split; [apply (load_config_stored (files w1)); now rewrite Es|].
  split; [|split].
  - unfold config_settings.
    repeat (apply Forall_cons; split;
            [cbn [fst snd]; eexists _, _; split; [eassumption|]; split;
             [cbn [convert];
              repeat match goal with E : _ = Ok _ |- _ => rewrite E end;
              reflexivity
             |unfold c; repeat (rewrite assoc_get_set_ne by discriminate);
              apply assoc_get_set_eq]|]).
    apply Forall_nil_2.
  - intros k Hk. unfold c.
    repeat (rewrite assoc_get_set_ne
              by (intros <-; apply Hk; cbn; set_solver)).
    reflexivity.
  - unfold typed_config, c.
    repeat split; eexists; apply py_item_found;
      repeat (rewrite assoc_get_set_ne by discriminate);
      apply assoc_get_set_eq.
Qed.



(** *** The project routes *)

(** [strip] applied twice is [strip] applied once. *)

Lemma string_length_ind (P : string → Prop) :
  (∀ s, (∀ r, String.length r < String.length s → P r) → P s) → ∀ s, P s.
Proof.
  intros step s.
  assert (∀ n r, String.length r < n → P r) as H.
  { induction n as [|n IH]; intros r Hr; [lia|].
    apply step. intros r' Hr'. apply IH. lia. }
  apply (H (S (String.length s))). lia.
Qed.

Lemma length_app_string (a b : string) :
  String.length (a +:+ b) = String.length a + String.length b.
Proof.
  induction a as [|c a IH]; [reflexivity|].
  change (String c a +:+ b) with (String c (a +:+ b)). simpl. now rewrite IH.
Qed.

Section DropChars.
Variables (one : ascii → bool) (two : ascii → ascii → bool)
          (three : ascii → ascii → ascii → bool).

Let drop := Str.drop_chars one two three.

Lemma drop_chars_cons c r :
  drop (String c r)
  = if one c then drop r
    else match r with
         | "" => String c r
         | String d r1 =>
             if two c d then drop r1
             else match r1 with
                  | "" => String c r
                  | String e r2 => if three c d e then drop r2 else String c r
                  end
         end.
Proof. reflexivity. Qed.

Lemma drop_chars_suffix s : ∃ pre, s = pre +:+ drop s.
Proof.
  induction s as [s IH] using string_length_ind.
  destruct s as [|c r]; [now exists ""|].
  rewrite drop_chars_cons.
  destruct (one c).
  { destruct (IH r) as [pre E]; [simpl; lia|].
    exists (String c pre).
    change (String c r = String c (pre +:+ drop r)). now f_equal. }
  destruct r as [|d r1]; [now exists ""|].
  destruct (two c d).
  { destruct (IH r1) as [pre E]; [simpl; lia|].
    exists (String c (String d pre)).
    change (String c (String d r1) = String c (String d (pre +:+ drop r1))).
    now do 2 f_equal. }
  destruct r1 as [|e r2]; [now exists ""|].
  destruct (three c d e); [|now exists ""].
  destruct (IH r2) as [pre E]; [simpl; lia|].
  exists (String c (String d (String e pre))).
  change (String c (String d (String e r2))
          = String c (String d (String e (pre +:+ drop r2)))).
  now do 3 f_equal.
Qed.

Lemma drop_chars_length s : (String.length (drop s) ≤ String.length s)%nat.
Proof.
  destruct (drop_chars_suffix s) as [pre E].
  rewrite E at 2. rewrite length_app_string. lia.
Qed.

(** A string that loses nothing has no prefix that loses anything. *)
Lemma drop_chars_prefix_fixed (p q : string) :
  drop (p +:+ q) = p +:+ q → drop p = p.
Proof.
  destruct p as [|c p1]; [reflexivity|].
  change (String c p1 +:+ q) with (String c (p1 +:+ q)).
  rewrite (drop_chars_cons c (p1 +:+ q)), (drop_chars_cons c p1).
  destruct (one c).
  { intros E. pose proof (drop_chars_length (p1 +:+ q)) as L.
    rewrite E in L. simpl in L. lia. }
  destruct p1 as [|d p2]; [reflexivity|].
  change (String d p2 +:+ q) with (String d (p2 +:+ q)). cbv beta iota.
  destruct (two c d).
  { intros E. pose proof (drop_chars_length (p2 +:+ q)) as L.
    rewrite E in L. simpl in L. lia. }
  destruct p2 as [|e p3]; [reflexivity|].
  change (String e p3 +:+ q) with (String e (p3 +:+ q)). cbv beta iota.
  destruct (three c d e); [|reflexivity].
  intros E. pose proof (drop_chars_length (p3 +:+ q)) as L.
  rewrite E in L. simpl in L. lia.
Qed.

Lemma drop_chars_idem s : drop (drop s) = drop s.
Proof.
  induction s as [s IH] using string_length_ind.
  destruct s as [|c r]; [reflexivity|].
  rewrite (drop_chars_cons c r).
  destruct (one c) eqn:E1; [apply IH; simpl; lia|].
  destruct r as [|d r1].
  { rewrite drop_chars_cons. now rewrite E1. }
  destruct (two c d) eqn:E2; [apply IH; simpl; lia|].
  destruct r1 as [|e r2].
  { rewrite drop_chars_cons. now rewrite E1, E2. }
  destruct (three c d e) eqn:E3; [apply IH; simpl; lia|].
  rewrite drop_chars_cons. now rewrite E1, E2, E3.
Qed.

End DropChars.

Lemma rstrip_space_prefix s : ∃ post, s = Str.rstrip_space s +:+ post.
Proof.
  unfold Str.rstrip_space.
  destruct (drop_chars_suffix Str.is_space (λ d c, Str.is_space2 c d)
              (λ e d c, Str.is_space3 c d e) (String.rev s)) as [pre E].
  exists (String.rev pre). apply (f_equal String.rev) in E.
  now rewrite rev_involutive_string, rev_app_distr_string in E.
Qed.

Lemma strip_idem s : Str.strip (Str.strip s) = Str.strip s.
Proof.
  unfold Str.strip. set (y := Str.lstrip_space s).
  assert (Str.lstrip_space (Str.rstrip_space y) = Str.rstrip_space y) as ->.
  { destruct (rstrip_space_prefix y) as [post E].
    apply (drop_chars_prefix_fixed _ _ _ _ post). rewrite <- E.
    apply drop_chars_idem. }
  unfold Str.rstrip_space. now rewrite rev_involutive_string, drop_chars_idem.
Qed.

Lemma is_reserved_strip name :
  is_reserved_project (Str.strip name) = is_reserved_project name.
Proof. unfold is_reserved_project. now rewrite strip_idem. Qed.

(** The field of a request, when it holds a string. *)
Lemma stripped_field_str d k s w :
  assoc_get d k = Some (PyStr s) →
  stripped_field (PyDict d) k w = (Ok (Str.strip s), w).
Proof.
  intros E. unfold stripped_field, bind, lift, py_get. rewrite E. simpl.
  unfold py_or, py_bool. destruct (Str.nonempty s) eqn:En; [reflexivity|].
  unfold Str.nonempty in En. apply negb_false_iff, bool_decide_eq_true in En.
  now subst s.
Qed.

Lemma load_config_is w : load_config w = (Ok (config_of w), w).
Proof.
  unfold config_of. destruct (load_config_pure w) as [cfg E]. now rewrite E.
Qed.

(** The three project routes begin alike: the configuration is loaded,
    the Default project is made sure of, the body is read. *)
Lemma route_prefix {A} (k : pyval → pyval → M A) data w def w0 :
  ensure_default_project (config_of w) w = (Ok def, w0) →
  (cfg <- load_config ;; ensure_default_project cfg ;;;
   data <- get_json (Some data) ;; k cfg data) w
  = k (config_of w) data w0.
Proof.
  intros H. rewrite (bind_ok _ _ _ _ _ (load_config_is w)).
  now rewrite (bind_ok _ _ _ _ _ H).
Qed.

(** X8. A name that [is_reserved_project] (lines 167-168) recognises,
    that is [Default] in any letter case and with blanks around it, is
    refused with status 400 by [api_projects_create] (lines 455-469) and
    [api_projects_delete] (lines 517-544), which leave the server as
    [ensure_default_project] left it. *)
Theorem reserved_name_not_created_nor_deleted
    (d : list (string * pyval)) (name : string) (w : world) def w0 :
  ensure_default_project (config_of w) w = (Ok def, w0) →
  assoc_get d "name" = Some (PyStr name) →
  is_reserved_project name = true →
  api_projects_create (Some (PyDict d)) w
  = (Ok (refused "The name 'Default' is reserved." 400), w0)
  ∧ api_projects_delete (Some (PyDict d)) w
    = (Ok (refused "The 'Default' project cannot be deleted." 400), w0).
Proof.
  intros H Hn Hr. split.
  - unfold api_projects_create.
    rewrite (route_prefix (λ cfg data, name <- stripped_field data "name" ;; _) _ _ _ _ H).
    rewrite (bind_ok _ _ _ _ _ (stripped_field_str _ _ _ _ Hn)).
    now rewrite is_reserved_strip, Hr.
  - unfold api_projects_delete.
    rewrite (route_prefix (λ cfg data, name <- stripped_field data "name" ;; _) _ _ _ _ H).
    rewrite (bind_ok _ _ _ _ _ (stripped_field_str _ _ _ _ Hn)).
    now rewrite is_reserved_strip, Hr.
Qed.

(** X9. [api_projects_rename] (lines 471-515) refuses with status 400 to
    rename a project whose old or new name is reserved, the old name
    being tested first, and leaves the server as
    [ensure_default_project] left it. *)
Theorem reserved_name_not_renamed
    (d : list (string * pyval)) (old new : string) (w : world) def w0 :
  ensure_default_project (config_of w) w = (Ok def, w0) →
  assoc_get d "old" = Some (PyStr old) →
  assoc_get d "new" = Some (PyStr new) →
  is_reserved_project old || is_reserved_project new = true →
  api_projects_rename (Some (PyDict d)) w
  = (Ok (refused (if is_reserved_project old
                  then "The 'Default' project cannot be renamed."
                  else "You cannot rename a project to the reserved name 'Default'.")
                 400), w0).
Proof.
  intros H Ho Hn Hr. unfold api_projects_rename.
  rewrite (route_prefix (λ cfg data, old <- stripped_field data "old" ;; _) _ _ _ _ H).
  rewrite (bind_ok _ _ _ _ _ (stripped_field_str _ _ _ _ Ho)).
  rewrite (bind_ok _ _ _ _ _ (stripped_field_str _ _ _ _ Hn)).
  rewrite !is_reserved_strip.
  destruct (is_reserved_project old); [reflexivity|].
  simpl in Hr. now rewrite Hr.
Qed.



Lemma fs_lookup_remove (t : fs) p q :
  fs_lookup (fs_remove t p) q = if bool_decide (p = q) then None else fs_lookup t q.
Proof.
  unfold fs_remove. induction t as [|[k m] t IH]; simpl.
  - now destruct (bool_decide (p = q)).
  - destruct (bool_decide (k = p)) eqn:Ek; simpl.
    + apply bool_decide_eq_true in Ek. subst k. rewrite IH.
      now destruct (bool_decide (p = q)).
    + rewrite IH. destruct (bool_decide (k = q)) eqn:Ekq; [|reflexivity].
      apply bool_decide_eq_true in Ekq. subst k.
      apply bool_decide_eq_false in Ek.
      now rewrite bool_decide_eq_false_2 by congruence.
Qed.

Lemma fs_lookup_in (t : fs) q n : fs_lookup t q = Some n → In (q, n) t.
Proof.
  induction t as [|[k m] t IH]; simpl; [discriminate|].
  destruct (bool_decide (k = q)) eqn:E.
  - apply bool_decide_eq_true in E. subst k. intros [= <-]. now left.
  - intros H. right. now apply IH.
Qed.

Lemma fs_in_lookup (t : fs) q n : In (q, n) t → is_Some (fs_lookup t q).
Proof.
  induction t as [|[k m] t IH]; simpl; [done|].
  intros [E|H].
  - injection E as -> ->. rewrite bool_decide_eq_true_2 by reflexivity. eauto.
  - destruct (bool_decide (k = q)); [eauto|now apply IH].
Qed.

(** What a scan of [d] lists. *)
Lemma fs_children_elem (t : fs) d q :
  In q (fs_children t d)
  ↔ q ≠ [] ∧ Path.parent q = d ∧ is_Some (fs_lookup t q).
Proof.
  unfold fs_children. rewrite in_map_iff. split.
  - intros ([k n] & <- & Hin). apply filter_In in Hin as [Hin Hc]. simpl in *.
    apply andb_true_iff in Hc as [Hne Hpar].
    apply negb_true_iff, bool_decide_eq_false in Hne.
    apply bool_decide_eq_true in Hpar.
    repeat split; try assumption. now apply fs_in_lookup in Hin.
  - intros (Hne & Hpar & [n Hn]). exists (q, n). split; [reflexivity|].
    apply filter_In. split; [now apply fs_lookup_in|]. simpl.
    apply andb_true_iff. split.
    + now apply negb_true_iff, bool_decide_eq_false.
    + now apply bool_decide_eq_true.
Qed.

Lemma name_snoc (p : path) x : Path.name (p ++ [x]) = x.
Proof. unfold Path.name. apply last_last. Qed.

(** A directory that holds an entry with the suffix [.wav], in any
    letter case, counts as holding audio. *)
Lemma any_wav_child (t : fs) p x :
  is_Some (fs_lookup t (p ++ [x])) →
  str_lower (path_suffix x) = ".wav" →
  any_wav (fs_children t p) = true.
Proof.
  intros Hx Hs. unfold any_wav. apply existsb_exists. exists (p ++ [x]). split.
  - apply fs_children_elem. repeat split; [now destruct p|apply parent_snoc|exact Hx].
  - rewrite name_snoc. now apply bool_decide_eq_true.
Qed.

Lemma grown_some (t t' : fs) q :
  grown t t' → is_Some (fs_lookup t q) → is_Some (fs_lookup t' q).
Proof.
  intros G [n Hn]. destruct (G q) as [->|[F _]]; [eauto|congruence].
Qed.

(** A project path made from the start is the one made once the Default
    project has been made sure of. *)
Lemma project_path_after_default project cfg w p w1 :
  project_path project cfg w = (Ok p, w1) →
  ∃ def w0,
    ensure_default_project cfg w = (Ok def, w0)
    ∧ project_path project cfg w0 = (Ok p, w1)
    ∧ grown (files w) (files w0) ∧ grown (files w0) (files w1)
    ∧ fs_is_dir (files w0) def = true.
Proof.
  intros H. apply project_path_inv in H as (base & w0 & s & E0 & E1 & -> & E2 & E3).
  exists (base ++ ["Default"]), w0. split; [now apply ensure_default_project_eq|].
  split.
  { apply (project_path_eq _ _ _ base w0); try assumption.
    eapply ensure_project_base_stable; [exact E0|apply grown_refl]. }
  pose proof (ensure_project_base_grown _ _ _ _ E0) as (G & _ & D).
  repeat split; [exact G| |exact D]. now apply mkdir_exist_ok_grown in E3.
Qed.

Lemma py_get_dict d k dflt : py_get (PyDict d) k dflt = Ok (default dflt (assoc_get d k)).
Proof. reflexivity. Qed.

Lemma iterdir_dir d w :
  fs_is_dir (files w) d = true → iterdir d w = (Ok (fs_children (files w) d), w).
Proof. intros E. unfold iterdir, bind, get_files. now rewrite E. Qed.

Lemma rmtree_strict_dir d w :
  fs_is_dir (files w) d = true →
  rmtree_strict d w = (Ok tt, set_files w (fs_remove_tree (files w) d)).
Proof. intros E. unfold rmtree_strict, bind, get_files. now rewrite E. Qed.

(** The delete route, from a name that is not reserved to the removal. *)
Lemma api_projects_delete_unreserved d name w p w1 :
  assoc_get d "name" = Some (PyStr name) →
  is_reserved_project name = false →
  project_path (PyStr (Str.strip name)) (config_of w) w = (Ok p, w1) →
  api_projects_delete (Some (PyDict d)) w
  = try_except
      (removed <- (if py_bool (default PyNone (assoc_get d "force"))
                   then rmtree_strict p ;;; ret true
                   else items <- iterdir p ;;
                        if any_wav items then ret false
                        else rmtree_strict p ;;; ret true) ;;
       if removed : bool
       then retarget_active (config_of w) (Str.strip name) "Default" ;;; ret ok_reply
       else ret (refused "Project not empty" 400))
      (λ e, ret (refused (exn_msg e) 400)) w1.
Proof.
  intros Hn Hr Hp.
  apply project_path_after_default in Hp as (def & w0 & H & Hp & _).
  unfold api_projects_delete.
  rewrite (route_prefix (λ cfg data, name <- stripped_field data "name" ;; _) _ _ _ _ H).
  rewrite (bind_ok _ _ _ _ _ (stripped_field_str _ _ _ _ Hn)).
  rewrite is_reserved_strip, Hr.
  unfold bind at 1, lift at 1. rewrite py_get_dict.
  now rewrite (bind_ok _ _ _ _ _ Hp).
Qed.

(** X10. Without [force], [api_projects_delete] (lines 517-544) answers
    400 "Project not empty" for a project whose directory directly holds
    an entry with the suffix [.wav] in any letter case, and removes
    nothing: the disk is the one before the request plus the directories
    [project_path] made. *)
Theorem unforced_delete_keeps_audio
    (d : list (string * pyval)) (name x : string) (w : world) p w1 :
  assoc_get d "name" = Some (PyStr name) →
  is_reserved_project name = false →
  py_bool (default PyNone (assoc_get d "force")) = false →
  project_path (PyStr (Str.strip name)) (config_of w) w = (Ok p, w1) →
  is_Some (fs_lookup (files w) (p ++ [x])) →
  str_lower (path_suffix x) = ".wav" →
  api_projects_delete (Some (PyDict d)) w
  = (Ok (refused "Project not empty" 400), w1)
  ∧ grown (files w) (files w1).
Proof.
  intros Hn Hr Hf Hp Hx Hs.
  pose proof (project_path_grown _ _ _ _ _ Hp) as G.
  split; [|exact G].
  rewrite (api_projects_delete_unreserved _ _ _ _ _ Hn Hr Hp), Hf.
  unfold try_except.
  rewrite (bind_ok _ _ _ false w1); [reflexivity|].
  rewrite (bind_ok _ _ _ _ _ (iterdir_dir _ _ (project_path_dir _ _ _ _ _ Hp))).
  rewrite (any_wav_child (files w1) p x); [reflexivity| |exact Hs].
  now apply (grown_some (files w)).
Qed.



(** [retarget_active] touches the configuration file and nothing else,
    and it puts no directory in its place. *)
Lemma retarget_active_outcome cfg name to w :
  let w' := snd (retarget_active cfg name to w) in
  (∀ q, q ≠ CONFIG_PATH → fs_lookup (files w') q = fs_lookup (files w) q)
  ∧ (fs_lookup (files w') CONFIG_PATH = fs_lookup (files w) CONFIG_PATH
     ∨ ∃ c, fs_lookup (files w') CONFIG_PATH = Some (File c)).
Proof.
  unfold retarget_active, bind, lift.
  destruct (py_get cfg "active_project" PyNone) as [a|e]; [|simpl; auto].
  destruct (py_eq_str a name); [|simpl; auto].
  destruct (py_setitem cfg "active_project" (PyStr to)) as [cfg'|e]; [|simpl; auto].
  destruct (save_config cfg' w) as [[[]|e] w'] eqn:E; unfold save_config in E.
  - apply write_text_inv in E as ->. simpl. split.
    + intros q Hq. now apply fs_lookup_store_ne.
    + right. eexists. apply fs_lookup_store_eq.
  - apply write_text_raise in E as ->. simpl. auto.
Qed.

Lemma api_projects_delete_removes d name w p w1 :
  assoc_get d "name" = Some (PyStr name) →
  is_reserved_project name = false →
  project_path (PyStr (Str.strip name)) (config_of w) w = (Ok p, w1) →
  py_bool (default PyNone (assoc_get d "force")) = true
  ∨ any_wav (fs_children (files w1) p) = false →
  api_projects_delete (Some (PyDict d)) w
  = caught (retarget_active (config_of w) (Str.strip name) "Default"
              (set_files w1 (fs_remove_tree (files w1) p))).
Proof.
  intros Hn Hr Hp Hgo.
  rewrite (api_projects_delete_unreserved _ _ _ _ _ Hn Hr Hp).
  pose proof (project_path_dir _ _ _ _ _ Hp) as D.
  unfold try_except.
  rewrite (bind_ok _ _ _ true (set_files w1 (fs_remove_tree (files w1) p))).
  - unfold bind, caught, ret.
    now destruct (retarget_active _ _ _ _) as [[[]|e] w2].
  - destruct (py_bool (default PyNone (assoc_get d "force"))).
    + now rewrite (bind_ok _ _ _ _ _ (rmtree_strict_dir _ _ D)).
    + destruct Hgo as [?|Hw]; [discriminate|].
      rewrite (bind_ok _ _ _ _ _ (iterdir_dir _ _ D)), Hw.
      now rewrite (bind_ok _ _ _ _ _ (rmtree_strict_dir _ _ D)).
Qed.

(** X11. With [force], or when the project directory holds no entry with
    the suffix [.wav], [api_projects_delete] (lines 517-544) answers (with
    [ok], or with status 400 when the configuration could not be
    updated), nothing is left at or below the project directory, the
    project directory is no directory any more, and every other path but
    the configuration file holds what it held once [project_path] had
    run. The project need not have existed: [project_path] makes it
    first. *)
Theorem deleted_project_is_gone
    (d : list (string * pyval)) (name : string) (w : world) p w1 :
  assoc_get d "name" = Some (PyStr name) →
  is_reserved_project name = false →
  project_path (PyStr (Str.strip name)) (config_of w) w = (Ok p, w1) →
  py_bool (default PyNone (assoc_get d "force")) = true
  ∨ any_wav (fs_children (files w1) p) = false →
  ∃ r w',
    api_projects_delete (Some (PyDict d)) w = (Ok r, w')
    ∧ (r = ok_reply ∨ reply_status r = 400%Z)
    ∧ (∀ q, p `prefix_of` q → q ≠ CONFIG_PATH → fs_lookup (files w') q = None)
    ∧ (∀ q, ¬ p `prefix_of` q → q ≠ CONFIG_PATH →
            fs_lookup (files w') q = fs_lookup (files w1) q)
    ∧ (p ≠ [] → fs_is_dir (files w') p = false).
Proof.
  intros Hn Hr Hp Hgo.
  rewrite (api_projects_delete_removes _ _ _ _ _ Hn Hr Hp Hgo).
  pose proof (retarget_active_outcome (config_of w) (Str.strip name) "Default"
                (set_files w1 (fs_remove_tree (files w1) p))) as [Ho Hc].
  destruct (retarget_active _ _ _ _) as [[[]|e] w2]; simpl in *;
    eexists _, _; (split; [reflexivity|]); (split; [auto|]).
  all: repeat split.
  all: try (intros q Hq Hne; rewrite (Ho q Hne), fs_lookup_remove_tree;
            first [ apply under_true in Hq | apply under_false in Hq ];
            now rewrite Hq).
  all: intros Hne; unfold fs_is_dir; destruct p as [|c p]; [done|];
    destruct (decide (c :: p = CONFIG_PATH)) as [E|E].
  all: try (rewrite (Ho _ E), fs_lookup_remove_tree;
            now rewrite (proj2 (under_true _ _)) by reflexivity).
  all: rewrite E; destruct Hc as [Hc|[c' Hc]]; rewrite Hc; [|reflexivity].
  all: rewrite fs_lookup_remove_tree, <- E;
    now rewrite (proj2 (under_true _ _)) by reflexivity.
Qed.

(** X12. [api_projects_delete] (lines 517-544) guards the Default
    project by the spelling of the name only: a forced delete under a name
    that is not reserved but that [project_path] leads to the Default
    directory (the empty name, for one) removes that directory, which
    [ensure_default_project] had just made sure of. *)
Theorem default_project_deleted_under_other_name
    (d : list (string * pyval)) (name : string) (w : world) def w0 w1 :
  assoc_get d "name" = Some (PyStr name) →
  is_reserved_project name = false →
  py_bool (default PyNone (assoc_get d "force")) = true →
  ensure_default_project (config_of w) w = (Ok def, w0) →
  project_path (PyStr (Str.strip name)) (config_of w) w = (Ok def, w1) →
  ∃ r w',
    api_projects_delete (Some (PyDict d)) w = (Ok r, w')
    ∧ fs_is_dir (files w0) def = true
    ∧ fs_is_dir (files w') def = false.
Proof.
  intros Hn Hr Hf Hd Hp.
  rewrite (api_projects_delete_removes _ _ _ _ _ Hn Hr Hp (or_introl Hf)).
  apply ensure_default_project_inv in Hd as (base & Hb & ->).
  apply ensure_project_base_grown in Hb as (_ & _ & D).
  pose proof (retarget_active_outcome (config_of w) (Str.strip name) "Default"
                (set_files w1 (fs_remove_tree (files w1) (base ++ ["Default"]))))
    as [Ho Hc].
  set (def := base ++ ["Default"]) in *.
  assert (∀ w2, (∀ q, q ≠ CONFIG_PATH →
                      fs_lookup (files w2) q
                      = fs_lookup (fs_remove_tree (files w1) def) q) →
                (fs_lookup (files w2) CONFIG_PATH
                 = fs_lookup (fs_remove_tree (files w1) def) CONFIG_PATH
                 ∨ ∃ c, fs_lookup (files w2) CONFIG_PATH = Some (File c)) →
                fs_is_dir (files w2) def = false) as Hgone.
  { intros w2 Ho2 Hc2. unfold fs_is_dir.
    destruct def as [|c p] eqn:Edef; [now destruct base|]. rewrite <- Edef in *.
    destruct (decide (def = CONFIG_PATH)) as [E|E].
    - rewrite E. destruct Hc2 as [Hc2|[c' Hc2]]; rewrite Hc2; [|reflexivity].
      rewrite fs_lookup_remove_tree, <- E.
      now rewrite (proj2 (under_true _ _)) by reflexivity.
    - rewrite (Ho2 _ E), fs_lookup_remove_tree.
      now rewrite (proj2 (under_true _ _)) by reflexivity. }
  destruct (retarget_active _ _ _ _) as [[[]|e] w2]; simpl in *;
    eexists _, _; (split; [reflexivity|]); (split; [exact D|]);
    now apply Hgone.
Qed.



Lemma config_of_grown w w' : grown (files w) (files w') → config_of w' = config_of w.
Proof. intros G. unfold config_of. now rewrite (load_config_grown _ _ G). Qed.

Lemma fs_is_dir_exists (t : fs) p : fs_is_dir t p = true → fs_exists t p = true.
Proof.
  unfold fs_is_dir, fs_exists. destruct p; [reflexivity|].
  destruct (fs_lookup t _) as [[|]|]; try discriminate.
  intros _. apply bool_decide_eq_true. eauto.
Qed.

Lemma project_path_no_create_eq project cfg w base w0 s :
  ensure_project_base cfg w = (Ok base, w0) →
  py_strip (py_or project (PyStr "Default")) = Ok s →
  escapes base (resolve (Path.join base (safe_name s))) = false →
  project_path_no_create project cfg w
  = (Ok (resolve (Path.join base (safe_name s))), w0).
Proof.
  intros E0 E1 E2. unfold project_path_no_create.
  rewrite (bind_ok _ _ _ _ _ E0). unfold bind at 1, lift at 1. now rewrite E1, E2.
Qed.

Lemma project_path_no_create_stable project cfg w p w0 w' :
  project_path_no_create project cfg w = (Ok p, w0) →
  grown (files w0) (files w') →
  project_path_no_create project cfg w' = (Ok p, w').
Proof.
  intros H G. apply project_path_no_create_inv in H as (base & s & E0 & E1 & -> & E2).
  apply (project_path_no_create_eq _ _ _ base); try assumption.
  eapply ensure_project_base_stable; eassumption.
Qed.

Lemma ensure_default_project_stable cfg w def w0 w' :
  ensure_default_project cfg w = (Ok def, w0) →
  grown (files w0) (files w') →
  ensure_default_project cfg w' = (Ok def, w').
Proof.
  intros H G. apply ensure_default_project_inv in H as (base & Hb & ->).
  apply ensure_default_project_eq. eapply ensure_project_base_stable; eassumption.
Qed.

Lemma ensure_default_project_grown cfg w def w0 :
  ensure_default_project cfg w = (Ok def, w0) → grown (files w) (files w0).
Proof.
  intros H. apply ensure_default_project_inv in H as (base & Hb & ->).
  now apply ensure_project_base_grown in Hb as (G & _).
Qed.

Lemma stripped_field_inv data k s w w' :
  stripped_field data k w = (Ok s, w') → w' = w.
Proof.
  unfold stripped_field. intros H. apply bind_inv in H as (v & w1 & E & H).
  apply lift_inv in E as [_ ->]. now apply lift_inv in H as [_ ->].
Qed.

(** The create route, read backwards from a reply with status 200. *)
Lemma api_projects_create_inv req w r w' :
  api_projects_create req w = (Ok r, w') → reply_status r = 200%Z →
  ∃ data def w0 name p,
    req = Some data
    ∧ ensure_default_project (config_of w) w = (Ok def, w0)
    ∧ stripped_field data "name" w0 = (Ok name, w0)
    ∧ is_reserved_project name = false
    ∧ project_path_no_create (PyStr name) (config_of w) w0 = (Ok p, w0)
    ∧ fs_exists (files w0) p = false
    ∧ mkdir_parents p w0 = (Ok tt, w')
    ∧ r = Reply (PyDict [("ok", PyBool true); ("name", PyStr (Path.name p))]) 200.
Proof.
  unfold api_projects_create. intros H Hs.
  rewrite (bind_ok _ _ _ _ _ (load_config_is w)) in H.
  apply bind_inv in H as (def & w0 & Ed & H).
  destruct req as [data|]; [|discriminate].
  unfold get_json in H. rewrite (bind_ok _ _ w0 data w0) in H by reflexivity.
  apply bind_inv in H as (name & w1 & En & H).
  pose proof (stripped_field_inv _ _ _ _ _ En) as ->.
  destruct (is_reserved_project name) eqn:Er.
  { apply ret_inv in H as [-> _]. discriminate. }
  apply bind_inv in H as (p & w1 & Ep & H).
  assert (w1 = w0) as ->.
  { pose proof (project_path_no_create_stable _ _ _ _ _ w0 Ep) as Hst.
    apply project_path_no_create_inv in Ep as (base & s & E0 & _).
    apply ensure_default_project_inv in Ed as (base' & Eb & _).
    pose proof (ensure_project_base_stable _ _ _ _ w0 Eb (grown_refl _)) as E0'.
    congruence. }
  unfold bind at 1, get_files at 1 in H.
  destruct (fs_exists (files w0) p) eqn:Ex.
  { apply ret_inv in H as [-> _]. discriminate. }
  apply bind_inv in H as ([] & w2 & Em & H). apply ret_inv in H as [-> ->].
  exists data, def, w0, name, p. repeat split; assumption.
Qed.

(** X13. When [api_projects_create] (lines 455-469) answers with status
    200, it names a directory that did not exist before the request and
    exists after it, every other path holds what it held or is a new
    directory, and the same request made again is refused with 400
    "Project already exists" and changes nothing. *)
Theorem created_project_is_new (req : option pyval) (w : world) r w' :
  api_projects_create req w = (Ok r, w') →
  reply_status r = 200%Z →
  ∃ p,
    r = Reply (PyDict [("ok", PyBool true); ("name", PyStr (Path.name p))]) 200
    ∧ fs_exists (files w) p = false
    ∧ fs_is_dir (files w') p = true
    ∧ grown (files w) (files w')
    ∧ api_projects_create req w' = (Ok (refused "Project already exists" 400), w').
Proof.
  intros H Hs.
  apply api_projects_create_inv in H
    as (data & def & w0 & name & p & -> & Ed & En & Er & Ep & Ex & Em & ->);
    [|exact Hs].
  pose proof (ensure_default_project_grown _ _ _ _ Ed) as G0.
  pose proof (mkdir_parents_grown _ _ _ Em) as [G1 D].
  pose proof (grown_trans _ _ _ G0 G1) as G.
  exists p. repeat split; try assumption.
  - destruct (fs_exists (files w) p) eqn:E; [|reflexivity].
    apply (grown_exists _ _ _ G0) in E. congruence.
  - unfold api_projects_create.
    rewrite (bind_ok _ _ _ _ _ (load_config_is w')), (config_of_grown _ _ G).
    rewrite (bind_ok _ _ _ _ _ (ensure_default_project_stable _ _ _ _ w' Ed G1)).
    unfold get_json. rewrite (bind_ok _ _ w' data w') by reflexivity.
    assert (stripped_field data "name" w' = (Ok name, w')) as En'.
    { revert En. unfold stripped_field, bind, lift.
      destruct (py_get data "name" PyNone); [|discriminate].
      destruct (py_strip _); [|discriminate]. now intros [= ->]. }
    rewrite (bind_ok _ _ _ _ _ En'), Er.
    rewrite (bind_ok _ _ _ _ _ (project_path_no_create_stable _ _ _ _ _ w' Ep G1)).
    unfold bind, get_files. now rewrite (fs_is_dir_exists _ _ D).
Qed.



(** *** Renaming *)

Lemma rebase_under src dst k : src `prefix_of` k → dst `prefix_of` rebase src dst k.
Proof. intros _. unfold rebase. now apply prefix_app_r. Qed.

(** After a rename nothing is left at the source or below it. *)
Lemma fs_lookup_rename_src (t : fs) src dst q :
  ¬ src `prefix_of` dst → src `prefix_of` q →
  fs_lookup (fs_rename t src dst) q = None.
Proof.
  intros Hsd Hq. unfold fs_rename, fs_remove_tree.
  induction t as [|[k m] t IH]; simpl; [reflexivity|].
  destruct (under dst k) eqn:Ek; simpl; [exact IH|].
  destruct (under src k) eqn:Es; simpl.
  - rewrite IH. rewrite bool_decide_eq_false_2; [reflexivity|].
    intros E. apply under_true in Es. apply under_false in Ek.
    pose proof (rebase_under src dst k Es) as Hd. rewrite E in Hd.
    destruct (prefix_weak_total _ _ _ Hq Hd) as [H|H]; [contradiction|].
    apply Ek. transitivity src; assumption.
  - rewrite IH. rewrite bool_decide_eq_false_2; [reflexivity|].
    intros ->. apply under_false in Es. contradiction.
Qed.

(** After a rename the destination holds the tree the source held. *)
Lemma fs_lookup_rename_tree (t : fs) src dst k :
  ¬ src `prefix_of` dst → ¬ dst `prefix_of` src →
  fs_lookup (fs_rename t src dst) (dst ++ k) = fs_lookup t (src ++ k).
Proof.
  intros Hsd Hds. unfold fs_rename, fs_remove_tree.
  induction t as [|[q m] t IH]; simpl; [reflexivity|].
  destruct (under dst q) eqn:Eq; simpl.
  - rewrite IH. rewrite bool_decide_eq_false_2; [reflexivity|].
    intros ->. apply under_true in Eq.
    destruct (prefix_weak_total src dst (src ++ k)) as [H|H];
      [now apply prefix_app_r|exact Eq|contradiction|contradiction].
  - destruct (under src q) eqn:Es; simpl.
    + apply under_true in Es. destruct Es as [rest ->]. rewrite IH.
      unfold rebase. rewrite drop_app_length.
      destruct (decide (rest = k)) as [->|Hne].
      * now rewrite !bool_decide_eq_true_2.
      * rewrite !bool_decide_eq_false_2; [reflexivity| |];
          intros E; now apply app_inv_head in E.
    + rewrite IH.
      rewrite (bool_decide_eq_false_2 (q = dst ++ k)).
      * rewrite (bool_decide_eq_false_2 (q = src ++ k)); [reflexivity|].
        intros ->. apply under_false in Es. apply Es. now apply prefix_app_r.
      * intros ->. apply under_false in Eq. apply Eq. now apply prefix_app_r.
Qed.

Lemma os_rename_inv src dst w w' :
  os_rename src dst w = (Ok tt, w') →
  fs_exists (files w) src = true
  ∧ (src = dst ∧ w' = w
     ∨ src ≠ dst ∧ ¬ src `prefix_of` dst
       ∧ w' = set_files w (fs_rename (files w) src dst)).
Proof.
  unfold os_rename, bind, get_files, raise, ret, put_files.
  destruct src as [|a src]; [discriminate|].
  destruct dst as [|b dst]; [discriminate|].
  destruct (fs_exists (files w) (a :: src)); [|discriminate]. simpl negb. cbv iota.
  intros H. split; [reflexivity|]. revert H.
  destruct (bool_decide (a :: src = b :: dst)) eqn:E.
  { apply bool_decide_eq_true in E. intros [= <-]. now left. }
  apply bool_decide_eq_false in E.
  destruct (negb (fs_is_dir (files w) (Path.parent (b :: dst)))); [discriminate|].
  destruct (under (a :: src) (b :: dst)) eqn:Eu; [discriminate|].
  apply under_false in Eu.
  destruct (fs_is_dir (files w) (a :: src)).
  - destruct (fs_is_file (files w) (b :: dst)); [discriminate|].
    destruct (fs_children (files w) (b :: dst)); [|discriminate].
    intros [= <-]. right. auto.
  - destruct (fs_is_dir (files w) (b :: dst)); [discriminate|].
    intros [= <-]. right. auto.
Qed.

(** The sweep of lines 503-510 finds nothing to do when the old
    directory is not there. *)
Lemma sweep_reappeared_idle src w :
  fs_is_dir (files w) src = false → sweep_reappeared src w = (Ok tt, w).
Proof.
  intros E. unfold sweep_reappeared, try_except, bind, get_files.
  destruct (fs_exists (files w) src); [|reflexivity].
  unfold iterdir, bind, get_files. rewrite E.
  now destruct (fs_exists (files w) src).
Qed.

(** Once the source has moved, updating the active project does not
    bring a directory back in its place. *)
Lemma renamed_source_stays_away cfg name to (t : fs) src dst w0 w2 :
  ¬ src `prefix_of` dst →
  retarget_active cfg name to (set_files w0 (fs_rename t src dst)) = (Ok tt, w2) →
  fs_is_dir (files w2) src = false.
Proof.
  intros Hsd Ea.
  pose proof (retarget_active_outcome cfg name to (set_files w0 (fs_rename t src dst)))
    as [Hout Hcfg].
  rewrite Ea in Hout, Hcfg. simpl in Hout, Hcfg.
  assert (src ≠ []) as Hne by (intros ->; apply Hsd; now exists dst).
  assert (fs_is_dir (files w2) src
          = match fs_lookup (files w2) src with Some Dir => true | _ => false end)
    as -> by (unfold fs_is_dir; now destruct src).
  destruct (decide (src = CONFIG_PATH)) as [E|E].
  - rewrite E. destruct Hcfg as [Hc|[c' Hc]]; rewrite Hc; [|reflexivity].
    rewrite <- E. now rewrite fs_lookup_rename_src.
  - rewrite (Hout _ E). now rewrite fs_lookup_rename_src.
Qed.

Lemma project_path_no_create_after_default project cfg w p w0 :
  project_path_no_create project cfg w = (Ok p, w0) →
  ∃ def,
    ensure_default_project cfg w = (Ok def, w0)
    ∧ project_path_no_create project cfg w0 = (Ok p, w0).
Proof.
  intros H. pose proof (project_path_no_create_stable _ _ _ _ _ w0 H (grown_refl _)) as S.
  apply project_path_no_create_inv in H as (base & s & E0 & _).
  exists (base ++ ["Default"]). split; [now apply ensure_default_project_eq|exact S].
Qed.

(** X14. When [api_projects_rename] (lines 471-515) answers [ok], the
    old path existed and the new one did not, nothing is left at or
    below the old path, what was at or below the old path is at the same
    place below the new one (provided the new path is not an ancestor of
    the old), and every path outside both, the configuration file apart,
    holds what it held; the sweep of lines 503-510 finds nothing to
    remove. *)
Theorem renamed_project_is_moved
    (d : list (string * pyval)) (old new : string) (w : world) src dst w0 w' :
  assoc_get d "old" = Some (PyStr old) →
  assoc_get d "new" = Some (PyStr new) →
  project_path_no_create (PyStr (Str.strip old)) (config_of w) w = (Ok src, w0) →
  project_path_no_create (PyStr (Str.strip new)) (config_of w) w = (Ok dst, w0) →
  api_projects_rename (Some (PyDict d)) w = (Ok ok_reply, w') →
  fs_exists (files w0) src = true
  ∧ fs_exists (files w0) dst = false
  ∧ (∀ q, src `prefix_of` q → q ≠ CONFIG_PATH → fs_lookup (files w') q = None)
  ∧ (¬ dst `prefix_of` src → ∀ k, dst ++ k ≠ CONFIG_PATH →
       fs_lookup (files w') (dst ++ k) = fs_lookup (files w0) (src ++ k))
  ∧ (∀ q, ¬ src `prefix_of` q → ¬ dst `prefix_of` q → q ≠ CONFIG_PATH →
       fs_lookup (files w') q = fs_lookup (files w0) q).
Proof.
  intros Ho Hn Hs Hd H.
  apply project_path_no_create_after_default in Hs as (def & Ed & Hs).
  apply project_path_no_create_after_default in Hd as (_ & _ & Hd).
  unfold api_projects_rename in H.
  rewrite (route_prefix (λ cfg data, old <- stripped_field data "old" ;; _) _ _ _ _ Ed) in H.
  rewrite (bind_ok _ _ _ _ _ (stripped_field_str _ _ _ _ Ho)) in H.
  rewrite (bind_ok _ _ _ _ _ (stripped_field_str _ _ _ _ Hn)) in H.
  rewrite !is_reserved_strip in H.
  destruct (is_reserved_project old); [discriminate|].
  destruct (is_reserved_project new); [discriminate|].
  rewrite (bind_ok _ _ _ _ _ Hs), (bind_ok _ _ _ _ _ Hd) in H.
  unfold bind at 1, get_files at 1 in H.
  destruct (fs_exists (files w0) src) eqn:Xs; [|discriminate].
  destruct (fs_exists (files w0) dst) eqn:Xd; [discriminate|].
  simpl in H.
  destruct (bool_decide (src = dst)) eqn:Esd.
  { apply bool_decide_eq_true in Esd. congruence. }
  unfold try_except in H.
  destruct (bind (os_rename src dst) _ w0) as [[r|e] w3] eqn:B; [|discriminate].
  injection H as -> ->.
  apply bind_inv in B as ([] & w1 & Er & B).
  apply bind_inv in B as ([] & w2 & Ea & B).
  apply bind_inv in B as ([] & w3 & Ew & B). apply ret_inv in B as [_ ->].
  apply os_rename_inv in Er as [_ [[E _]|(_ & Hsd & ->)]].
  { apply bool_decide_eq_false in Esd. contradiction. }
  pose proof (retarget_active_outcome (config_of w) (Str.strip old) (Str.strip new)
                (set_files w0 (fs_rename (files w0) src dst))) as [Hout _].
  rewrite Ea in Hout. simpl in Hout.
  pose proof (renamed_source_stays_away _ _ _ _ _ _ _ _ Hsd Ea) as Hgone.
  rewrite (sweep_reappeared_idle _ _ Hgone) in Ew. injection Ew as <-.
  repeat split.
  - intros q Hq Hne. rewrite (Hout _ Hne). now apply fs_lookup_rename_src.
  - intros Hds k Hne. rewrite (Hout _ Hne). now apply fs_lookup_rename_tree.
  - intros q Hq1 Hq2 Hne. rewrite (Hout _ Hne). now apply fs_lookup_rename_other.
Qed.



(** *** The active project *)

Lemma retarget_active_follows c name to w w' :
  assoc_get c "active_project" = Some (PyStr name) →
  retarget_active (PyDict c) name to w = (Ok tt, w') →
  config_of w' = PyDict (assoc_set c "active_project" (PyStr to)).
Proof.
  intros Ha H. unfold retarget_active in H.
  unfold bind at 1, lift at 1 in H. rewrite py_get_dict, Ha in H. simpl in H.
  rewrite bool_decide_eq_true_2 in H by reflexivity.
  unfold bind at 1, lift at 1 in H. simpl in H.
  unfold save_config in H. apply write_text_inv in H.
  unfold config_of.
  now rewrite (load_config_stored (files w) _ w') by (now rewrite H).
Qed.

(** X15. When the project that is deleted or renamed is the active
    project of the configuration and the route answers [ok], the stored
    configuration has [Default], respectively the new name, as its active
    project and is otherwise unchanged (lines 497-500 and 537-539). *)
Theorem active_project_follows
    (c d : list (string * pyval)) (w w' : world) :
  config_of w = PyDict c →
  (∀ name,
      assoc_get d "name" = Some (PyStr name) →
      assoc_get c "active_project" = Some (PyStr (Str.strip name)) →
      api_projects_delete (Some (PyDict d)) w = (Ok ok_reply, w') →
      config_of w' = PyDict (assoc_set c "active_project" (PyStr "Default")))
  ∧ (∀ old new,
      assoc_get d "old" = Some (PyStr old) →
      assoc_get d "new" = Some (PyStr new) →
      assoc_get c "active_project" = Some (PyStr (Str.strip old)) →
      api_projects_rename (Some (PyDict d)) w = (Ok ok_reply, w') →
      config_of w' = PyDict (assoc_set c "active_project" (PyStr (Str.strip new)))).
Proof.
  intros Hc. split.
  - intros name Hn Ha H. unfold api_projects_delete in H.
    rewrite (bind_ok _ _ _ _ _ (load_config_is w)) in H.
    apply bind_inv in H as (def & w0 & Ed & H).
    unfold get_json in H. rewrite (bind_ok _ _ w0 (PyDict d) w0) in H by reflexivity.
    rewrite (bind_ok _ _ _ _ _ (stripped_field_str _ _ _ _ Hn)) in H.
    destruct (is_reserved_project (Str.strip name)); [discriminate|].
    apply bind_inv in H as (f & w1 & Ef & H). apply lift_inv in Ef as [_ ->].
    apply bind_inv in H as (p & w1 & Ep & H).
    unfold try_except in H.
    destruct (bind _ _ w1) as [[r|e] w2] eqn:B; [|discriminate].
    injection H as -> ->.
    apply bind_inv in B as (removed & w2 & Er & B).
    destruct removed; [|discriminate].
    apply bind_inv in B as ([] & w3 & Ea & B). apply ret_inv in B as [_ ->].
    rewrite Hc in Ea. now apply (retarget_active_follows _ _ _ _ _ Ha Ea).
  - intros old new Ho Hn Ha H. unfold api_projects_rename in H.
    rewrite (bind_ok _ _ _ _ _ (load_config_is w)) in H.
    apply bind_inv in H as (def & w0 & Ed & H).
    unfold get_json in H. rewrite (bind_ok _ _ w0 (PyDict d) w0) in H by reflexivity.
    rewrite (bind_ok _ _ _ _ _ (stripped_field_str _ _ _ _ Ho)) in H.
    rewrite (bind_ok _ _ _ _ _ (stripped_field_str _ _ _ _ Hn)) in H.
    destruct (is_reserved_project (Str.strip old)); [discriminate|].
    destruct (is_reserved_project (Str.strip new)); [discriminate|].
    apply bind_inv in H as (src & w1 & Es & H).
    apply bind_inv in H as (dst & w2 & Et & H).
    unfold bind at 1, get_files at 1 in H.
    destruct (fs_exists (files w2) src) eqn:Xs; [|discriminate].
    destruct (fs_exists (files w2) dst) eqn:Xd; [discriminate|].
    simpl in H.
    destruct (bool_decide (src = dst)) eqn:Esd.
    { apply bool_decide_eq_true in Esd. congruence. }
    apply bool_decide_eq_false in Esd.
    unfold try_except in H.
    destruct (bind (os_rename src dst) _ w2) as [[r|e] w3] eqn:B; [|discriminate].
    injection H as -> ->.
    apply bind_inv in B as ([] & w3 & Er & B).
    apply bind_inv in B as ([] & w4 & Ea & B).
    apply bind_inv in B as ([] & w5 & Ew & B). apply ret_inv in B as [_ ->].
    apply os_rename_inv in Er as [_ [[E _]|(_ & Hsd & ->)]]; [contradiction|].
    pose proof (renamed_source_stays_away _ _ _ _ _ _ _ _ Hsd Ea) as Hgone.
    rewrite (sweep_reappeared_idle _ _ Hgone) in Ew. injection Ew as <-.
    rewrite Hc in Ea. now apply (retarget_active_follows _ _ _ _ _ Ha Ea).
Qed.

(** *** The file routes *)

Lemma drop_entries_filter key name l kept :
  drop_entries key name l = Ok kept →
  kept = List.filter (λ e, negb (carries key name e)) l.
Proof.
  revert kept. induction l as [|e l IH]; intros kept; cbn [drop_entries].
  - now intros [= <-].
  - unfold carries at 1. cbn [List.filter].
    destruct (py_get e key PyNone) as [v|x]; [|discriminate].
    destruct (drop_entries key name l) as [l'|x]; [|discriminate].
    intros [= <-]. rewrite (IH l' eq_refl).
    now destruct (py_eq_str v name).
Qed.

Lemma retarget_map old new l l' :
  retarget old new l = Ok l' → l' = List.map (repointed old new) l.
Proof.
  revert l'. induction l as [|e l IH]; intros l'; cbn [retarget].
  - now intros [= <-].
  - destruct (py_get e "file" PyNone) as [v|x] eqn:Eg; [|discriminate].
    destruct (if py_eq_str v old then _ else _) as [e'|x] eqn:Ee; [|discriminate].
    destruct (retarget old new l) as [l0|x]; [|discriminate].
    intros [= <-]. cbn [List.map]. rewrite (IH l0 eq_refl). f_equal.
    unfold repointed, carries. rewrite Eg.
    destruct e; try discriminate. simpl in Ee.
    destruct (py_eq_str v old); now injection Ee as <-.
Qed.

Lemma unlink_inv p w w' :
  unlink p w = (Ok tt, w') →
  fs_exists (files w) p = true ∧ w' = set_files w (fs_remove (files w) p).
Proof.
  unfold unlink, bind, get_files, raise, put_files.
  destruct (fs_is_dir (files w) p); [discriminate|].
  destruct (fs_exists (files w) p); [|discriminate].
  now intros [= <-].
Qed.

Lemma read_history_result p w : read_history p w = (fst (read_history p w), w).
Proof.
  unfold read_history, bind, get_files, ret.
  destruct (fs_exists _ _); [|reflexivity].
  now destruct (fs_lookup _ _) as [[|[|]]|].
Qed.

Lemma ledger_same (t t' : fs) p :
  fs_lookup t' (history_file p) = fs_lookup t (history_file p) →
  ledger t' p = ledger t p.
Proof. unfold ledger. now intros ->. Qed.

Lemma ledger_stored (t : fs) p l :
  ledger (fs_store t (history_file p) (File (Json (PyList l)))) p = Some l.
Proof. unfold ledger. now rewrite fs_lookup_store_eq. Qed.

Lemma requested_project_inv data cfg w proj w' :
  requested_project data cfg w = (Ok proj, w') → w' = w.
Proof. unfold requested_project. intros H. now apply lift_inv in H as [_ ->]. Qed.

Lemma resolved_field_str p d k s w :
  assoc_get d k = Some (PyStr s) →
  resolved_field p (PyDict d) k w = (Ok (resolve (Path.join p s)), w).
Proof.
  intros E. unfold resolved_field, bind, lift. rewrite py_get_dict, E. reflexivity.
Qed.

(** X16. When [api_files_delete] (lines 562-579) answers [ok], the file
    it removed lay at or below the project directory and existed, every
    path but that file and the history file holds what it held, and,
    unless the history file itself was the target, the file is gone and
    the history is the former history without the entries whose [file]
    is the name of the removed file, in the same order. *)
Theorem deleted_file_leaves_history
    (d : list (string * pyval)) (name : string) (w w' : world) :
  assoc_get d "name" = Some (PyStr name) →
  api_files_delete (Some (PyDict d)) w = (Ok ok_reply, w') →
  ∃ proj p w1,
    requested_project (PyDict d) (config_of w) w = (Ok proj, w)
    ∧ project_path proj (config_of w) w = (Ok p, w1)
    ∧ let target := resolve (Path.join p name) in
      p `prefix_of` target
      ∧ fs_exists (files w1) target = true
      ∧ (∀ q, q ≠ target → q ≠ history_file p →
              fs_lookup (files w') q = fs_lookup (files w1) q)
      ∧ (target ≠ history_file p →
         fs_lookup (files w') target = None
         ∧ ∀ l, ledger (files w1) p = Some l →
                ledger (files w') p
                = Some (List.filter (λ e, negb (carries "file" (Path.name target) e)) l)).
Proof.
  intros Hn H. unfold api_files_delete in H.
  rewrite (bind_ok _ _ _ _ _ (load_config_is w)) in H.
  unfold get_json in H. rewrite (bind_ok _ _ w (PyDict d) w) in H by reflexivity.
  apply bind_inv in H as (proj & w0 & Ej & H).
  pose proof (requested_project_inv _ _ _ _ _ Ej) as ->.
  apply bind_inv in H as (p & w1 & Ep & H).
  rewrite (bind_ok _ _ _ _ _ (resolved_field_str p _ _ _ w1 Hn)) in H.
  exists proj, p, w1. split; [exact Ej|]. split; [exact Ep|].
  set (target := resolve (Path.join p name)) in *. cbv zeta.
  destruct (escapes p target) eqn:Esc; [discriminate|].
  unfold try_except in H.
  destruct (bind (unlink target) _ w1) as [[r|e] w2] eqn:B; [|discriminate].
  injection H as -> ->.
  apply bind_inv in B as ([] & w2 & Eu & B).
  apply unlink_inv in Eu as [Hex ->].
  apply bind_inv in B as (h & w3 & Eh & B).
  rewrite read_history_result in Eh. injection Eh as Eh <-.
  apply bind_inv in B as (items & w3 & Ei & B). apply lift_inv in Ei as [Ei ->].
  apply bind_inv in B as (kept & w3 & Ek & B). apply lift_inv in Ek as [Ek ->].
  apply bind_inv in B as ([] & w3 & Ew & B). apply ret_inv in B as [_ ->].
  unfold write_history in Ew. apply write_text_inv in Ew as ->. simpl.
  split; [now apply not_escapes_prefix|]. split; [exact Hex|]. split.
  - intros q Hq1 Hq2. rewrite fs_lookup_store_ne by congruence.
    rewrite fs_lookup_remove. now rewrite bool_decide_eq_false_2 by congruence.
  - intros Hne. split.
    + rewrite fs_lookup_store_ne by congruence.
      rewrite fs_lookup_remove. now rewrite bool_decide_eq_true_2.
    + intros l Hl. rewrite ledger_stored. f_equal.
      assert (ledger (fs_remove (files w1) target) p = Some l) as Hl'.
      { rewrite <- Hl. apply ledger_same. rewrite fs_lookup_remove.
        now rewrite bool_decide_eq_false_2. }
      pose proof (read_history_ledger p (set_files w1 (fs_remove (files w1) target)) l Hl')
        as Hr.
      rewrite Hr in Eh. simpl in Eh. injection Eh as <-. injection Ei as <-.
      now apply drop_entries_filter.
Qed.



Lemma parents_strict (base p : path) : base ∈ Path.parents p → base ≠ p.
Proof.
  unfold Path.parents. intros Hin E.
  apply list_elem_of_In, in_map_iff in Hin as (n & Hn & Hin).
  apply in_rev, in_seq in Hin. subst base.
  apply (f_equal length) in E. rewrite length_take in E. lia.
Qed.

Lemma retarget_history_list old new l h :
  retarget_history old new (PyList l) = Ok h →
  h = PyList (List.map (repointed old new) l).
Proof.
  unfold retarget_history, py_iter.
  destruct (retarget old new l) as [l'|x] eqn:E; [|discriminate].
  intros [= <-]. now rewrite (retarget_map _ _ _ _ E).
Qed.

(** X17. When [api_files_rename] (lines 581-601) answers [ok], source
    and destination lay strictly below the project directory and the
    source existed; if neither is the history file or an ancestor of it,
    the source is gone and the destination holds what the source held
    (for distinct paths, the destination not an ancestor of the source),
    and the history is the former history with [file] set to the new name
    in the entries that carried the old one. *)
Theorem renamed_file_is_retargeted
    (d : list (string * pyval)) (s t : string) (w w' : world) :
  assoc_get d "src" = Some (PyStr s) →
  assoc_get d "dst" = Some (PyStr t) →
  api_files_rename (Some (PyDict d)) w = (Ok ok_reply, w') →
  ∃ proj p w1,
    requested_project (PyDict d) (config_of w) w = (Ok proj, w)
    ∧ project_path proj (config_of w) w = (Ok p, w1)
    ∧ let src := resolve (Path.join p s) in
      let dst := resolve (Path.join p t) in
      p `prefix_of` src ∧ p ≠ src ∧ p `prefix_of` dst ∧ p ≠ dst
      ∧ fs_exists (files w1) src = true
      ∧ (¬ src `prefix_of` history_file p → ¬ dst `prefix_of` history_file p →
         (src ≠ dst → ¬ dst `prefix_of` src →
            fs_lookup (files w') src = None
            ∧ fs_lookup (files w') dst = fs_lookup (files w1) src)
         ∧ ∀ l, ledger (files w1) p = Some l →
                ledger (files w') p
                = Some (List.map (repointed (Path.name src) (Path.name dst)) l)).
Proof.
  intros Hs Ht H. unfold api_files_rename in H.
  rewrite (bind_ok _ _ _ _ _ (load_config_is w)) in H.
  unfold get_json in H. rewrite (bind_ok _ _ w (PyDict d) w) in H by reflexivity.
  apply bind_inv in H as (proj & w0 & Ej & H).
  pose proof (requested_project_inv _ _ _ _ _ Ej) as ->.
  apply bind_inv in H as (p & w1 & Ep & H).
  rewrite (bind_ok _ _ _ _ _ (resolved_field_str p _ _ _ w1 Hs)) in H.
  rewrite (bind_ok _ _ _ _ _ (resolved_field_str p _ _ _ w1 Ht)) in H.
  exists proj, p, w1. split; [exact Ej|]. split; [exact Ep|].
  set (src := resolve (Path.join p s)) in *.
  set (dst := resolve (Path.join p t)) in *. cbv zeta.
  destruct (negb (bool_decide (p ∈ Path.parents src))
            || negb (bool_decide (p ∈ Path.parents dst))) eqn:Ein; [discriminate|].
  apply orb_false_iff in Ein as [Es Ed].
  apply negb_false_iff, bool_decide_eq_true in Es.
  apply negb_false_iff, bool_decide_eq_true in Ed.
  unfold try_except in H.
  destruct (bind (os_rename src dst) _ w1) as [[r|e] w2] eqn:B; [|discriminate].
  injection H as -> ->.
  apply bind_inv in B as ([] & w2 & Er & B).
  apply bind_inv in B as (h & w3 & Eh & B).
  rewrite read_history_result in Eh. injection Eh as Eh <-.
  apply bind_inv in B as (h' & w3 & Ei & B). apply lift_inv in Ei as [Ei ->].
  apply bind_inv in B as ([] & w3 & Ew & B). apply ret_inv in B as [_ ->].
  unfold write_history in Ew. apply write_text_inv in Ew as ->. simpl.
  apply os_rename_inv in Er as [Hex Hmv].
  split; [now apply parents_prefix|]. split; [now apply parents_strict|].
  split; [now apply parents_prefix|]. split; [now apply parents_strict|].
  split; [exact Hex|].
  intros Hsh Hdh.
  assert (src ≠ history_file p) as Hs1 by (intros E; apply Hsh; now rewrite E).
  assert (dst ≠ history_file p) as Hd1 by (intros E; apply Hdh; now rewrite E).
  assert (fs_lookup (files w2) (history_file p) = fs_lookup (files w1) (history_file p))
    as Hhf.
  { destruct Hmv as [[_ ->]|(_ & _ & ->)]; [reflexivity|]. simpl.
    now apply fs_lookup_rename_other. }
  split.
  - intros Hne Hds. destruct Hmv as [[E _]|(_ & Hsd & ->)]; [contradiction|]. simpl.
    rewrite !fs_lookup_store_ne by congruence. split.
    + now apply fs_lookup_rename_src.
    + now apply fs_lookup_rename_dst.
  - intros l Hl.
    assert (ledger (files w2) p = Some l) as Hl'
      by (rewrite <- Hl; now apply ledger_same).
    rewrite (read_history_ledger p w2 l Hl') in Eh. simpl in Eh. injection Eh as <-.
    apply retarget_history_list in Ei as ->. apply ledger_stored.
Qed.

(** *** Confinement of the file routes *)

Lemma confined_ret {A} p (a : A) : confined_to p (ret a).
Proof. now intros w q _. Qed.

Lemma confined_raise {A} p e : confined_to p (@raise _ A e).
Proof. now intros w q _. Qed.

Lemma confined_lift {A} p (r : res A) : confined_to p (lift r).
Proof. now intros w q _. Qed.

Lemma confined_bind {A B} p (m : M A) (k : A → M B) :
  confined_to p m → (∀ a, confined_to p (k a)) → confined_to p (bind m k).
Proof.
  intros Hm Hk w q Hq. unfold bind. specialize (Hm w q Hq).
  destruct (m w) as [[a|e] w1]; simpl in *; [|exact Hm].
  now rewrite (Hk a w1 q Hq).
Qed.

Lemma confined_try_except {A} p (m : M A) (h : exn → M A) :
  confined_to p m → (∀ e, confined_to p (h e)) → confined_to p (try_except m h).
Proof.
  intros Hm Hh w q Hq. unfold try_except. specialize (Hm w q Hq).
  destruct (m w) as [[a|e] w1]; simpl in *; [exact Hm|].
  now rewrite (Hh e w1 q Hq).
Qed.

Lemma confined_read_history p d : confined_to p (read_history d).
Proof. intros w q _. now rewrite read_history_result. Qed.

Lemma confined_write_text p f c : p `prefix_of` f → confined_to p (write_text f c).
Proof.
  intros Hf w q Hq. destruct (write_text f c w) as [[[]|e] w1] eqn:E.
  - apply write_text_inv in E as ->. simpl. apply fs_lookup_store_ne.
    intros ->. contradiction.
  - now apply write_text_raise in E as ->.
Qed.

Lemma confined_unlink p f : p `prefix_of` f → confined_to p (unlink f).
Proof.
  intros Hf w q Hq. unfold unlink, bind, get_files, raise, put_files.
  destruct (fs_is_dir (files w) f); [reflexivity|].
  destruct (fs_exists (files w) f); [|reflexivity]. simpl.
  rewrite fs_lookup_remove. rewrite bool_decide_eq_false_2; [reflexivity|].
  intros ->. contradiction.
Qed.

Lemma confined_os_rename p src dst :
  p `prefix_of` src → p `prefix_of` dst → confined_to p (os_rename src dst).
Proof.
  intros Hs Hd w q Hq.
  assert (¬ src `prefix_of` q) as Hsq by (intros H; apply Hq; now transitivity src).
  assert (¬ dst `prefix_of` q) as Hdq by (intros H; apply Hq; now transitivity dst).
  unfold os_rename, bind, get_files, raise, ret, put_files.
  destruct src as [|a src]; [reflexivity|].
  destruct dst as [|b dst]; [reflexivity|].
  repeat match goal with
         | |- context [if ?c then _ else _] => destruct c; try reflexivity
         | |- context [match fs_children ?t ?x with _ => _ end] =>
             destruct (fs_children t x); try reflexivity
         end; simpl; now apply fs_lookup_rename_other.
Qed.

(** X18. Whatever the request holds and whether they answer [ok], refuse
    or fail, [api_files_delete] and [api_files_rename] (lines 562-601)
    change no path outside the project directory: the checks of lines 568
    and 588 confine both the removal and the move. *)
Theorem file_routes_stay_in_project (data : pyval) (w : world) proj p w1 :
  requested_project data (config_of w) w = (Ok proj, w) →
  project_path proj (config_of w) w = (Ok p, w1) →
  ∀ q, ¬ p `prefix_of` q →
       fs_lookup (files (snd (api_files_delete (Some data) w))) q
       = fs_lookup (files w1) q
       ∧ fs_lookup (files (snd (api_files_rename (Some data) w))) q
         = fs_lookup (files w1) q.
Proof.
  intros Ej Ep q Hq.
  assert (p `prefix_of` history_file p) as Hh by (now apply prefix_app_r).
  split.
  - unfold api_files_delete.
    rewrite (bind_ok _ _ _ _ _ (load_config_is w)).
    unfold get_json. rewrite (bind_ok _ _ w data w) by reflexivity.
    rewrite (bind_ok _ _ _ _ _ Ej), (bind_ok _ _ _ _ _ Ep).
    unfold bind at 1.
    destruct (resolved_field p data "name" w1) as [[target|e] w2] eqn:Et.
    2:{ simpl. revert Et. unfold resolved_field, bind, lift.
        destruct (py_get data "name" (PyStr "")); [|now intros [= _ <-]].
        destruct (py_div p _); [discriminate|now intros [= _ <-]]. }
    assert (w2 = w1) as ->.
    { revert Et. unfold resolved_field, bind, lift, ret.
      destruct (py_get data "name" (PyStr "")); [|discriminate].
      destruct (py_div p _); [|discriminate]. now intros [= _ <-]. }
    destruct (escapes p target) eqn:Esc; [reflexivity|].
    apply not_escapes_prefix in Esc.
    refine (confined_try_except p _ _ _ (λ _, confined_ret p _) w1 q Hq).
    apply confined_bind; [now apply confined_unlink|intros _].
    apply confined_bind; [apply confined_read_history|intros h].
    apply confined_bind; [apply confined_lift|intros items].
    apply confined_bind; [apply confined_lift|intros kept].
    apply confined_bind; [now apply confined_write_text|intros _].
    apply confined_ret.
  - unfold api_files_rename.
    rewrite (bind_ok _ _ _ _ _ (load_config_is w)).
    unfold get_json. rewrite (bind_ok _ _ w data w) by reflexivity.
    rewrite (bind_ok _ _ _ _ _ Ej), (bind_ok _ _ _ _ _ Ep).
    assert (∀ k, ∃ r, resolved_field p data k w1 = (r, w1)) as Hfield.
    { intros k. unfold resolved_field, bind, lift, ret.
      destruct (py_get data k (PyStr "")); [|now eexists].
      destruct (py_div p _); now eexists. }
    unfold bind at 1. destruct (Hfield "src") as [[src|e] ->]; [|reflexivity].
    unfold bind at 1. destruct (Hfield "dst") as [[dst|e] ->]; [|reflexivity].
    destruct (negb (bool_decide (p ∈ Path.parents src))
              || negb (bool_decide (p ∈ Path.parents dst))) eqn:Ein; [reflexivity|].
    apply orb_false_iff in Ein as [Es Ed].
    apply negb_false_iff, bool_decide_eq_true, parents_prefix in Es.
    apply negb_false_iff, bool_decide_eq_true, parents_prefix in Ed.
    refine (confined_try_except p _ _ _ (λ _, confined_ret p _) w1 q Hq).
    apply confined_bind; [now apply confined_os_rename|intros _].
    apply confined_bind; [apply confined_read_history|intros h].
    apply confined_bind; [apply confined_lift|intros h'].
    apply confined_bind; [now apply confined_write_text|intros _].
    apply confined_ret.
Qed.



(** *** Favorites *)

Lemma favorites_stored t v w :
  files w = fs_store t FAVORITES_FILE (File (Json v)) →
  api_favorites_get w = (Ok (Reply (PyDict [("favorites", v)]) 200), w).
Proof.
  intros E. unfold api_favorites_get, bind, get_files. rewrite E.
  assert (fs_exists (fs_store t FAVORITES_FILE (File (Json v))) FAVORITES_FILE = true)
    as ->.
  { unfold fs_exists. destruct FAVORITES_FILE; [reflexivity|].
    apply bool_decide_eq_true. rewrite fs_lookup_store_eq. eauto. }
  now rewrite fs_lookup_store_eq.
Qed.

(** X19. When [api_favorites] with method POST (lines 875-884) answers,
    either it answers [ok], the favorites of the request are what the
    method GET (lines 866-873) lists from then on and no other path has
    changed, or it answers with status 500 and nothing has changed. *)
Theorem favorites_saved_are_listed (req : option pyval) (w : world) r w' :
  api_favorites_post req w = (Ok r, w') →
  (r = ok_reply
   ∧ (∃ data favorites,
         req = Some data
         ∧ py_get data "favorites" (PyList []) = Ok favorites
         ∧ api_favorites_get w'
           = (Ok (Reply (PyDict [("favorites", favorites)]) 200), w'))
   ∧ ∀ q, q ≠ FAVORITES_FILE → fs_lookup (files w') q = fs_lookup (files w) q)
  ∨ (reply_status r = 500%Z ∧ w' = w).
Proof.
  unfold api_favorites_post. intros H.
  destruct req as [data|]; [|discriminate].
  unfold get_json in H. rewrite (bind_ok _ _ w data w) in H by reflexivity.
  apply bind_inv in H as (favorites & w0 & Ef & H). apply lift_inv in Ef as [Ef ->].
  unfold try_except, bind at 1 in H.
  destruct (write_text FAVORITES_FILE (Json favorites) w) as [[[]|e] w1] eqn:Ew.
  - apply write_text_inv in Ew as ->. injection H as <- <-. left.
    split; [reflexivity|]. split.
    + exists data, favorites. repeat split; [exact Ef|].
      now apply (favorites_stored (files w)).
    + intros q Hq. simpl. now apply fs_lookup_store_ne.
  - apply write_text_raise in Ew as ->. injection H as <- <-. now right.
Qed.

(** X20. [api_delete_favorite] (lines 886-897) always answers: with
    [ok], the stored list then being the former one without the entries
    whose [id] is the given one, in the same order, and no other path
    changed; or with status 500 or, when there is no favorites file, 404,
    and then nothing has changed. *)
Theorem favorite_delete_outcome
    (bad_json : string → exn) (favorite_id : string) (w : world) :
  ∃ r w',
    api_delete_favorite bad_json favorite_id w = (Ok r, w')
    ∧ ((r = ok_reply
        ∧ (∀ q, q ≠ FAVORITES_FILE → fs_lookup (files w') q = fs_lookup (files w) q)
        ∧ ∃ v l, fs_lookup (files w) FAVORITES_FILE = Some (File (Json v))
                 ∧ py_iter v = Ok l
                 ∧ fs_lookup (files w') FAVORITES_FILE
                   = Some (File (Json (PyList
                        (List.filter (λ f, negb (carries "id" favorite_id f)) l)))))
       ∨ (w' = w
          ∧ (reply_status r = 500%Z
             ∨ r = refused "Favorites file not found" 404
               ∧ fs_exists (files w) FAVORITES_FILE = false))).
Proof.
  unfold api_delete_favorite, bind at 1, get_files at 1.
  destruct (fs_exists (files w) FAVORITES_FILE) eqn:Ex.
  2:{ eexists _, _. split; [reflexivity|]. right. auto. }
  unfold try_except, bind at 1. unfold read_favorites, bind at 1, get_files at 1.
  destruct (fs_lookup (files w) FAVORITES_FILE) as [[|[s|v]]|] eqn:El;
    try (eexists _, _; split; [reflexivity|]; right; simpl; auto; fail).
  unfold ret at 1, bind at 1, lift at 1.
  destruct (py_iter v) as [l|e] eqn:Ei;
    [|eexists _, _; split; [reflexivity|]; right; simpl; auto].
  unfold bind at 1, lift at 1.
  destruct (drop_entries "id" favorite_id l) as [kept|e] eqn:Ek;
    [|eexists _, _; split; [reflexivity|]; right; simpl; auto].
  apply drop_entries_filter in Ek as ->.
  unfold bind at 1.
  destruct (write_text FAVORITES_FILE _ w) as [[[]|e] w1] eqn:Ew.
  - apply write_text_inv in Ew as ->. eexists _, _. split; [reflexivity|]. left.
    split; [reflexivity|]. split.
    + intros q Hq. simpl. now apply fs_lookup_store_ne.
    + exists v, l. repeat split; [exact Ei|]. simpl. apply fs_lookup_store_eq.
  - apply write_text_raise in Ew as ->.
    eexists _, _. split; [reflexivity|]. right. simpl. auto.
Qed.



(** *** The run *)

Lemma build_infer_cmd_frame (args_map : gmap string pyval) tmp_outdir w :
  snd (build_infer_cmd args_map tmp_outdir w) = w.
Proof.
  unfold build_infer_cmd.
  destruct (sys_executable_pure w) as [exe E]. rewrite (bind_ok _ _ _ _ _ E).
  unfold bind, lift, ret.
  repeat match goal with
         | |- context [match ?x with Ok _ => _ | Raise _ => _ end] =>
             destruct x; try reflexivity
         | |- context [match ?x with Some _ => _ | None => _ end] =>
             destruct x; try reflexivity
         end.
Qed.

Lemma py_int_raise v e :
  py_int v = Raise e →
  exn_kind_of e = ValueError ∨ exn_kind_of e = TypeError
  ∨ exn_kind_of e = OverflowError.
Proof.
  unfold py_int. destruct v; try (intros [= <-]; auto); try discriminate.
  - destruct (float_trunc f); [discriminate| |]; intros [= <-]; auto.
  - destruct (int_parse s); [discriminate|]. intros [= <-]; auto.
Qed.

Lemma py_float_raise v e :
  py_float v = Raise e →
  exn_kind_of e = ValueError ∨ exn_kind_of e = TypeError
  ∨ exn_kind_of e = OverflowError.
Proof.
  unfold py_float. destruct v; try (intros [= <-]; auto); try discriminate.
  - destruct (float_of_Z _); [discriminate|]. intros [= <-]; auto.
  - destruct (float_of_Z _); [discriminate|]. intros [= <-]; auto.
  - destruct (float_parse s); [discriminate|]. intros [= <-]; auto.
Qed.

(** X21. [build_infer_cmd] (lines 301-328) changes nothing on the
    server, whether it returns a command or raises; and it raises only a
    value, type or overflow error, from the conversion of a numeric
    parameter. *)
Theorem build_infer_cmd_reads_only
    (args_map : gmap string pyval) (tmp_outdir : path) (w : world) :
  snd (build_infer_cmd args_map tmp_outdir w) = w
  ∧ ∀ e, fst (build_infer_cmd args_map tmp_outdir w) = Raise e →
         exn_kind_of e = ValueError ∨ exn_kind_of e = TypeError
         ∨ exn_kind_of e = OverflowError.
Proof.
  split; [apply build_infer_cmd_frame|].
  unfold build_infer_cmd.
  destruct (sys_executable_pure w) as [exe E]. rewrite (bind_ok _ _ _ _ _ E).
  unfold bind at 1, lift at 1.
  destruct (py_int (dict_get_or args_map "audio_length" (PyInt 95))) as [al|x] eqn:E1.
  2:{ intros e [= <-]. now apply py_int_raise in E1. }
  unfold bind at 1, lift at 1.
  destruct (py_int (dict_get_or args_map "batch_infer_num" (PyInt 1))) as [b|x] eqn:E2.
  2:{ intros e [= <-]. now apply py_int_raise in E2. }
  unfold bind at 1.
  destruct (args_map !! "steps") as [v|].
  - unfold bind at 1, lift at 1.
    destruct (py_int v) as [st|x] eqn:E3.
    2:{ intros e [= <-]. now apply py_int_raise in E3. }
    unfold ret at 1. unfold bind at 1.
    destruct (args_map !! "cfg_strength") as [v'|]; [|discriminate].
    unfold bind at 1, lift at 1.
    destruct (py_float v') as [c|x] eqn:E4; [discriminate|].
    intros e [= <-]. now apply py_float_raise in E4.
  - unfold ret at 1. unfold bind at 1.
    destruct (args_map !! "cfg_strength") as [v'|]; [|discriminate].
    unfold bind at 1, lift at 1.
    destruct (py_float v') as [c|x] eqn:E4; [discriminate|].
    intros e [= <-]. now apply py_float_raise in E4.
Qed.

(** X22. When [run_infer] fails in lines 331-375, the exception is the
    one of [run_infer] and nothing is cleaned up. Either the process has
    not run (a parameter that is no number, an argument that is no
    string, an interpreter that cannot be started): then only directories
    have been added to the disk, and the scratch directory, if it could
    be made, is left there. Or the process has run and its output could
    not be decoded: then the exception is that [ValueError], the process
    found the scratch directory in place, and the disk is as the process
    left it. *)
Theorem failed_launch_leaves_scratch
    (args_map env_extra : gmap string pyval) (w : world) e w' :
  launch args_map env_extra w = (Raise e, w') →
  let tmp := Path.join TMP_DIR ("run-" +:+ Str.take 8 (uuid_hex (uuid_ctr w))) in
  run_infer args_map env_extra w = (Raise e, w')
  ∧ ((grown (files w) (files w')
      ∧ (fs_is_dir (files w') tmp = true ∨ files w' = files w))
     ∨ ∃ sp t msg eff,
         run_process sp t = Undecodable msg eff
         ∧ spawned w' = spawned w ++ [sp]
         ∧ grown (files w) t ∧ fs_is_dir t tmp = true
         ∧ e = Exn ValueError msg ∧ files w' = eff t).
Proof.
  intros H tmp. split.
  { unfold run_infer, bind. now rewrite H. }
  revert H. unfold launch. unfold bind at 1, fresh_hex at 1. fold tmp.
  set (w0 := World (lock w) (files w) (spawned w) (S (uuid_ctr w))).
  unfold bind at 1.
  destruct (mkdir_parents tmp w0) as [[[]|x] w1] eqn:E1.
  2:{ apply mkdir_parents_raise in E1 as [_ ->]. intros [= _ <-].
      left. split; [apply grown_refl|now right]. }
  pose proof (quiet_mkdir_parents tmp w0) as [_ S1]. rewrite E1 in S1.
  simpl in S1.
  apply mkdir_parents_grown in E1 as [G D]. change (files w0) with (files w) in G.
  unfold bind at 1.
  pose proof (build_infer_cmd_frame args_map tmp w1) as F.
  destruct (build_infer_cmd args_map tmp w1) as [[cmd|x] w2]; simpl in F; subst w2.
  2:{ intros [= _ <-]. auto. }
  unfold bind at 1, lift at 1.
  destruct (cmd_strings cmd) as [l|x]; [|intros [= _ <-]; auto].
  unfold bind at 1, subprocess_run at 1.
  destruct (run_process _ (files w1)) as [x|rc out eff|msg eff] eqn:Ep.
  - intros [= _ <-]. simpl. auto.
  - discriminate.
  - intros [= <- <-]. right. eexists _, (files w1), msg, eff.
    split; [exact Ep|]. simpl. rewrite S1. auto.
Qed.

(** X23. When the run of a job succeeds ([ok] is true) and the project
    has a ledger, the handler (lines 724-746 and 834-855) answers with the
    result and status 200, the ledger is the former one followed by the
    entry of this run, and no other path is changed by the append. *)
Theorem successful_run_is_recorded (j : job) (w : world) r w1 l :
  run_infer (job_args j) (job_env j) w = (Ok r, w1) →
  ok r = true →
  fs_is_dir (files w1) (job_project_dir j) = true →
  ledger (files w1) (job_project_dir j) = Some l →
  ∃ w2,
    run_job j w = (Ok (Response (ResultBody r) 200), w2)
    ∧ ledger (files w2) (job_project_dir j) = Some (l ++ [job_entry j r])
    ∧ ∀ q, q ≠ history_file (job_project_dir j) →
           fs_lookup (files w2) q = fs_lookup (files w1) q.
Proof.
  intros Hr Hok Hd Hl. eexists. split; [|split].
  - unfold run_job. rewrite (bind_ok _ _ _ _ _ Hr), Hok.
    now rewrite (bind_ok _ _ _ _ _ (append_history_ledger _ _ _ _ Hd Hl)).
  - simpl. apply ledger_stored.
  - intros q Hq. simpl. now apply fs_lookup_store_ne.
Qed.

(** X24. The validation of a request, by form (lines 630-722) or by
    JSON (lines 764-832), spawns no process and leaves the job gate as it
    found it, whatever the request holds. *)
Theorem validation_spawns_nothing
    (form_req : form_request) (json_req : option pyval) (w : world) :
  spawned (snd (form_job form_req w)) = spawned w
  ∧ lock (snd (form_job form_req w)) = lock w
  ∧ spawned (snd (json_job json_req w)) = spawned w
  ∧ lock (snd (json_job json_req w)) = lock w.
Proof.
  destruct (quiet_form_job form_req w) as [L1 S1].
  destruct (quiet_json_job json_req w) as [L2 S2]. auto.
Qed.



(** *** Names *)

Lemma not_first_slash s :
  first_char s ≠ Some "/"%char → Str.starts_with "/" s = false.
Proof.
  destruct s as [|c r]; [reflexivity|]. cbn [first_char]. intros H.
  unfold Str.starts_with. cbn [String.prefix].
  destruct (ascii_dec "/" c) as [<-|?]; [done|reflexivity].
Qed.

(** X25. The directory name that [project_path] and
    [project_path_no_create] make from a project identifier (lines 200-202
    and 211-213) is never empty, holds no [".."], and neither begins nor
    ends with a slash; joined to the base it therefore extends the base
    instead of replacing it. *)
Theorem safe_name_shape (stripped : string) :
  safe_name stripped ≠ ""
  ∧ Str.contains ".." (safe_name stripped) = false
  ∧ first_char (safe_name stripped) ≠ Some "/"%char
  ∧ last_char (safe_name stripped) ≠ Some "/"%char
  ∧ ∀ base, Path.join base (safe_name stripped)
            = base ++ Path.components (safe_name stripped).
Proof.
  assert (first_char (safe_name stripped) ≠ Some "/"%char) as Hfirst.
  { unfold safe_name. destruct (Str.nonempty _); [|discriminate].
    intros H. apply strip_with_first in H. discriminate. }
  split; [|split; [apply safe_name_no_dotdot|split; [exact Hfirst|split]]].
  - unfold safe_name. destruct (Str.nonempty _) eqn:E; [|discriminate].
    unfold Str.nonempty in E. now apply negb_true_iff, bool_decide_eq_false in E.
  - unfold safe_name. destruct (Str.nonempty _); [|discriminate].
    intros H. apply strip_with_last in H. discriminate.
  - intros base. unfold Path.join. now rewrite (not_first_slash _ Hfirst).
Qed.

(** X26. An uploaded file (lines 661-665 and 674-678) is stored below
    the uploads directory with the bytes that were sent, whatever name
    the client gave it, and apart from it only directories are added to
    the disk. *)
Theorem store_upload_stays_in_uploads (kind : string) (f : upload) (w : world) p w' :
  first_char kind ≠ None → first_char kind ≠ Some "/"%char →
  store_upload kind f w = (Ok p, w') →
  UPLOADS_DIR `prefix_of` p
  ∧ fs_lookup (files w') p = Some (File (Bytes (up_data f)))
  ∧ ∀ q, q ≠ p → fs_lookup (files w) q = fs_lookup (files w') q
                 ∨ (fs_lookup (files w) q = None ∧ fs_lookup (files w') q = Some Dir).
Proof.
  intros Hk1 Hk2 H. unfold store_upload in H.
  unfold bind at 1, fresh_hex at 1 in H.
  set (w0 := World (lock w) (files w) (spawned w) (S (uuid_ctr w))) in *.
  set (fname := kind +:+ _) in *.
  apply bind_inv in H as ([] & w1 & E1 & H).
  apply bind_inv in H as ([] & w2 & E2 & H).
  apply bind_inv in H as ([] & w3 & E3 & H). apply ret_inv in H as [-> ->].
  apply mkdir_parents_grown in E1 as [G _]. change (files w0) with (files w) in G.
  destruct (open_truncate_cases (Path.join UPLOADS_DIR fname) w1) as [E|(e & E & _)];
    rewrite E in E2; [|discriminate].
  injection E2 as <-. unfold write_flush, bind, get_files, put_files in E3.
  injection E3 as <-. simpl.
  split; [|split].
  - apply join_relative, not_first_slash. subst fname.
    destruct kind as [|c r]; [done|exact Hk2].
  - apply fs_lookup_store_eq.
  - intros q Hq. rewrite !fs_lookup_store_ne by congruence.
    destruct (G q) as [->|[-> ->]]; auto.
Qed.

End MoreProofs.

(** *** The theorems on the sample host *)

Section OnSample.
Import Sample.
#[local] Existing Instance good_tool.

Example strip_prompt : Str.strip "  uplifting piano 	" = "uplifting piano".
Proof. reflexivity. Qed.

Example replace_dotdot : Str.replace ".." "" "a/../..b/...." = "a//b/".
Proof. reflexivity. Qed.

Example safe_name_traversal :
  safe_name "../..\secret/" = "secret"
  ∧ safe_name ".." = "Default"
  ∧ safe_name "....//" = "Default"
  ∧ safe_name "a/.../b" = "a/./b".
Proof. repeat split; reflexivity. Qed.

(** An identifier that climbs out is resolved inside the base. *)
Example project_path_traversal :
  fst (project_path (PyStr "../../etc") PyNone idle)
  = Ok ["srv"; "DiffRhythm"; "gui"; "projects"; "etc"].
Proof. vm_compute. reflexivity. Qed.

(** The example scenario of the specification: the stub writes
    [output.wav] and exits 0; the result is a success and the ledger of
    the project gains one entry. *)
Example scenario_success :
  let out := api_generate simple_request idle in
  (ok <$> result_of out) = Some true
  ∧ (returncode <$> result_of out) = Some 0%Z
  ∧ (outfile_name <$> result_of out) = Some "output-20240501-093000.wav"
  ∧ lock (snd out) = false
  ∧ ledger (files (snd out)) default_project
    = Some [PyDict [("ts", PyInt 1714555800);
                    ("file", PyStr "output-20240501-093000.wav");
                    ("mode", PyStr "simple"); ("ref_mode", PyStr "prompt");
                    ("prompt", PyStr "uplifting piano"); ("ref_audio", PyNone);
                    ("audio_length", PyInt 95);
                    ("repo_id", PyStr "ASLP-lab/DiffRhythm-1_2");
                    ("steps", PyInt 56);
                    ("cfg_strength", PyFloat (38%Z, 1%nat));
                    ("chunked", PyBool false); ("batch_infer_num", PyInt 1)]].
Proof. repeat split; reflexivity. Qed.

(** The other exit paths: a tool that produces nothing, an interpreter
    that cannot be started. Each ends with the gate free. *)
Example scenario_no_artifact :
  let out := api_generate (oracle := silent_tool) simple_request idle in
  (ok <$> result_of out) = Some false
  ∧ (returncode <$> result_of out) = Some 0%Z
  ∧ (outfile <$> result_of out) = Some ""
  ∧ lock (snd out) = false
  ∧ ledger (files (snd out)) default_project = Some [].
Proof. repeat split; reflexivity. Qed.

(** A tool that names its output itself: the first [.wav] entry of the
    scratch directory is taken, the rest goes with the scratch directory. *)
Example scenario_other_name :
  let out := api_generate (oracle := renaming_tool) simple_request idle in
  (ok <$> result_of out) = Some true
  ∧ fs_lookup (files (snd out))
      (default_project ++ ["output-20240501-093000.wav"])
    = Some (File (Bytes "RIFF"))
  ∧ fs_lookup (files (snd out)) scratch = None
  ∧ fs_lookup (files (snd out)) (scratch ++ ["notes.txt"]) = None
  ∧ fs_lookup (files (snd out)) (default_project ++ ["notes.txt"]) = None.
Proof. repeat split; reflexivity. Qed.

(** A tool that fails after writing its output: the artifact is kept,
    the run is not a success and the ledger stays empty. *)
Example scenario_failed_with_artifact :
  let out := api_generate (oracle := failing_tool) simple_request idle in
  (ok <$> result_of out) = Some false
  ∧ (returncode <$> result_of out) = Some 1%Z
  ∧ (outfile_name <$> result_of out) = Some "output-20240501-093000.wav"
  ∧ fs_lookup (files (snd out))
      (default_project ++ ["output-20240501-093000.wav"])
    = Some (File (Bytes "RIFF"))
  ∧ ledger (files (snd out)) default_project = Some []
  ∧ lock (snd out) = false.
Proof. repeat split; reflexivity. Qed.

Example scenario_spawn_fault :
  let out := api_generate (oracle := no_tool) simple_request idle in
  fst out
  = Ok (error_response
          "Generation failed: [Errno 2] No such file or directory: 'python'" 500)
  ∧ lock (snd out) = false.
Proof. split; reflexivity. Qed.

Lemma gate_released_on_every_exit_witness :
  lock idle = false
  ∧ (∃ r w', api_generate simple_request idle = (Ok r, w')
             ∧ lock w' = false)
  ∧ (∃ r w', api_generate_json
               (Some (PyDict [("ref_prompt", PyStr "uplifting piano")])) idle
             = (Ok r, w')
             ∧ lock w' = false).
Proof.
  split; [reflexivity|].
  apply (gate_released_on_every_exit). reflexivity.
Defined.

Lemma busy_gate_rejects_unchanged_witness :
  lock busy = true
  ∧ api_generate simple_request busy
    = (Ok (Response (ErrorBody "Another job is running") 429), busy)
  ∧ api_generate_json
      (Some (PyDict [("ref_prompt", PyStr "uplifting piano")])) busy
    = (Ok (Response (ErrorBody "Another job is running") 429), busy).
Proof.
  split; [reflexivity|].
  apply (busy_gate_rejects_unchanged). reflexivity.
Defined.

Lemma build_infer_cmd_argument_vector_witness :
  let prepared := form_job simple_request idle in
  let j := job_of prepared in
  (prepared = (Ok (Next j), snd prepared)
   ∨ json_job None idle = (Ok (Next j), snd prepared))
  ∧ ∃ project mode ps ref_prompt ref_audio_path lrc_path,
      job_args j = make_args_map project mode ps ref_prompt ref_audio_path lrc_path
      ∧ (ref_audio_path = None → py_bool ref_prompt = true)
      ∧ ∀ (scratch : path) (w : world),
          ∃ exe,
            sys_executable w = (Ok exe, w)
            ∧ build_infer_cmd (job_args j) scratch w
              = (Ok ([PyStr exe; PyStr (Path.to_string INFER_SCRIPT)]
                     ++ spec_argument_vector scratch ps ref_prompt
                          ref_audio_path lrc_path),
                 w).
Proof.
  intros prepared j.
  assert (prepared = (Ok (Next j), snd prepared)
          ∨ json_job None idle = (Ok (Next j), snd prepared)) as Hjob
    by (left; reflexivity).
  split; [exact Hjob|].
  exact (build_infer_cmd_argument_vector simple_request None idle j
           (snd prepared) Hjob).
Defined.

(** The command of the example scenario, spelled out, and one with an
    audio reference, a lyrics file and the chunked flag. *)
Example command_of_scenario :
  fst (build_infer_cmd (job_args (job_of (form_job simple_request idle)))
                       scratch idle)
  = Ok (List.map PyStr
          ["/usr/bin/python3"; "/srv/DiffRhythm/infer/infer.py";
           "--output-dir"; "/srv/DiffRhythm/gui/tmp/run-03f2a9c1";
           "--audio-length"; "95"; "--repo-id"; "ASLP-lab/DiffRhythm-1_2";
           "--ref-prompt"; "uplifting piano";
           "--batch-infer-num"; "1"; "--steps"; "56"; "--cfg-strength"; "3.8"]).
Proof. reflexivity. Qed.

Example command_with_audio_and_lyrics :
  List.map py_str
    (spec_argument_vector scratch sample_params (PyStr "")
       (Some (default_project ++ ["take1.wav"]))
       (Some (["srv"; "DiffRhythm"; "gui"; "uploads"; "lrc-1-song.lrc"])))
  = ["--output-dir"; "/srv/DiffRhythm/gui/tmp/run-03f2a9c1";
     "--audio-length"; "95"; "--repo-id"; "ASLP-lab/DiffRhythm-1_2";
     "--ref-audio-path"; "/srv/DiffRhythm/gui/projects/Default/take1.wav";
     "--lrc-path"; "/srv/DiffRhythm/gui/uploads/lrc-1-song.lrc";
     "--chunked";
     "--batch-infer-num"; "1"; "--steps"; "56"; "--cfg-strength"; "3.8"].
Proof. reflexivity. Qed.

Lemma history_append_read_round_trip_witness :
  fs_is_dir (files fresh_project) default_project = true
  ∧ ledger (files fresh_project) default_project = Some []
  ∧ (∃ w', append_all default_project
             [entry "a.wav"; entry "b.wav"; entry "c.wav"] fresh_project
           = (Ok tt, w')
           ∧ read_history default_project w'
             = (Ok (PyList ([] ++ [entry "a.wav"; entry "b.wav"; entry "c.wav"])), w'))
  ∧ (∀ e, append_history default_project e fresh_project
          = (Ok tt,
             set_files fresh_project
               (fs_store (files fresh_project) (history_file default_project)
                  (File (Json (PyList ([] ++ [e]))))))).
Proof.
  split; [reflexivity|]. split; [reflexivity|].
  apply (history_append_read_round_trip); reflexivity.
Defined.

(** C9, as the specification has it, fails: while the ledger of one entry
    is rewritten with two, a reader finds a file that is neither. *)
Lemma history_rewrite_not_atomic :
  ¬ atomic_rewrite default_project
      (PyList [entry "output-20240430-180000.wav"; entry "output-20240501-093000.wav"])
      used_project.
Proof.
  intros H. specialize (H 1%nat). simpl in H.
  destruct H as [H|H]; discriminate H.
Qed.

Lemma history_rewritten_in_place_witness :
  fs_is_dir (files used_project) default_project = true
  ∧ ledger (files used_project) default_project
    = Some [entry "output-20240430-180000.wav"]
  ∧ let items := PyList [entry "output-20240430-180000.wav";
                         entry "output-20240501-093000.wav"] in
    write_history_steps default_project items
    = [open_truncate (history_file default_project);
       write_flush (history_file default_project) (Json items)]
    ∧ (let mid := world_after 1
                    (write_history_steps default_project items) used_project in
       fs_lookup (files mid) (history_file default_project) = Some (File (Bytes ""))
       ∧ read_history default_project mid
         = (Ok (PyList []), mid))
    ∧ write_history default_project items used_project
      = (Ok tt, set_files used_project
                  (fs_store (files used_project) (history_file default_project)
                     (File (Json items))))
    ∧ ∀ k q, q ≠ history_file default_project →
        fs_lookup (files (world_after k
                            (write_history_steps default_project items)
                            used_project)) q
        = fs_lookup (files used_project) q.
Proof.
  split; [reflexivity|]. split; [reflexivity|].
  apply (history_rewritten_in_place
           default_project _ used_project
           [entry "output-20240430-180000.wav"]); reflexivity.
Defined.


(** The two failures, traced: the exception leaves [relocate] and the
    scratch directory is as the tool left it. *)
Example relocation_raises :
  let lost := relocate {[ "project" := PyStr "albums/live" ]} scratch 0
                       "generating" after_tool in
  let stuck := relocate {[ "project" := PyStr "Default" ]} scratch 0
                        "generating" after_tool_blocked in
  fst lost
  = Raise (Exn OSError
             "No such file or directory: /srv/DiffRhythm/gui/projects/albums/live")
  ∧ fs_lookup (files (snd lost)) (scratch ++ ["output.wav"])
    = Some (File (Bytes "RIFF"))
  ∧ fst stuck
    = Raise (Exn OSError
               "Destination path already exists: /srv/DiffRhythm/gui/projects/Default/output-20240501-093000.wav/output.wav")
  ∧ snd stuck = after_tool_blocked.
Proof. repeat split; reflexivity. Qed.


Lemma run_ok_iff_exit_zero_and_artifact_witness :
  let args := make_args_map (PyStr "Default") (PyStr "simple") sample_params
                            (PyStr "uplifting piano") None None in
  let env : gmap string pyval := {[ "CUDA_VISIBLE_DEVICES" := PyStr "0" ]} in
  let started := launch args env idle in
  let placed := project_path (dict_get args "project") PyNone (snd started) in
  started = (Ok (scratch, 0%Z, logs_of started), snd started)
  ∧ placed = (Ok default_project, snd placed)
  ∧ movable (files (snd placed)) scratch default_project
  ∧ ∃ r w2, run_infer args env idle = (Ok r, w2) ∧ ok r = true ∧ returncode r = 0%Z.
Proof.
  intros args env started placed.
  assert (started = (Ok (scratch, 0%Z, logs_of started), snd started)) as Hl
    by reflexivity.
  assert (placed = (Ok default_project, snd placed)) as Hpp by reflexivity.
  assert (movable (files (snd placed)) scratch default_project) as Hmov.
  { intros _. split; [reflexivity|]. split; [reflexivity|].
    split; apply under_false; reflexivity. }
  split; [exact Hl|]. split; [exact Hpp|]. split; [exact Hmov|].
  destruct (run_ok_iff_exit_zero_and_artifact args env idle scratch 0
              (logs_of started) (snd started) default_project (snd placed)
              Hl Hpp Hmov)
    as (r & w2 & Hrun & Hok & Hrc & _).
  exists r, w2. split; [exact Hrun|]. split; [|exact Hrc].
  apply Hok. split; reflexivity.
Defined.

Lemma failed_run_keeps_artifact_without_history_witness :
  let prepared := form_job (oracle := failing_tool) simple_request (set_lock idle true) in
  let j := job_of prepared in
  let started := launch (oracle := failing_tool) (job_args j) (job_env j) (snd prepared) in
  let placed := project_path (dict_get (job_args j) "project") PyNone (snd started) in
  let t := files (snd placed) in
  lock idle = false
  ∧ prepared = (Ok (Next j), snd prepared)
  ∧ started = (Ok (scratch, 1%Z, logs_of started), snd started)
  ∧ 1%Z ≠ 0%Z
  ∧ placed = (Ok default_project, snd placed)
  ∧ fs_is_file t (artifact_source t scratch) = true
  ∧ fs_is_dir t (final_path (oracle := failing_tool) default_project) = false
  ∧ apart scratch default_project
  ∧ ∃ r w',
      api_generate (oracle := failing_tool) simple_request idle
      = (Ok (Response (ResultBody r) 200), w')
      ∧ ok r = false ∧ returncode r = 1%Z
      ∧ outfile r = "/srv/DiffRhythm/gui/projects/Default/output-20240501-093000.wav"
      ∧ outfile_name r = "output-20240501-093000.wav"
      ∧ fs_lookup (files w') (final_path (oracle := failing_tool) default_project)
        = Some (File (Bytes "RIFF"))
      ∧ fs_lookup (files w') (history_file default_project) = None.
Proof.
  intros prepared j started placed t.
  assert (prepared = (Ok (Next j), snd prepared)) as Hjob by reflexivity.
  assert (started = (Ok (scratch, 1%Z, logs_of started), snd started)) as Hl
    by reflexivity.
  assert (placed = (Ok default_project, snd placed)) as Hpp by reflexivity.
  assert (fs_is_file t (artifact_source t scratch) = true) as Hfile by reflexivity.
  assert (fs_is_dir t (final_path (oracle := failing_tool) default_project) = false)
    as Hfree by reflexivity.
  assert (apart scratch default_project) as Hapart
    by (split; apply under_false; reflexivity).
  split; [reflexivity|]. split; [exact Hjob|]. split; [exact Hl|].
  split; [discriminate|]. split; [exact Hpp|]. split; [exact Hfile|].
  split; [exact Hfree|]. split; [exact Hapart|].
  destruct (failed_run_keeps_artifact_without_history (oracle := failing_tool)
              simple_request idle j (snd prepared) scratch 1 (logs_of started)
              (snd started) default_project (snd placed)
              eq_refl Hjob Hl ltac:(discriminate) Hpp Hfile Hfree Hapart)
    as (r & w' & Hrun & Hok & Hrc & Hout & _ & Hname & _ & Hat & _ & Hhist).
  exists r, w'. split; [exact Hrun|]. split; [exact Hok|]. split; [exact Hrc|].
  split; [exact Hout|]. split; [exact Hname|].
  split; [rewrite Hat; reflexivity | rewrite Hhist; reflexivity].
Defined.

(** C5, at the input on which the code leaves it: a JSON request whose
    prompt is [null] and that names no reference audio is not answered
    with the validation error but with the response of the unexpected
    fault, status 500; no process is spawned and no scratch directory is
    made. *)
Theorem null_prompt_answered_as_fault :
  json_unreferenced [("ref_prompt", PyNone)]
  ∧ api_generate_json (Some (PyDict [("ref_prompt", PyNone)])) idle
    = (Ok (Response
             (ErrorBody "Generation failed: 'NoneType' object has no attribute 'strip'")
             500),
       World false
             [(["srv"], Dir); (["srv"; "DiffRhythm"], Dir);
              (["srv"; "DiffRhythm"; "gui"], Dir);
              (["srv"; "DiffRhythm"; "gui"; "projects"], Dir);
              (default_project, Dir)]
             [] 0).
Proof. split; [repeat split|]; reflexivity. Qed.

(** The same request with an empty prompt, or with none, gets the
    validation error. *)
Example empty_prompt_rejected :
  fst (api_generate_json (Some (PyDict [("ref_prompt", PyStr "  ")])) idle)
  = Ok (error_response "Text prompt is required when prompt mode is selected" 400)
  ∧ fst (api_generate_json (Some (PyDict [])) idle)
    = Ok (error_response "Text prompt is required when prompt mode is selected" 400)
  ∧ fst (api_generate (FormRequest {[ "ref_mode" := "audio" ]} ∅) idle)
    = Ok (error_response "Audio reference is required when audio mode is selected" 400).
Proof. repeat split; reflexivity. Qed.

End OnSample.

(** *** The helpers and the other routes on the studio *)

Section OnStudio.
Import Sample Studio.
#[local] Existing Instance good_tool.

Lemma project_path_only_makes_directories_witness :
  let out := project_path (PyStr "sketches") PyNone idle in
  out = (Ok (base_dir ++ ["sketches"]), snd out)
  ∧ fs_is_dir (files (snd out)) (base_dir ++ ["sketches"]) = true
  ∧ grown (files idle) (files (snd out))
  ∧ lock (snd out) = lock idle ∧ spawned (snd out) = spawned idle
  ∧ project_path (PyStr "sketches") PyNone (snd out)
    = (Ok (base_dir ++ ["sketches"]), snd out).
Proof.
  intros out.
  assert (out = (Ok (base_dir ++ ["sketches"]), snd out)) as H by reflexivity.
  split; [exact H|].
  exact (project_path_only_makes_directories _ _ _ _ _ H).
Defined.

Lemma config_round_trip_witness :
  fs_is_dir (files studio) APP_ROOT = true
  ∧ fs_is_dir (files studio) CONFIG_PATH = false
  ∧ ∃ w', save_config (PyDict stored_config) studio = (Ok tt, w')
          ∧ load_config w' = (Ok (PyDict stored_config), w')
          ∧ ∀ q, q ≠ CONFIG_PATH → fs_lookup (files w') q = fs_lookup (files studio) q.
Proof.
  split; [reflexivity|]. split; [reflexivity|].
  apply (config_round_trip (PyDict stored_config) studio); reflexivity.
Defined.

Lemma reserved_name_not_created_nor_deleted_witness :
  let name := nbsp +:+ " DEFAULT" +:+ em_space in
  let d := [("name", PyStr name); ("force", PyBool true)] in
  ensure_default_project (config_of studio) studio = (Ok default_project, studio)
  ∧ assoc_get d "name" = Some (PyStr name)
  ∧ is_reserved_project name = true
  ∧ api_projects_create (Some (PyDict d)) studio
    = (Ok (refused "The name 'Default' is reserved." 400), studio)
  ∧ api_projects_delete (Some (PyDict d)) studio
    = (Ok (refused "The 'Default' project cannot be deleted." 400), studio).
Proof.
  intros name d. split; [reflexivity|]. split; [reflexivity|]. split; [reflexivity|].
  apply (reserved_name_not_created_nor_deleted d name studio default_project);
    reflexivity.
Defined.

Lemma reserved_name_not_renamed_witness :
  let new := em_space +:+ "default" +:+ nbsp in
  let d := [("old", PyStr "demo"); ("new", PyStr new)] in
  ensure_default_project (config_of studio) studio = (Ok default_project, studio)
  ∧ assoc_get d "old" = Some (PyStr "demo")
  ∧ assoc_get d "new" = Some (PyStr new)
  ∧ is_reserved_project "demo" || is_reserved_project new = true
  ∧ api_projects_rename (Some (PyDict d)) studio
    = (Ok (refused "You cannot rename a project to the reserved name 'Default'." 400),
       studio).
Proof.
  intros new d. split; [reflexivity|]. split; [reflexivity|]. split; [reflexivity|].
  split; [reflexivity|].
  apply (reserved_name_not_renamed d "demo" new studio default_project);
    reflexivity.
Defined.

Lemma unforced_delete_keeps_audio_witness :
  let d := [("name", PyStr "demo")] in
  assoc_get d "name" = Some (PyStr "demo")
  ∧ is_reserved_project "demo" = false
  ∧ py_bool (default PyNone (assoc_get d "force")) = false
  ∧ project_path (PyStr (Str.strip "demo")) (config_of studio) studio
    = (Ok demo, studio)
  ∧ fs_lookup (files studio) (demo ++ ["take-2.WAV"]) = Some (File (Bytes "RIFF"))
  ∧ str_lower (path_suffix "take-2.WAV") = ".wav"
  ∧ api_projects_delete (Some (PyDict d)) studio
    = (Ok (refused "Project not empty" 400), studio)
  ∧ grown (files studio) (files studio).
Proof.
  intros d. repeat (split; [reflexivity|]).
  apply (unforced_delete_keeps_audio d "demo" "take-2.WAV" studio demo studio);
    try reflexivity.
  exists (File (Bytes "RIFF")). reflexivity.
Defined.

Lemma deleted_project_is_gone_witness :
  let d := [("name", PyStr "demo"); ("force", PyBool true)] in
  assoc_get d "name" = Some (PyStr "demo")
  ∧ is_reserved_project "demo" = false
  ∧ project_path (PyStr (Str.strip "demo")) (config_of studio) studio
    = (Ok demo, studio)
  ∧ py_bool (default PyNone (assoc_get d "force")) = true
  ∧ ∃ r w',
      api_projects_delete (Some (PyDict d)) studio = (Ok r, w')
      ∧ (r = ok_reply ∨ reply_status r = 400%Z)
      ∧ (∀ q, demo `prefix_of` q → q ≠ CONFIG_PATH → fs_lookup (files w') q = None)
      ∧ (∀ q, ¬ demo `prefix_of` q → q ≠ CONFIG_PATH →
              fs_lookup (files w') q = fs_lookup (files studio) q)
      ∧ (demo ≠ [] → fs_is_dir (files w') demo = false).
Proof.
  intros d. repeat (split; [reflexivity|]).
  apply (deleted_project_is_gone d "demo" studio demo studio); try reflexivity.
  left. reflexivity.
Defined.

Lemma default_project_deleted_under_other_name_witness :
  let d := [("name", PyStr ""); ("force", PyBool true)] in
  assoc_get d "name" = Some (PyStr "")
  ∧ is_reserved_project "" = false
  ∧ py_bool (default PyNone (assoc_get d "force")) = true
  ∧ ensure_default_project (config_of studio) studio = (Ok default_project, studio)
  ∧ project_path (PyStr (Str.strip "")) (config_of studio) studio
    = (Ok default_project, studio)
  ∧ ∃ r w',
      api_projects_delete (Some (PyDict d)) studio = (Ok r, w')
      ∧ fs_is_dir (files studio) default_project = true
      ∧ fs_is_dir (files w') default_project = false.
Proof.
  intros d. repeat (split; [reflexivity|]).
  apply (default_project_deleted_under_other_name
           d "" studio default_project studio studio); reflexivity.
Defined.

(** The same on the studio, in full: the forced delete of the project
    with the empty name answers [ok] and the Default directory is gone;
    so it is under the names [".."] and ["Default/"]. *)
Example default_project_deleted_on_studio :
  let gone name :=
    fs_lookup (files_after (api_projects_delete
                 (Some (PyDict [("name", PyStr name); ("force", PyBool true)]))
                 studio)) default_project in
  reply_of (api_projects_delete
              (Some (PyDict [("name", PyStr ""); ("force", PyBool true)])) studio)
  = Some ok_reply
  ∧ gone "" = None ∧ gone ".." = None ∧ gone "Default/" = None
  ∧ gone "demo" = Some Dir.
Proof. repeat split; reflexivity. Qed.

Lemma created_project_is_new_witness :
  let req := Some (PyDict [("name", PyStr " sketches ")]) in
  let out := api_projects_create req studio in
  let r := Reply (PyDict [("ok", PyBool true); ("name", PyStr "sketches")]) 200 in
  out = (Ok r, snd out)
  ∧ reply_status r = 200%Z
  ∧ ∃ p,
      r = Reply (PyDict [("ok", PyBool true); ("name", PyStr (Path.name p))]) 200
      ∧ fs_exists (files studio) p = false
      ∧ fs_is_dir (files (snd out)) p = true
      ∧ grown (files studio) (files (snd out))
      ∧ api_projects_create req (snd out)
        = (Ok (refused "Project already exists" 400), snd out).
Proof.
  intros req out r.
  assert (out = (Ok r, snd out)) as H by reflexivity.
  split; [exact H|]. split; [reflexivity|].
  exact (created_project_is_new req studio r (snd out) H eq_refl).
Defined.

Lemma renamed_project_is_moved_witness :
  let d := [("old", PyStr "demo"); ("new", PyStr "album")] in
  let album := base_dir ++ ["album"] in
  let w' := snd (api_projects_rename (Some (PyDict d)) studio) in
  assoc_get d "old" = Some (PyStr "demo")
  ∧ assoc_get d "new" = Some (PyStr "album")
  ∧ project_path_no_create (PyStr (Str.strip "demo")) (config_of studio) studio
    = (Ok demo, studio)
  ∧ project_path_no_create (PyStr (Str.strip "album")) (config_of studio) studio
    = (Ok album, studio)
  ∧ api_projects_rename (Some (PyDict d)) studio = (Ok ok_reply, w')
  ∧ fs_exists (files studio) demo = true
  ∧ fs_exists (files studio) album = false
  ∧ (∀ q, demo `prefix_of` q → q ≠ CONFIG_PATH → fs_lookup (files w') q = None)
  ∧ (¬ album `prefix_of` demo → ∀ k, album ++ k ≠ CONFIG_PATH →
       fs_lookup (files w') (album ++ k) = fs_lookup (files studio) (demo ++ k))
  ∧ (∀ q, ¬ demo `prefix_of` q → ¬ album `prefix_of` q → q ≠ CONFIG_PATH →
       fs_lookup (files w') q = fs_lookup (files studio) q).
Proof.
  intros d album w'. repeat (split; [reflexivity|]).
  apply (renamed_project_is_moved d "demo" "album" studio demo album studio w');
    reflexivity.
Defined.

Example renamed_project_on_studio :
  let w' := snd (api_projects_rename
                   (Some (PyDict [("old", PyStr "demo"); ("new", PyStr "album")]))
                   studio) in
  fs_lookup (files w') (base_dir ++ ["album"; "take-1.wav"]) = Some (File (Bytes "RIFF"))
  ∧ fs_lookup (files w') (demo ++ ["take-1.wav"]) = None
  ∧ fs_lookup (files w') demo = None.
Proof. repeat split; reflexivity. Qed.

Lemma active_project_follows_witness :
  let d := [("name", PyStr "drafts")] in
  let deleted := snd (api_projects_delete (Some (PyDict d)) drafting) in
  config_of drafting = PyDict stored_config
  ∧ api_projects_delete (Some (PyDict d)) drafting = (Ok ok_reply, deleted)
  ∧ config_of deleted
    = PyDict (assoc_set stored_config "active_project" (PyStr "Default")).
Proof.
  intros d deleted.
  assert (config_of drafting = PyDict stored_config) as Hc by reflexivity.
  split; [exact Hc|]. split; [reflexivity|].
  apply (proj1 (active_project_follows stored_config d drafting deleted Hc)
               "drafts"); reflexivity.
Defined.

Example active_project_renamed_on_studio :
  let d := [("old", PyStr "drafts"); ("new", PyStr "album")] in
  let renamed := snd (api_projects_rename (Some (PyDict d)) drafting) in
  py_get (config_of drafting) "active_project" PyNone = Ok (PyStr "drafts")
  ∧ py_get (config_of renamed) "active_project" PyNone = Ok (PyStr "album").
Proof. split; reflexivity. Qed.

Lemma deleted_file_leaves_history_witness :
  let d := [("project", PyStr "demo"); ("name", PyStr "take-1.wav")] in
  let w' := snd (api_files_delete (Some (PyDict d)) studio) in
  assoc_get d "name" = Some (PyStr "take-1.wav")
  ∧ api_files_delete (Some (PyDict d)) studio = (Ok ok_reply, w')
  ∧ fs_lookup (files w') (demo ++ ["take-1.wav"]) = None
  ∧ ledger (files w') demo = Some [entry "take-2.WAV"]
  ∧ ∃ proj p w1,
      requested_project (PyDict d) (config_of studio) studio = (Ok proj, studio)
      ∧ project_path proj (config_of studio) studio = (Ok p, w1)
      ∧ let target := resolve (Path.join p "take-1.wav") in
        p `prefix_of` target
        ∧ fs_exists (files w1) target = true
        ∧ (∀ q, q ≠ target → q ≠ history_file p →
                fs_lookup (files w') q = fs_lookup (files w1) q)
        ∧ (target ≠ history_file p →
           fs_lookup (files w') target = None
           ∧ ∀ l, ledger (files w1) p = Some l →
                  ledger (files w') p
                  = Some (List.filter
                            (λ e, negb (carries "file" (Path.name target) e)) l)).
Proof.
  intros d w'. repeat (split; [reflexivity|]).
  apply (deleted_file_leaves_history d "take-1.wav" studio w'); reflexivity.
Defined.

Lemma renamed_file_is_retargeted_witness :
  let d := [("project", PyStr "demo"); ("src", PyStr "take-1.wav");
            ("dst", PyStr "intro.wav")] in
  let w' := snd (api_files_rename (Some (PyDict d)) studio) in
  assoc_get d "src" = Some (PyStr "take-1.wav")
  ∧ assoc_get d "dst" = Some (PyStr "intro.wav")
  ∧ api_files_rename (Some (PyDict d)) studio = (Ok ok_reply, w')
  ∧ fs_lookup (files w') (demo ++ ["take-1.wav"]) = None
  ∧ fs_lookup (files w') (demo ++ ["intro.wav"]) = Some (File (Bytes "RIFF"))
  ∧ ledger (files w') demo = Some [entry "intro.wav"; entry "take-2.WAV"]
  ∧ ∃ proj p w1,
      requested_project (PyDict d) (config_of studio) studio = (Ok proj, studio)
      ∧ project_path proj (config_of studio) studio = (Ok p, w1)
      ∧ let src := resolve (Path.join p "take-1.wav") in
        let dst := resolve (Path.join p "intro.wav") in
        p `prefix_of` src ∧ p ≠ src ∧ p `prefix_of` dst ∧ p ≠ dst
        ∧ fs_exists (files w1) src = true
        ∧ (¬ src `prefix_of` history_file p → ¬ dst `prefix_of` history_file p →
           (src ≠ dst → ¬ dst `prefix_of` src →
              fs_lookup (files w') src = None
              ∧ fs_lookup (files w') dst = fs_lookup (files w1) src)
           ∧ ∀ l, ledger (files w1) p = Some l →
                  ledger (files w') p
                  = Some (List.map (repointed (Path.name src) (Path.name dst)) l)).
Proof.
  intros d w'. repeat (split; [reflexivity|]).
  apply (renamed_file_is_retargeted d "take-1.wav" "intro.wav" studio w');
    reflexivity.
Defined.

Lemma file_routes_stay_in_project_witness :
  let data := PyDict [("project", PyStr "demo"); ("name", PyStr "../Default");
                      ("src", PyStr "take-1.wav"); ("dst", PyStr "../../stolen.wav")] in
  requested_project data (config_of studio) studio = (Ok (PyStr "demo"), studio)
  ∧ project_path (PyStr "demo") (config_of studio) studio = (Ok demo, studio)
  ∧ reply_of (api_files_delete (Some data) studio) = Some (refused "Invalid path" 400)
  ∧ reply_of (api_files_rename (Some data) studio) = Some (refused "Invalid path" 400)
  ∧ ∀ q, ¬ demo `prefix_of` q →
         fs_lookup (files (snd (api_files_delete (Some data) studio))) q
         = fs_lookup (files studio) q
         ∧ fs_lookup (files (snd (api_files_rename (Some data) studio))) q
           = fs_lookup (files studio) q.
Proof.
  intros data. do 4 (split; [reflexivity|]).
  exact (file_routes_stay_in_project data studio (PyStr "demo") demo studio
           eq_refl eq_refl).
Defined.

Lemma favorites_saved_are_listed_witness :
  let favorites := PyList [favorite "f1" "Piano"; favorite "f2" "Strings"] in
  let req := Some (PyDict [("favorites", favorites)]) in
  let w' := snd (api_favorites_post req studio) in
  api_favorites_post req studio = (Ok ok_reply, w')
  ∧ api_favorites_get w' = (Ok (Reply (PyDict [("favorites", favorites)]) 200), w')
  ∧ ((ok_reply = ok_reply
      ∧ (∃ data favorites,
            req = Some data
            ∧ py_get data "favorites" (PyList []) = Ok favorites
            ∧ api_favorites_get w'
              = (Ok (Reply (PyDict [("favorites", favorites)]) 200), w'))
      ∧ ∀ q, q ≠ FAVORITES_FILE → fs_lookup (files w') q = fs_lookup (files studio) q)
     ∨ (reply_status ok_reply = 500%Z ∧ w' = studio)).
Proof.
  intros favorites req w'. repeat (split; [reflexivity|]).
  apply (favorites_saved_are_listed req studio ok_reply w'). reflexivity.
Defined.

Example favorite_deleted_on_studio :
  let favorites := PyList [favorite "f1" "Piano"; favorite "f2" "Strings";
                           favorite "f1" "Piano again"] in
  let saved := snd (api_favorites_post (Some (PyDict [("favorites", favorites)])) studio) in
  let bad_json := λ _, Exn ValueError "Expecting value" in
  let out := api_delete_favorite bad_json "f1" saved in
  reply_of out = Some ok_reply
  ∧ reply_of (api_favorites_get (snd out))
    = Some (Reply (PyDict [("favorites", PyList [favorite "f2" "Strings"])]) 200)
  ∧ reply_of (api_delete_favorite bad_json "f1" studio)
    = Some (refused "Favorites file not found" 404).
Proof. repeat split; reflexivity. Qed.

Lemma failed_launch_leaves_scratch_witness :
  let args := make_args_map (PyStr "Default") (PyStr "simple") sample_params
                            (PyStr "uplifting piano") None None in
  let env : gmap string pyval := {[ "CUDA_VISIBLE_DEVICES" := PyStr "0" ]} in
  let e := Exn ValueError
             "'utf-8' codec can't decode byte 0xff in position 0: invalid start byte" in
  let w' := snd (launch (oracle := garbling_tool) args env idle) in
  launch (oracle := garbling_tool) args env idle = (Raise e, w')
  ∧ fs_lookup (files w') (scratch ++ ["output.wav"]) = Some (File (Bytes "RIFF"))
  ∧ run_infer (oracle := garbling_tool) args env idle = (Raise e, w')
  ∧ ((grown (files idle) (files w')
      ∧ (fs_is_dir (files w') scratch = true ∨ files w' = files idle))
     ∨ ∃ sp t msg eff,
         run_process (Oracle := garbling_tool) sp t = Undecodable msg eff
         ∧ spawned w' = spawned idle ++ [sp]
         ∧ grown (files idle) t ∧ fs_is_dir t scratch = true
         ∧ e = Exn ValueError msg ∧ files w' = eff t).
Proof.
  intros args env e w'.
  assert (launch (oracle := garbling_tool) args env idle = (Raise e, w')) as H
    by reflexivity.
  split; [exact H|]. split; [reflexivity|].
  exact (failed_launch_leaves_scratch (oracle := garbling_tool) args env idle e w' H).
Defined.

(** An interpreter that cannot be started: the scratch directory has
    been made and is left. *)
Example failed_spawn_on_studio :
  let args := make_args_map (PyStr "Default") (PyStr "simple") sample_params
                            (PyStr "uplifting piano") None None in
  let env : gmap string pyval := {[ "CUDA_VISIBLE_DEVICES" := PyStr "0" ]} in
  let out := run_infer (oracle := no_tool) args env idle in
  fst out = Raise (Exn OSError "[Errno 2] No such file or directory: 'python'")
  ∧ fs_is_dir (files (snd out)) scratch = true.
Proof. split; reflexivity. Qed.

Lemma successful_run_is_recorded_witness :
  let prepared := form_job simple_request idle in
  let j := job_of prepared in
  let ran := run_infer (job_args j) (job_env j) (snd prepared) in
  let r := result_or_none ran in
  ran = (Ok r, snd ran)
  ∧ ok r = true
  ∧ fs_is_dir (files (snd ran)) (job_project_dir j) = true
  ∧ ledger (files (snd ran)) (job_project_dir j) = Some []
  ∧ ∃ w2,
      run_job j (snd prepared) = (Ok (Response (ResultBody r) 200), w2)
      ∧ ledger (files w2) (job_project_dir j) = Some ([] ++ [job_entry j r])
      ∧ ∀ q, q ≠ history_file (job_project_dir j) →
             fs_lookup (files w2) q = fs_lookup (files (snd ran)) q.
Proof.
  intros prepared j ran r. repeat (split; [reflexivity|]).
  apply (successful_run_is_recorded j (snd prepared) r (snd ran) []); reflexivity.
Defined.

Lemma store_upload_stays_in_uploads_witness :
  let f := Upload "../../etc/passwd" "RIFF" in
  let out := store_upload "ref" f idle in
  let p := UPLOADS_DIR ++ ["ref-03f2a9c1-passwd"] in
  first_char "ref" ≠ None
  ∧ first_char "ref" ≠ Some "/"%char
  ∧ out = (Ok p, snd out)
  ∧ UPLOADS_DIR `prefix_of` p
  ∧ fs_lookup (files (snd out)) p = Some (File (Bytes "RIFF"))
  ∧ ∀ q, q ≠ p →
         fs_lookup (files idle) q = fs_lookup (files (snd out)) q
         ∨ (fs_lookup (files idle) q = None ∧ fs_lookup (files (snd out)) q = Some Dir).
Proof.
  intros f out p.
  assert (out = (Ok p, snd out)) as H by reflexivity.
  split; [discriminate|]. split; [discriminate|]. split; [exact H|].
  exact (store_upload_stays_in_uploads "ref" f idle p (snd out)
           ltac:(discriminate) ltac:(discriminate) H).
Defined.

(** On the studio: names that [secure_name] cleans, a payload that is
    no base64, and a configuration update. *)
Example secure_name_on_studio :
  fst (secure_name (PyStr " ../../etc/pass wd.txt ") idle) = Ok "passwd.txt"
  ∧ fst (secure_name (PyStr "...") idle) = Ok "file-03f2a9"
  ∧ fst (secure_name (PyStr ".hidden.") idle) = Ok "hidden"
  ∧ fst (secure_name (PyStr (nbsp +:+ "café ×2.wav")) idle) = Ok "café2.wav".
Proof. repeat split; reflexivity. Qed.

(** A download that breaks off: the part that had arrived is left in
    the file. *)
Example save_from_url_on_studio :
  let out := save_from_url (oracle := breaking_net)
               (PyStr "http://example.org/a/take.wav") PyNone UPLOADS_DIR idle in
  fst out = Raise (Exn OSError "Connection broken: IncompleteRead")
  ∧ fs_lookup (files (snd out)) (UPLOADS_DIR ++ ["take.wav"])
    = Some (File (Bytes "RIFF")).
Proof. split; reflexivity. Qed.

(** A prompt of blanks outside ASCII is no prompt. *)
Example blank_prompt_on_studio :
  let req := FormRequest {[ "ref_prompt" := nbsp +:+ em_space ]} ∅ in
  fst (api_generate req idle)
  = Ok (error_response "Text prompt is required when prompt mode is selected" 400)
  ∧ spawned (snd (api_generate req idle)) = [].
Proof. split; reflexivity. Qed.

Example save_b64_on_studio :
  let stored := save_b64 (PyStr "UklGRg==") (PyStr "../a b.wav") UPLOADS_DIR idle in
  let failed := save_b64 PyNone (PyStr "../a b.wav") UPLOADS_DIR idle in
  fst stored = Ok (UPLOADS_DIR ++ ["ab.wav"])
  ∧ fs_lookup (files (snd stored)) (UPLOADS_DIR ++ ["ab.wav"])
    = Some (File (Bytes "UklGRg=="))
  ∧ fst failed
    = Raise (Exn TypeError "argument should be a bytes-like object or ASCII string")
  ∧ fs_lookup (files (snd failed)) (UPLOADS_DIR ++ ["ab.wav"]) = Some (File (Bytes "")).
Proof. repeat split; reflexivity. Qed.

Example api_config_post_on_studio :
  let update := PyDict [("steps", PyStr "32"); ("use_chunked", PyInt 1);
                        ("active_project", PyStr "demo")] in
  let out := api_config_post (Some update) studio in
  let bad := api_config_post (Some (PyDict [("steps", PyStr "many")])) studio in
  (∃ cfg, reply_of out = Some (Reply (PyDict [("ok", PyBool true); ("config", cfg)]) 200)
          ∧ py_item cfg "steps" = Ok (PyInt 32)
          ∧ py_item cfg "use_chunked" = Ok (PyBool true)
          ∧ config_of (snd out) = cfg)
  ∧ fst bad = Raise (Exn ValueError "invalid literal for int() with base 10: 'many'")
  ∧ files (snd bad) = files studio.
Proof. split; [eexists; repeat split; reflexivity|split; reflexivity]. Qed.

Example safe_name_on_studio :
  safe_name "" = "Default" ∧ safe_name ".." = "Default"
  ∧ safe_name "Default/" = "Default" ∧ safe_name "/etc/passwd" = "etc/passwd"
  ∧ safe_name "a/..\..\b" = "a///b".
Proof. repeat split; reflexivity. Qed.

End OnStudio.
